(** * The crawl-and-staged-refresh pipeline of routes/chat.js

    A shallow embedding of [scrapeAndSaveSite], [scrapeGitLabData],
    [backgroundRefresh] and the [POST /refresh-data] handler, together with
    the document store (the [GitLabData] collection) and the network they
    talk to; of [scrapeSite], the crawl of the earlier version of the file
    that the batched crawl replaced; and of [getGitLabData],
    [generateResponse] and the [POST /message] handler.

    Asynchronous functions are sequential here: every [await] in the source
    is a monadic bind.  A computation runs on a [World] and ends by
    returning, by throwing a JavaScript error, or by not settling within the
    iteration budget given to the crawl loop (a crawl of an endless site
    never ends).

    What the code cannot control is an [Env]: what each GET request is
    answered with, which store operations fail, what [url.resolve] makes of
    a link, and the random part of the delay between requests.  A response
    carries a body that the markup library loads or one on which it throws.
    Any store operation may fail.  A transaction shows its writes in the
    collection when its callback returned and the commit succeeded, and not
    at all otherwise; the driver's retry of a callback after a transient
    transaction error is not modelled.  Updates through [findOneAndUpdate]
    run no schema validation.  Calls to [logger] have no effect on the
    world and are left out.

    The clock moves in [sleep] only: the time that a request or a store
    operation takes is not counted.  A difference of two readings of the
    clock is therefore the time slept between them, a lower bound of the
    time that has passed; two readings of [new Date()] with an [await]
    between them may coincide here and differ in a run, and no property
    below states that two such readings are equal.  Texts are strings of
    bytes, and white space is the white space of ASCII. *)

From Stdlib Require Import Ascii Lia Bool.
From stdpp Require Import gmap strings list fin_maps pretty.

(** ** Data model *)

(** A JavaScript [Error]: the optional [code] set by the HTTP client
    (['ECONNRESET'], ['ENOTFOUND'], ...) and the [message]. *)
Record JsError := mkError { code : option string; message : string }.

(** One element of [pages]: [{ url, title, text }]. *)
Record PageRecord := mkPage { url : string; title : string; text : string }.

(** The object kept, as JSON text, in the [content] field of a snapshot
    document: [{ title, url, pages }]. *)
Record SiteData := mkSite
  { siteTitle : string; siteUrl : string; pages : list PageRecord }.

(** The [content] field is a string holding JSON.  It is represented by what
    [JSON.parse] makes of it: a site object, some other JSON value whose
    [pages] is not iterable (the conversation record, for one), or text that
    is not JSON at all. *)
Inductive Content :=
  | CSite (d : SiteData)
  | COther (raw : string)
  | CInvalid (raw : string).

(** A document of the collection; [source] is its unique key and is the key
    of the map that holds it. *)
Record Doc := mkDoc { content : Content; scrapedAt : nat }.

(** The process-wide [refreshStatus] object. *)
Record RefreshStatus := mkStatus
  { isRefreshing : bool;
    lastRefreshAttempt : option nat;
    lastRefreshError : option string;
    startTime : option nat }.

(** What the markup query library reports for a loaded document once
    [script, style, nav, footer, header] have been removed: the text of
    [body], of [title], of the first [h1], and the [href] attributes of the
    remaining [a[href]] elements in document order. *)
Record Html := mkHtml
  { bodyText : string; titleText : string; h1Text : string;
    anchors : list string }.

(** [response.data], by what [cheerio.load] makes of it: a document, or the
    error it throws.  The HTTP client hands a body that parses as JSON over
    as the parsed value, and the library throws a [TypeError] on a value that
    is no markup (a number, for one). *)
Inductive Body :=
  | Markup (doc : Html)
  | Rejected (e : JsError).

Inductive HttpResult :=
  | Response (data : Body)
  | Failure (e : JsError).

(** Everything the pipeline can observe or change. *)
Record World := mkWorld
  { store : gmap string Doc;            (* the committed collection *)
    txn : option (gmap string Doc);     (* view of the open transaction *)
    refreshStatus : RefreshStatus;
    clock : nat;                        (* milliseconds; moves in sleep *)
    dbCalls : nat;                      (* store operations issued so far *)
    httpCalls : nat;                    (* GET requests issued so far *)
    requested : list string;            (* URLs fetched, latest first *)
    touched : list string }.            (* store keys named, latest first *)

(** The surroundings the code cannot control: the outcome of the n-th GET,
    whether the n-th store operation fails, [url.resolve] ([None] when it
    throws) and [Math.random() * 1000]. *)
Record Env := mkEnv
  { http : nat → string → HttpResult;
    dbError : nat → option JsError;
    resolve : string → string → option string;
    random : nat → nat }.

Inductive Outcome (A : Type) :=
  | Returned (a : A)
  | Thrown (e : JsError)
  | Unsettled.
Arguments Returned {A} a.
Arguments Thrown {A} e.
Arguments Unsettled {A}.

(** ** The monad of asynchronous computations *)

Definition M (A : Type) : Type := World → Outcome A * World.

Definition ret {A} (a : A) : M A := fun w => (Returned a, w).
Definition throw {A} (e : JsError) : M A := fun w => (Thrown e, w).
Definition unsettled {A} : M A := fun w => (Unsettled, w).

Definition bind {A B} (f : A → M B) (m : M A) : M B := fun w =>
  match m w with
  | (Returned a, w') => f a w'
  | (Thrown e, w') => (Thrown e, w')
  | (Unsettled, w') => (Unsettled, w')
  end.

(** [x ← m; k] and [m;; k] below are stdpp's notations for [bind]. *)
#[export] Instance M_ret : MRet M := @ret.
#[export] Instance M_bind : MBind M := @bind.

Definition getWorld : M World := fun w => (Returned w, w).
Definition modify (f : World → World) : M unit := fun w => (Returned tt, f w).

(** [try { m } catch (e) { h e }] *)
Definition tryCatch {A} (m : M A) (h : JsError → M A) : M A := fun w =>
  match m w with
  | (Thrown e, w') => h e w'
  | r => r
  end.

(** [try { m } finally { f }]: [f] runs after [m] returned or threw; an
    error of [f] replaces the outcome of [m]. *)
Definition tryFinally {A} (m : M A) (f : M unit) : M A := fun w =>
  match m w with
  | (Unsettled, w') => (Unsettled, w')
  | (r, w') =>
      match f w' with
      | (Returned _, w'') => (r, w'')
      | (Thrown e, w'') => (Thrown e, w'')
      | (Unsettled, w'') => (Unsettled, w'')
      end
  end.

(** ** Field updates of the world *)

Definition withStore (s : gmap string Doc) (w : World) : World :=
  mkWorld s (txn w) (refreshStatus w) (clock w) (dbCalls w) (httpCalls w)
          (requested w) (touched w).
Definition withTxn (t : option (gmap string Doc)) (w : World) : World :=
  mkWorld (store w) t (refreshStatus w) (clock w) (dbCalls w) (httpCalls w)
          (requested w) (touched w).
Definition withStatus (r : RefreshStatus) (w : World) : World :=
  mkWorld (store w) (txn w) r (clock w) (dbCalls w) (httpCalls w)
          (requested w) (touched w).
Definition advance (ms : nat) (w : World) : World :=
  mkWorld (store w) (txn w) (refreshStatus w) (clock w + ms) (dbCalls w)
          (httpCalls w) (requested w) (touched w).
Definition countDb (keys : list string) (w : World) : World :=
  mkWorld (store w) (txn w) (refreshStatus w) (clock w) (S (dbCalls w))
          (httpCalls w) (requested w) (keys ++ touched w).
Definition countHttp (u : string) (w : World) : World :=
  mkWorld (store w) (txn w) (refreshStatus w) (clock w) (dbCalls w)
          (S (httpCalls w)) (u :: requested w) (touched w).

(** ** String helpers *)

(** [s.startsWith(p)] *)
Definition startsWith (s p : string) : bool := String.prefix p s.

(** [s.includes(sub)] *)
Fixpoint includes (s sub : string) : bool :=
  String.prefix sub s ||
  match s with
  | EmptyString => false
  | String _ s' => includes s' sub
  end.

(** [s.trim().replace(/\s+/g, ' ')]: the words of [s] joined by one space.
    Words are separated by ASCII white space; the blanks beyond ASCII that
    JavaScript also takes for white space (U+00A0 and the like) count as
    letters here, and lengths count bytes where JavaScript counts UTF-16
    units. *)
Fixpoint joinWords (ws : list string) : string :=
  match ws with
  | [] => ""
  | [x] => x
  | x :: rest => x +:+ " " +:+ joinWords rest
  end.
Definition normalizeSpace (s : string) : string := joinWords (String.words s).

(** [s.trim()], for ASCII white space. *)
Fixpoint dropSpace (s : string) : string :=
  match s with
  | String a s' => if Ascii.is_space a then dropSpace s' else s
  | EmptyString => EmptyString
  end.
Definition trim (s : string) : string :=
  String.rev (dropSpace (String.rev (dropSpace s))).

Definition codeIs (e : JsError) (c : string) : bool :=
  match code e with
  | Some c' => bool_decide (c' = c)
  | None => false
  end.

(** ** The store and the network *)

Section Pipeline.
Variable env : Env.

(** Every store operation is a round trip that may fail; the time it takes
    is not counted. *)
Definition dbRoundTrip (keys : list string) : M unit := fun w =>
  match dbError env (dbCalls w) with
  | Some e => (Thrown e, countDb keys w)
  | None => (Returned tt, countDb keys w)
  end.

(** [GitLabData.findOne({ source })] *)
Definition findOne (source : string) : M (option Doc) :=
  dbRoundTrip [source];;
  w ← getWorld;
  mret (store w !! source).

(** Writes given [{ session }] go to the open transaction, the others
    straight to the collection. *)
Definition write (inSession : bool) (f : gmap string Doc → gmap string Doc)
  : M unit :=
  modify (fun w =>
    match inSession, txn w with
    | true, Some t => withTxn (Some (f t)) w
    | _, _ => withStore (f (store w)) w
    end).

(** [GitLabData.findOneAndUpdate({ source }, { content, scrapedAt: new Date() },
    { upsert: true })] *)
Definition findOneAndUpdate (source : string) (c : Content) (inSession : bool)
  : M unit :=
  dbRoundTrip [source];;
  w ← getWorld;
  write inSession (insert source (mkDoc c (clock w))).

(** [GitLabData.deleteMany({ source: { $in: sources } })] *)
Definition deleteMany (sources : list string) (inSession : bool) : M unit :=
  dbRoundTrip sources;;
  write inSession (fun s => foldr delete s sources).

(** [mongoose.startSession()] *)
Definition startSession : M unit := dbRoundTrip [].

(** [session.endSession()]: the driver swallows the errors of ending a
    session. *)
Definition endSession : M unit := modify (withTxn None).

(** [session.withTransaction(body)]: the writes of [body] made in the
    session show in the collection only if [body] returns and the commit
    succeeds; otherwise the transaction is aborted and the error rethrown. *)
Definition withTransaction (body : M unit) : M unit := fun w =>
  match body (withTxn (Some (store w)) w) with
  | (Returned _, w') =>
      match dbError env (dbCalls w') with
      | Some e => (Thrown e, withTxn None (countDb [] w'))
      | None =>
          (Returned tt,
           withTxn None (withStore (default (store w') (txn w')) (countDb [] w')))
      end
  | (Thrown e, w') => (Thrown e, withTxn None w')
  | (Unsettled, w') => (Unsettled, w')
  end.

(** [sleep(ms)] *)
Definition sleep (ms : nat) : M unit := modify (advance ms).

(** [axios.get(url, { timeout: 15000, headers })] *)
Definition axiosGet (u : string) : M Body := fun w =>
  match http env (httpCalls w) u with
  | Response d => (Returned d, countHttp u w)
  | Failure e => (Thrown e, countHttp u w)
  end.

(** ** The fetch loop of [scrapeAndSaveSite] (retry and backoff) *)

(** [1000 + Math.random() * 1000]: between one and two seconds. *)
Definition politeDelay (r : nat) : nat := 1000 + r `mod` 1000.

(** [1500 * attempt] *)
Definition backoff (attempt : nat) : nat := 1500 * attempt.

Definition isHangup (e : JsError) : bool :=
  codeIs e "ECONNRESET" || includes (message e) "socket hang up".

Definition isNetwork (e : JsError) : bool :=
  codeIs e "ECONNABORTED" || codeIs e "ENOTFOUND" || codeIs e "EAI_AGAIN".

(** [while (attempt < 3 && !success) { try { ... } catch (e) { ... } }].
    [remaining] is [3 - attempt], so that the guard [attempt < 3] is
    [remaining ≠ 0].  The result is [Some response] when [success] was set
    and [None] otherwise. *)
Fixpoint fetchWithRetry (remaining : nat) (u : string) (attempt : nat)
  : M (option Body) :=
  match remaining with
  | 0 => mret None
  | S remaining' =>
      tryCatch
        (w ← getWorld;
         sleep (politeDelay (random env (httpCalls w)));;
         response ← axiosGet u;
         mret (Some response))
        (fun e =>
           let attempt := S attempt in
           if (isHangup e || isNetwork e) && (attempt <? 3)
           then sleep (backoff attempt);; fetchWithRetry remaining' u attempt
           else mret None)
  end.

(** ** Extraction *)

(** [cheerio.load(response.data)]; the call stands outside every [try]. *)
Definition cheerioLoad (data : Body) : M Html :=
  match data with
  | Markup doc => mret doc
  | Rejected e => throw e
  end.

Definition nonEmpty (s : string) : bool := negb (String.eqb s "").

(** [$('title').text().trim() || $('h1').first().text().trim() || 'Untitled'] *)
Definition pageTitle (h : Html) : string :=
  if nonEmpty (trim (titleText h)) then trim (titleText h)
  else if nonEmpty (trim (h1Text h)) then trim (h1Text h)
  else "Untitled".

(** [href && !href.startsWith('mailto') && !href.startsWith('#') &&
    !href.startsWith('javascript:')] *)
Definition followable (href : string) : bool :=
  nonEmpty href && negb (startsWith href "mailto") &&
  negb (startsWith href "#") && negb (startsWith href "javascript:").

(** The body of [$('a[href]').each(...)]: the list [newLinks]. *)
Fixpoint extractLinks (rootUrl u : string) (visitedUrls : gset string)
    (hrefs : list string) : list string :=
  match hrefs with
  | [] => []
  | href :: rest =>
      let more := extractLinks rootUrl u visitedUrls rest in
      if followable href then
        match resolve env u href with
        | Some absoluteUrl =>
            if startsWith absoluteUrl rootUrl &&
               negb (bool_decide (absoluteUrl ∈ visitedUrls))
            then absoluteUrl :: more
            else more
        | None => more
        end
      else more
  end.

(** ** The batched writer *)

Definition emptySite (rootUrl : string) : SiteData := mkSite "" rootUrl [].

Definition syntaxError : JsError :=
  mkError None "Unexpected token in JSON".
Definition notIterable : JsError :=
  mkError None "existingData.pages is not iterable".

(** [JSON.parse(content)]; [None] stands for a value without a list of pages. *)
Definition jsonParse (c : Content) : M (option SiteData) :=
  match c with
  | CSite d => mret (Some d)
  | COther _ => mret None
  | CInvalid _ => throw syntaxError
  end.

(** An empty string is falsy. *)
Definition truthy (c : Content) : bool :=
  match c with
  | CInvalid "" => false
  | _ => true
  end.

(** [existingData.pages = [...existingData.pages, ...currentBatch]] *)
Definition appendPages (existingData : option SiteData)
    (currentBatch : list PageRecord) : M SiteData :=
  match existingData with
  | Some d => mret (mkSite (siteTitle d) (siteUrl d) (pages d ++ currentBatch))
  | None => throw notIterable
  end.

(** The save inside the loop: returns the new [totalPagesSaved]. *)
Definition saveBatch (rootUrl source : string) (currentBatch : list PageRecord)
    (totalPagesSaved : nat) : M nat :=
  tryCatch
    (existingDoc ← findOne source;
     existingData ←
       tryCatch
         (match existingDoc with
          | Some doc =>
              if truthy (content doc) then jsonParse (content doc)
              else mret (Some (emptySite rootUrl))
          | None => mret (Some (emptySite rootUrl))
          end)
         (fun _ => mret (Some (emptySite rootUrl)));
     updated ← appendPages existingData currentBatch;
     findOneAndUpdate source (CSite updated) false;;
     mret (totalPagesSaved + length currentBatch))
    (fun error => throw error).

(** The save after the loop. *)
Definition saveFinalBatch (rootUrl source : string)
    (currentBatch : list PageRecord) (totalPagesSaved : nat) : M nat :=
  tryCatch
    (existingDoc ← findOne source;
     existingData ←
       match existingDoc with
       | Some doc => jsonParse (content doc)
       | None => mret (Some (emptySite rootUrl))
       end;
     updated ← appendPages existingData currentBatch;
     findOneAndUpdate source (CSite updated) false;;
     mret (totalPagesSaved + length currentBatch))
    (fun error => throw error).

(** ** The frontier crawler *)

(** The local variables of [scrapeAndSaveSite]. *)
Record Frontier := mkFrontier
  { queue : list string;
    visitedUrls : gset string;
    currentBatch : list PageRecord;
    totalPagesSaved : nat }.

(** One turn of [while (queue.length > 0 && totalPagesSaved < maxPages)]. *)
Definition crawlStep (rootUrl source : string) (maxPages batchSize : nat)
    (st : Frontier) : M Frontier :=
  match queue st with
  | [] => mret st
  | u :: rest =>
      if bool_decide (u ∈ visitedUrls st)
      then mret (mkFrontier rest (visitedUrls st) (currentBatch st)
                            (totalPagesSaved st))
      else
        let visited := {[u]} ∪ visitedUrls st in
        response ← fetchWithRetry 3 u 0;
        match response with
        | None =>
            mret (mkFrontier rest visited (currentBatch st) (totalPagesSaved st))
        | Some response =>
            html ← cheerioLoad response;
            let text := normalizeSpace (bodyText html) in
            saved ←
              (if 100 <? String.length text then
                 let batch :=
                   currentBatch st ++
                   [mkPage u (pageTitle html) (String.substring 0 5000 text)] in
                 if (batchSize <=? length batch) ||
                    (maxPages <=? totalPagesSaved st + length batch)
                 then
                   total ← saveBatch rootUrl source batch (totalPagesSaved st);
                   mret ([], total)
                 else mret (batch, totalPagesSaved st)
               else mret (currentBatch st, totalPagesSaved st));
            let '(batch, total) := saved in
            let newLinks := extractLinks rootUrl u visited (anchors html) in
            mret (mkFrontier
                    (if total <? maxPages then rest ++ take 5 newLinks else rest)
                    visited batch total)
        end
  end.

(** The loop; [fuel] bounds the number of turns, and a loop that needs more
    does not settle. *)
Fixpoint crawlLoop (fuel : nat) (rootUrl source : string)
    (maxPages batchSize : nat) (st : Frontier) : M Frontier :=
  if negb (bool_decide (queue st = [])) && (totalPagesSaved st <? maxPages)
  then
    match fuel with
    | 0 => unsettled
    | S fuel' =>
        st' ← crawlStep rootUrl source maxPages batchSize st;
        crawlLoop fuel' rootUrl source maxPages batchSize st'
    end
  else mret st.

(** [scrapeAndSaveSite(rootUrl, source, maxPages = 50, batchSize = 10)] *)
Definition scrapeAndSaveSite (fuel : nat) (rootUrl source : string)
    (maxPages batchSize : nat) : M unit :=
  findOneAndUpdate source (CSite (emptySite rootUrl)) false;;
  st ← crawlLoop fuel rootUrl source maxPages batchSize
         (mkFrontier [rootUrl] ∅ [] 0);
  if bool_decide (currentBatch st = []) then mret tt
  else
    saveFinalBatch rootUrl source (currentBatch st) (totalPagesSaved st);;
    mret tt.

(** ** The staged swap: [scrapeGitLabData] *)

Definition GITLAB_SOURCES_handbook : string := "https://handbook.gitlab.com".
Definition GITLAB_SOURCES_direction : string :=
  "https://about.gitlab.com/direction/".

Definition stagingKeys : list string :=
  ["handbook_staging"; "direction_staging"].

(** The callback given to [session.withTransaction]. *)
Definition promoteStaging : M unit :=
  handbookStaging ← findOne "handbook_staging";
  directionStaging ← findOne "direction_staging";
  match handbookStaging with
  | Some d => findOneAndUpdate "handbook" (content d) true
  | None => mret tt
  end;;
  match directionStaging with
  | Some d => findOneAndUpdate "direction" (content d) true
  | None => mret tt
  end;;
  deleteMany stagingKeys true.

Definition scrapeGitLabData (fuel : nat) : M unit :=
  tryCatch
    (scrapeAndSaveSite fuel GITLAB_SOURCES_handbook "handbook_staging" 50 10;;
     scrapeAndSaveSite fuel GITLAB_SOURCES_direction "direction_staging" 50 10;;
     startSession;;
     tryFinally (withTransaction promoteStaging) endSession)
    (fun error =>
       tryCatch (deleteMany stagingKeys false) (fun _ => mret tt);;
       throw error).

(** ** The refresh orchestrator: [backgroundRefresh] *)

Record RefreshResult := mkResult { success : bool; resultMessage : string }.

Definition beginRefresh (w : World) : World :=
  withStatus (mkStatus true (Some (clock w)) None (Some (clock w))) w.

Definition recordError (msg : string) (w : World) : World :=
  withStatus (mkStatus (isRefreshing (refreshStatus w))
                       (lastRefreshAttempt (refreshStatus w))
                       (Some msg)
                       (startTime (refreshStatus w))) w.

Definition clearRefreshing (w : World) : World :=
  withStatus (mkStatus false
                       (lastRefreshAttempt (refreshStatus w))
                       (lastRefreshError (refreshStatus w))
                       (startTime (refreshStatus w))) w.

Definition backgroundRefresh (fuel : nat) : M RefreshResult :=
  w ← getWorld;
  if isRefreshing (refreshStatus w)
  then mret (mkResult false "Refresh already in progress")
  else
    modify beginRefresh;;
    tryFinally
      (tryCatch
         (scrapeGitLabData fuel;;
          mret (mkResult true "Refresh completed successfully"))
         (fun error =>
            modify (recordError (message error));;
            mret (mkResult false ("Refresh failed: " +:+ message error))))
      (modify clearRefreshing).

(** ** The manual trigger: [router.post('/refresh-data', ...)] *)

Inductive Reply :=
  | Json (msg : string) (replyIsRefreshing : bool)
         (replyLastRefreshAttempt replyStartTime : option nat)
         (timestamp : nat)
  | Status500 (error msg : string).

Definition postRefreshData (fuel : nat) : M Reply :=
  tryCatch
    (result ← backgroundRefresh fuel;
     w ← getWorld;
     mret (Json (if success result
                 then "GitLab data refresh started in background"
                 else resultMessage result)
                (isRefreshing (refreshStatus w))
                (lastRefreshAttempt (refreshStatus w))
                (startTime (refreshStatus w))
                (clock w)))
    (fun err => mret (Status500 "Failed to start refresh" (message err))).

End Pipeline.

(** ** The crawl kept in memory: the earlier [scrapeSite]

    The version of the file before staging crawls with the same loop, and
    the same fetch, extraction and link code, but keeps the pages in
    [data.pages] and returns [data]; storing it was left to the caller. *)

Module ScrapeSite.

(** The local variables of [scrapeSite]. *)
Record Locals := mkLocals
  { queue : list string;
    visitedUrls : gset string;
    data : SiteData }.

Section WithEnv.
Variable env : Env.

(** One turn of [while (queue.length > 0 && data.pages.length < maxPages)]. *)
Definition turn (rootUrl : string) (maxPages : nat) (st : Locals) : M Locals :=
  match queue st with
  | [] => mret st
  | u :: rest =>
      if bool_decide (u ∈ visitedUrls st)
      then mret (mkLocals rest (visitedUrls st) (data st))
      else
        let visited := {[u]} ∪ visitedUrls st in
        response ← fetchWithRetry env 3 u 0;
        match response with
        | None => mret (mkLocals rest visited (data st))
        | Some response =>
            html ← cheerioLoad response;
            let text := normalizeSpace (bodyText html) in
            let collected :=
              if 100 <? String.length text
              then pages (data st) ++
                   [mkPage u (pageTitle html) (String.substring 0 5000 text)]
              else pages (data st) in
            let newLinks := extractLinks env rootUrl u visited (anchors html) in
            mret (mkLocals
                    (if length collected <? maxPages
                     then rest ++ take 5 newLinks else rest)
                    visited
                    (mkSite (siteTitle (data st)) (siteUrl (data st)) collected))
        end
  end.

Fixpoint loop (fuel : nat) (rootUrl : string) (maxPages : nat) (st : Locals)
  : M Locals :=
  if negb (bool_decide (queue st = [])) &&
     (length (pages (data st)) <? maxPages)
  then
    match fuel with
    | 0 => unsettled
    | S fuel' =>
        st' ← turn rootUrl maxPages st;
        loop fuel' rootUrl maxPages st'
    end
  else mret st.

(** [scrapeSite(rootUrl, maxPages = 100)] *)
Definition scrapeSite (fuel : nat) (rootUrl : string) (maxPages : nat)
  : M SiteData :=
  st ← loop fuel rootUrl maxPages
         (mkLocals [rootUrl] ∅ (mkSite "" rootUrl []));
  mret (data st).

End WithEnv.
End ScrapeSite.

(** ** Answering a message: [getGitLabData], [generateResponse] and
    [POST /message]

    What the handler cannot control besides the store: the answer of the
    language model to a prompt sent at a given time, and the text
    [JSON.stringify] makes of a conversation.  The time a call to the model
    takes is not counted. *)

(** A value of a request body, as far as the handlers look at it: a string,
    or something else of which only its truthiness matters ([undefined],
    [null], numbers, objects). *)
Inductive JsValue :=
  | VString (s : string)
  | VOther (isTruthy : bool).

Definition truthyValue (v : JsValue) : bool :=
  match v with
  | VString s => nonEmpty s
  | VOther b => b
  end.

(** A field of the [context] handed to [generateResponse]: a boolean, a
    site object, or nothing ([null], [undefined]). *)
Inductive ContextField :=
  | Flag (b : bool)
  | SiteObject (d : SiteData)
  | Missing.

(** [{ handbook, direction, lastUpdated }] *)
Record Context := mkContext
  { handbook : ContextField;
    direction : ContextField;
    lastUpdated : option nat }.

(** [{ userMessage, botResponse, timestamp, context }] *)
Record Conversation := mkConversation
  { userMessage : string;
    botResponse : string;
    conversationTime : nat;
    context : Context }.

Inductive AiResult :=
  | Generated (text : string)
  | AiFailure (e : JsError).

Record Services := mkServices
  { generateContent : nat → string → AiResult;
    stringify : Conversation → string }.

(** [{ handbook, direction, lastUpdated }] of the reply. *)
Record Sources := mkSources
  { sourceHandbook : option string;
    sourceDirection : option string;
    sourceLastUpdated : option nat }.

Inductive MessageReply :=
  | Answered (id : string) (answer : string) (timestamp : nat)
             (conversationId : JsValue) (sources : Sources)
  | Status400 (error : string)
  | MessageStatus500 (error msg : string).

(** [field || {}] then [.pages || []] *)
Definition pagesOf (field : ContextField) : list PageRecord :=
  match field with
  | SiteObject d => pages d
  | Flag _ => []
  | Missing => []
  end.

(** [(field.pages || []).map(p => p.text).join(' ').slice(0, 10000)] *)
#[warnings="-abstract-large-number"] Definition snippet (field : ContextField) : string :=
  String.substring 0 10000 (joinWords (text <$> pagesOf field)).

(** [field ? url : null] *)
Definition cited (field : ContextField) (url : string) : option string :=
  match field with
  | Flag false => None
  | Missing => None
  | _ => Some url
  end.

(** The two prompt templates of [generateResponse]. *)
Definition improvementPrompt (userMessage improvementRequest handbookText directionText : string) : string :=
  "
You are a thoughtful and articulate AI assistant trained on GitLab's official public documentation.

The user has requested an improvement to your previous response. Here's the context:

Previous User Question: " +:+
  userMessage +:+
  "
User's Improvement Request: " +:+
  improvementRequest +:+
  "

Please provide an improved response that addresses the user's feedback. You must follow these guidelines:

1. Write in clear, plain English — like you're talking to a colleague or explaining to a curious user.
2. Do NOT use any formatting symbols like asterisks (*), underscores (_), hashtags (#), bullet points, or Markdown/HTML. Just write natural sentences and paragraphs.
3. Do not list items with numbers or dashes — explain them smoothly in paragraph form.
4. Avoid robotic or overly formal language. Be helpful and conversational.
5. If the answer is not found in the documentation, say so clearly and suggest visiting the official GitLab Handbook or Direction pages for more information.

Reference content:

GitLab Handbook Snippet:
" +:+
  handbookText +:+
  "

GitLab Direction Snippet:
" +:+
  directionText +:+
  "

Now provide your improved response in natural language:
".

Definition answerPrompt (handbookText directionText userMessage : string) : string :=
  "
You are a thoughtful and articulate AI assistant trained on GitLab's official public documentation, including the GitLab Handbook and Direction pages.

Your role is to answer the user's question using only the context provided below. You must follow these guidelines strictly:

1. Write in clear, plain English — like you're talking to a colleague or explaining to a curious user.
2. Do NOT use any formatting symbols like asterisks (*), underscores (_), hashtags (#), bullet points, or Markdown/HTML. Just write natural sentences and paragraphs.
3. Do not list items with numbers or dashes — explain them smoothly in paragraph form.
4. Avoid robotic or overly formal language. Be helpful and conversational.
5. If the answer is not found in the documentation, say so clearly and suggest visiting the official GitLab Handbook or Direction pages for more information.

Reference content:

GitLab Handbook Snippet:
" +:+
  handbookText +:+
  "

GitLab Direction Snippet:
" +:+
  directionText +:+
  "

User Question:
" +:+
  userMessage +:+
  "

Now write your complete answer in natural language:
".

Definition aiFailed : JsError :=
  mkError None "Failed to generate response from AI model".

Section Chat.
Variable env : Env.
Variable svc : Services.

(** [getGitLabData()]: two reads that select [scrapedAt] only.  The warning
    logged when the data is older than twelve hours has no effect. *)
Definition getGitLabData : M Context :=
  handbookDoc ← findOne env "handbook";
  directionDoc ← findOne env "direction";
  mret (mkContext
          (Flag (bool_decide (is_Some handbookDoc)))
          (Flag (bool_decide (is_Some directionDoc)))
          (match handbookDoc with
           | Some doc => Some (scrapedAt doc)
           | None =>
               match directionDoc with
               | Some doc => Some (scrapedAt doc)
               | None => None
               end
           end)).

(** [generateResponse(userMessage, context, improvementRequest = null)] *)
Definition generateResponse (userMessage : string) (context : Context)
    (improvementRequest : option string) : M string :=
  let handbookText := snippet (handbook context) in
  let directionText := snippet (direction context) in
  let prompt :=
    match improvementRequest with
    | Some request =>
        if nonEmpty request
        then improvementPrompt userMessage request handbookText directionText
        else answerPrompt handbookText directionText userMessage
    | None => answerPrompt handbookText directionText userMessage
    end in
  tryCatch
    (w ← getWorld;
     match generateContent svc (clock w) prompt with
     | Generated text => mret text
     | AiFailure e => throw e
     end)
    (fun _ => throw aiFailed).

(** [GitLabData.findOneAndUpdate({ source }, { content }, { upsert: true })]:
    [scrapedAt] is not in the update; a document that is inserted gets the
    default of the schema, the time of the insert. *)
Definition findOneAndUpdateContent (source : string) (c : Content) : M unit :=
  dbRoundTrip env [source];;
  w ← getWorld;
  write false
    (fun s =>
       <[source := mkDoc c (match s !! source with
                            | Some doc => scrapedAt doc
                            | None => clock w
                            end)]> s).

(** [router.post('/message', ...)] with [req.body] being
    [{ message, conversationId }]. *)
Definition postMessage (message' conversationId : JsValue) : M MessageReply :=
  tryCatch
    (match message' with
     | VString userMessage =>
         if nonEmpty userMessage then
           context ← getGitLabData;
           aiMessage ← generateResponse userMessage context None;
           w ← getWorld;
           findOneAndUpdateContent "last_conversation"
             (COther (stringify svc
                        (mkConversation userMessage aiMessage (clock w) context)));;
           w ← getWorld;
           mret (Answered
                   (pretty (clock w)) aiMessage (clock w)
                   (if truthyValue conversationId then conversationId
                    else VString (pretty (clock w)))
                   (mkSources
                      (cited (handbook context) GITLAB_SOURCES_handbook)
                      (cited (direction context) GITLAB_SOURCES_direction)
                      (lastUpdated context)))
         else mret (Status400 "Message is required and must be a string")
     | VOther _ => mret (Status400 "Message is required and must be a string")
     end)
    (fun err => mret (MessageStatus500 "Failed to process message" (message err))).

End Chat.

(** * Vocabulary of the properties *)

(** ** Fetching and crawling *)

(** The test of the fetch loop that decides on another attempt. *)
Definition transient (e : JsError) : bool := isHangup e || isNetwork e.

(** The message of [e] holds 'socket hang up' somewhere. *)
Definition saysHangUp (e : JsError) : Prop :=
  ∃ before after, message e = before +:+ "socket hang up" +:+ after.

(** The errors that get another attempt, spelled out: the code
    [ECONNRESET], a message that holds 'socket hang up', and the codes
    [ECONNABORTED] (the time-out of the HTTP client), [ENOTFOUND] and
    [EAI_AGAIN] (name resolution). *)
Definition retried (e : JsError) : Prop :=
  code e = Some "ECONNRESET" ∨
  saysHangUp e ∨
  code e = Some "ECONNABORTED" ∨
  code e = Some "ENOTFOUND" ∨
  code e = Some "EAI_AGAIN".

(** The errors the spec calls transient: connection reset, hang up, timeout,
    DNS failure.  A time-out comes with the code [ECONNABORTED] when the
    HTTP client gives up after its own delay, and with [ETIMEDOUT] when the
    connection times out underneath it. *)
Definition transientBySpec (e : JsError) : Prop :=
  code e = Some "ECONNRESET" ∨
  saysHangUp e ∨
  code e = Some "ECONNABORTED" ∨
  code e = Some "ETIMEDOUT" ∨
  code e = Some "ENOTFOUND" ∨
  code e = Some "EAI_AGAIN".

(** The world after [n] requests for [u] that took [ms] milliseconds. *)
Definition afterRequests (n ms : nat) (u : string) (w : World) : World :=
  mkWorld (store w) (txn w) (refreshStatus w) (clock w + ms) (dbCalls w)
          (httpCalls w + n) (replicate n u ++ requested w) (touched w).

(** The pages of the snapshot kept under [source], if there is one. *)
Definition snapshotPages (source : string) (w : World)
  : option (list PageRecord) :=
  match store w !! source with
  | Some (mkDoc (CSite d) _) => Some (pages d)
  | _ => None
  end.

(** The record built for a page that is kept. *)
Definition pageOf (u : string) (h : Html) : PageRecord :=
  mkPage u (pageTitle h) (String.substring 0 5000 (normalizeSpace (bodyText h))).

(** The text left after extraction is too short to keep the page. *)
Definition thin (h : Html) : Prop :=
  String.length (normalizeSpace (bodyText h)) ≤ 100.

(** The queue after a fetched page has been handled. *)
Definition enqueued (maxPages total : nat) (rest newLinks : list string)
  : list string :=
  if total <? maxPages then rest ++ take 5 newLinks else rest.

(** The links of a page that may be queued: the followable [href]s, resolved
    against the page, kept when they start with the root URL and have not
    been visited; in document order. *)
Definition discovered (env : Env) (rootUrl u : string)
    (visitedUrls : gset string) (hrefs : list string) : list string :=
  List.filter
    (fun l => startsWith l rootUrl && negb (bool_decide (l ∈ visitedUrls)))
    (omap (resolve env u) (List.filter followable hrefs)).

(** Some response carries a body that the markup library rejects. *)
Definition rejectsBody (env : Env) : Prop :=
  ∃ n u e, http env n u = Response (Rejected e).

(** What can make a crawl throw: a store operation that fails, or a body
    that the markup library rejects. *)
Definition faulty (env : Env) : Prop :=
  (∃ n, is_Some (dbError env n)) ∨ rejectsBody env.

(** The frontier after [u] has been given up: only the queue and the
    visited set have moved. *)
Definition givenUp (st : Frontier) (u : string) (rest : list string)
  : Frontier :=
  mkFrontier rest ({[u]} ∪ visitedUrls st) (currentBatch st)
             (totalPagesSaved st).

Definition inDomain (rootUrl u : string) : Prop := startsWith u rootUrl = true.

(** The snapshot under [source] stays within the ceiling and the domain. *)
Definition Confined (rootUrl source : string) (maxPages : nat) (w : World)
  : Prop :=
  ∃ ps, snapshotPages source w = Some ps ∧
        length ps ≤ maxPages ∧
        Forall (fun p => inDomain rootUrl (url p)) ps.

(** Every request made between [w] and [w'] was for a URL of the domain. *)
Definition requestsConfined (rootUrl : string) (w w' : World) : Prop :=
  ∃ new, requested w' = new ++ requested w ∧ Forall (inDomain rootUrl) new.

(** The invariant of the crawl loop. *)
Definition Inv (rootUrl source : string) (maxPages : nat) (st : Frontier)
    (w : World) : Prop :=
  ∃ ps, snapshotPages source w = Some ps ∧
        length ps = totalPagesSaved st ∧
        Forall (fun p => inDomain rootUrl (url p)) ps ∧
        Forall (fun p => inDomain rootUrl (url p)) (currentBatch st) ∧
        Forall (inDomain rootUrl) (queue st) ∧
        totalPagesSaved st ≤ maxPages ∧
        (currentBatch st = [] ∨
         totalPagesSaved st + length (currentBatch st) < maxPages).

(** ** Frames *)

(** [keeps R m]: however [m] ends, the world it leaves is [R]-related to the
    world it started in. *)
Definition keeps {A} (R : relation World) (m : M A) : Prop :=
  ∀ w, R w (m w).2.

(** Between [w] and [w'] only documents with a key in [K] were named or
    changed, in the collection and in the view of an open transaction, and
    [refreshStatus] was left alone. *)
Definition framed (K : list string) (w w' : World) : Prop :=
  (∀ k, k ∉ K → store w' !! k = store w !! k) ∧
  (∀ t', txn w' = Some t' →
     (∃ t, txn w = Some t ∧ ∀ k, k ∉ K → t' !! k = t !! k) ∨
     (∀ k, k ∉ K → t' !! k = store w !! k)) ∧
  (∃ new, touched w' = new ++ touched w ∧ Forall (fun k => k ∈ K) new) ∧
  refreshStatus w' = refreshStatus w.

(** The four documents a refresh works on. *)
Definition refreshKeys : list string :=
  ["handbook"; "direction"; "handbook_staging"; "direction_staging"].

(** While a transaction is open, writes made in the session leave the
    collection alone. *)
Definition inSessionOnly (w w' : World) : Prop :=
  is_Some (txn w) → store w' = store w ∧ is_Some (txn w').

(** ** The refresh *)

(** The part of [scrapeGitLabData] inside [try]. *)
Definition stagedRefresh (env : Env) (fuel : nat) : M unit :=
  scrapeAndSaveSite env fuel GITLAB_SOURCES_handbook "handbook_staging" 50 10;;
  scrapeAndSaveSite env fuel GITLAB_SOURCES_direction "direction_staging" 50 10;;
  startSession env;;
  tryFinally (withTransaction env (promoteStaging env)) endSession.

(** Every fetch of [u] is answered by a connection reset. *)
Definition alwaysReset (env : Env) (u : string) : Prop :=
  ∀ n, ∃ e, http env n u = Failure e ∧ code e = Some "ECONNRESET".

(** ** Claims as the spec words them, where the code differs *)

(** C4 as the spec words it: a URL whose every fetch raises a transient
    error, a timeout for one, is requested three times before it is given
    up. *)
Definition transient_errors_are_retried (env : Env) (rootUrl source : string)
    (maxPages batchSize : nat) : Prop :=
  ∀ st u rest w,
    queue st = u :: rest → u ∉ visitedUrls st →
    (∀ n, ∃ e, http env n u = Failure e ∧ transientBySpec e) →
    ∃ ms,
      crawlStep env rootUrl source maxPages batchSize st w =
        (Returned (givenUp st u rest), afterRequests 3 ms u w).

(** C7 as the spec words it: a turn whose page was fetched but is too thin
    to keep leaves the queue with the URLs that were already waiting. *)
Definition skip_queues_nothing (env : Env) (rootUrl source : string)
    (maxPages batchSize : nat) : Prop :=
  ∀ st u rest w h w1 st' w',
    queue st = u :: rest → u ∉ visitedUrls st →
    fetchWithRetry env 3 u 0 w = (Returned (Some (Markup h)), w1) →
    thin h →
    crawlStep env rootUrl source maxPages batchSize st w = (Returned st', w') →
    queue st' = rest.

(** C8 as the spec words it: what a turn adds to the queue is at most five
    links, none of them visited and none of them already waiting. *)
Definition queues_only_unseen (env : Env) (rootUrl source : string)
    (maxPages batchSize : nat) : Prop :=
  ∀ st u rest w st' w',
    queue st = u :: rest → u ∉ visitedUrls st →
    crawlStep env rootUrl source maxPages batchSize st w = (Returned st', w') →
    ∃ new,
      queue st' = rest ++ new ∧ length new ≤ 5 ∧
      Forall (fun l => (l ∉ {[u]} ∪ visitedUrls st) ∧ (l ∉ rest)) new.

(** C1 as the spec words it: a refresh that throws has deleted both staging
    documents and left both production documents as they were. *)
Definition failed_refresh_cleans_up (env : Env) (fuel : nat) (w : World)
  : Prop :=
  ∀ e w',
    scrapeGitLabData env fuel w = (Thrown e, w') →
    store w' !! "handbook_staging" = None ∧
    store w' !! "direction_staging" = None ∧
    store w' !! "handbook" = store w !! "handbook" ∧
    store w' !! "direction" = store w !! "direction".

(** C2 as the spec words it, for the handbook: after a refresh during which
    every fetch of the root URL was reset, the production snapshot is what it
    was, an error is recorded and no refresh is running. *)
Definition root_down_is_reported (env : Env) (fuel : nat) (w : World)
  : Prop :=
  alwaysReset env GITLAB_SOURCES_handbook →
  let w' := (backgroundRefresh env fuel w).2 in
  store w' !! "handbook" = store w !! "handbook" ∧
  is_Some (lastRefreshError (refreshStatus w')) ∧
  isRefreshing (refreshStatus w') = false.

(** ** Scenarios *)

Definition idle : RefreshStatus := mkStatus false None None None.

(** A first-ever run: nothing stored yet. *)
Definition fresh : World := mkWorld ∅ None idle 0 0 0 [] [].

Definition longText : string :=
  "GitLab is an open core company which develops software for the software development lifecycle, used by more than 100,000 organizations.".

Definition oldHandbook : Doc :=
  mkDoc (CSite (mkSite "" GITLAB_SOURCES_handbook
                  [mkPage GITLAB_SOURCES_handbook "The GitLab Handbook" longText]))
        7.

Definition oldDirection : Doc :=
  mkDoc (CSite (mkSite "" GITLAB_SOURCES_direction
                  [mkPage GITLAB_SOURCES_direction "Direction" longText]))
        7.

Definition lastConversation : Doc :=
  mkDoc (COther "{ userMessage, botResponse, timestamp, context }") 9.

(** A world with an earlier refresh in production and a conversation. *)
Definition served : World :=
  mkWorld (<["handbook" := oldHandbook]>
             (<["direction" := oldDirection]>
                (<["last_conversation" := lastConversation]> ∅)))
          None idle 10 0 0 [] [].

(** A world in which a refresh is running. *)
Definition busy : World :=
  withStatus (mkStatus true (Some 3) None (Some 3)) served.

Definition connectionReset : JsError :=
  mkError (Some "ECONNRESET") "read ECONNRESET".

Definition notFound : JsError :=
  mkError (Some "ERR_BAD_REQUEST") "Request failed with status code 404".

Definition connectTimeout : JsError :=
  mkError (Some "ETIMEDOUT") "connect ETIMEDOUT 203.0.113.7:443".

Definition hangUp : JsError := mkError None "Client network socket hang up".

Definition nameNotFound : JsError :=
  mkError (Some "ENOTFOUND") "getaddrinfo ENOTFOUND handbook.gitlab.com".

Definition connectionLost : JsError :=
  mkError None "connection to the database lost".

Definition sameHref (u href : string) : option string := Some href.

(** The network is down; the store works. *)
Definition networkDown : Env :=
  mkEnv (fun _ _ => Failure connectionReset) (fun _ => None) sameHref
        (fun _ => 0).

(** Every connection times out. *)
Definition timingOut : Env :=
  mkEnv (fun _ _ => Failure connectTimeout) (fun _ => None) sameHref
        (fun _ => 0).

(** Every connection is hung up on. *)
Definition hangingUp : Env :=
  mkEnv (fun _ _ => Failure hangUp) (fun _ => None) sameHref (fun _ => 0).

(** No name resolves. *)
Definition namesDown : Env :=
  mkEnv (fun _ _ => Failure nameNotFound) (fun _ => None) sameHref
        (fun _ => 0).

(** A small handbook: the home page links twice to [/a], once off the
    domain and once to an anchor; [/a] is a thin page that links to [/b]. *)
Definition handbookSite (u : string) : HttpResult :=
  if String.eqb u "https://handbook.gitlab.com" then
    Response (Markup (mkHtml longText "Home" ""
                ["https://handbook.gitlab.com/a"; "https://other.example/x";
                 "https://handbook.gitlab.com/a"; "#top"]))
  else if String.eqb u "https://handbook.gitlab.com/a" then
    Response (Markup (mkHtml "See the other page." "A" ""
                        ["https://handbook.gitlab.com/b"]))
  else if String.eqb u "https://handbook.gitlab.com/b" then
    Response (Markup (mkHtml longText "  " " B " []))
  else Failure notFound.

Definition online : Env :=
  mkEnv (fun _ => handbookSite) (fun _ => None) sameHref (fun _ => 0).

(** The small handbook answers; every connection to the direction pages is
    reset. *)
Definition directionReset : Env :=
  mkEnv (fun _ u =>
           if startsWith u GITLAB_SOURCES_direction
           then Failure connectionReset else handbookSite u)
        (fun _ => None) sameHref (fun _ => 0).

(** The network is down and the store fails from its second operation on. *)
Definition storeLost : Env :=
  mkEnv (fun _ _ => Failure connectionReset)
        (fun n => if n =? 0 then None else Some connectionLost)
        sameHref (fun _ => 0).

(** The network is down and only the second store operation fails. *)
Definition storeHiccup : Env :=
  mkEnv (fun _ _ => Failure connectionReset)
        (fun n => if n =? 1 then Some connectionLost else None)
        sameHref (fun _ => 0).

(** The store is down altogether. *)
Definition storeDown : Env :=
  mkEnv (fun _ => handbookSite) (fun _ => Some connectionLost) sameHref
        (fun _ => 0).

Definition pageA : string := "https://handbook.gitlab.com/a".

Definition pageB : string := "https://handbook.gitlab.com/b".

(** ** Pacing *)

(** Between [w] and [w'] at least a second was slept for every request. *)
Definition paced (w w' : World) : Prop :=
  ∃ new, requested w' = new ++ requested w ∧
         clock w + 1000 * length new ≤ clock w'.

(** ** What a crawl stores and asks for *)

(** A page record as the extractor builds them: a title, and between 101
    and 5000 characters of text. *)
Definition wellFormed (p : PageRecord) : Prop :=
  title p ≠ "" ∧ 100 < String.length (text p) ≤ 5000.

(** How often [u] occurs in a list of requests. *)
Definition timesRequested (u : string) (log : list string) : nat :=
  count_occ String.eq_dec log u.

(** [new] being the requests of a crawl so far: no URL was asked for more
    than three times, and the snapshot under [source] holds well-formed
    pages, each under a URL of its own that the crawl has asked for. *)
Definition Audited (source : string) (new : list string) (w : World) : Prop :=
  (∀ u, timesRequested u new ≤ 3) ∧
  ∃ ps, snapshotPages source w = Some ps ∧
        NoDup (url <$> ps) ∧
        Forall (fun p => url p ∈ new ∧ wellFormed p) ps.

(** The same with the pages still in the batch counted in, and every URL
    asked for marked visited. *)
Definition Seen (source : string) (st : Frontier) (new : list string)
    (w : World) : Prop :=
  Forall (fun u => u ∈ visitedUrls st) new ∧
  (∀ u, timesRequested u new ≤ 3) ∧
  ∃ ps, snapshotPages source w = Some ps ∧
        NoDup (url <$> (ps ++ currentBatch st)) ∧
        Forall (fun p => url p ∈ new ∧ wellFormed p) (ps ++ currentBatch st).

(** ** Termination *)

(** [m] settles: it returns or throws. *)
Definition settles {A} (m : M A) : Prop := ∀ w, (m w).1 ≠ Unsettled.

(** The pages of a site reachable by links all lie in the finite set
    [site]: the root does, and so does whatever a link on a page of the
    set, as the network serves that page, resolves to within the domain. *)
Definition closedSite (env : Env) (rootUrl : string) (site : gset string)
  : Prop :=
  rootUrl ∈ site ∧
  ∀ n u h href a,
    u ∈ site → http env n u = Response (Markup h) → href ∈ anchors h →
    resolve env u href = Some a → startsWith a rootUrl = true → a ∈ site.

(** A bound on the turns the loop still takes: each URL of the site not yet
    visited costs one turn to fetch and queues at most five more. *)
Definition turnsLeft (site : gset string) (st : Frontier) : nat :=
  length (queue st) + 6 * size (site ∖ visitedUrls st).

(** ** Batching against the crawl in memory *)

(** Two worlds in which the network has been used alike. *)
Definition sameNetwork (w v : World) : Prop :=
  httpCalls v = httpCalls w ∧ requested v = requested w ∧ clock v = clock w.

(** The site kept under [source], if there is one. *)
Definition snapshot (source : string) (w : World) : option SiteData :=
  match store w !! source with
  | Some (mkDoc (CSite d) _) => Some d
  | _ => None
  end.

(** The batched crawl in [st], [w] and the crawl in memory in [g], [v] have
    come equally far: same queue, same visited set, same use of the network,
    and the site in memory is the site stored with the pages of the batch
    appended. *)
Definition Batched (source : string) (maxPages : nat)
    (st : Frontier) (w : World) (g : ScrapeSite.Locals) (v : World) : Prop :=
  ScrapeSite.queue g = queue st ∧
  ScrapeSite.visitedUrls g = visitedUrls st ∧
  sameNetwork w v ∧
  ∃ d, snapshot source w = Some d ∧
       ScrapeSite.data g =
         mkSite (siteTitle d) (siteUrl d) (pages d ++ currentBatch st) ∧
       length (pages d) = totalPagesSaved st ∧
       (currentBatch st = [] ∨
        totalPagesSaved st + length (currentBatch st) < maxPages).

(** The network answers a URL the same way every time it is asked. *)
Definition stationary (env : Env) : Prop :=
  ∀ n m u, http env n u = http env m u.

(** ** A flaky network, a finite site and a page that is no markup *)

(** The first request is reset; from then on the small handbook answers. *)
Definition flaky : Env :=
  mkEnv (fun n u => if n =? 0 then Failure connectionReset else handbookSite u)
        (fun _ => None) sameHref (fun _ => 0).

(** What the markup library throws on the number 1. *)
Definition typeError : JsError :=
  mkError None "Cannot create property 'prev' on number '1'".

Definition pageJson : string := "https://handbook.gitlab.com/data.json".

(** The home page of a handbook that links to a JSON document; the HTTP
    client parses the document, and the markup library rejects the value. *)
Definition handbookWithJson (u : string) : HttpResult :=
  if String.eqb u GITLAB_SOURCES_handbook then
    Response (Markup (mkHtml longText "Home" "" [pageJson]))
  else if String.eqb u pageJson then Response (Rejected typeError)
  else Failure notFound.

Definition jsonLinked : Env :=
  mkEnv (fun _ => handbookWithJson) (fun _ => None) sameHref (fun _ => 0).

Definition handbookPages : gset string :=
  {[ GITLAB_SOURCES_handbook; pageA; pageB ]}.

Definition directionPages : gset string := {[ GITLAB_SOURCES_direction ]}.

(** ** A model that answers *)

Definition whatIsGitLab : string := "What is GitLab?".

Definition openCore : string := "GitLab is an open core company.".

(** The model always gives the same answer; a conversation is written as
    question and answer with a bar between them. *)
Definition assistant : Services :=
  mkServices (fun _ _ => Generated openCore)
             (fun c => userMessage c +:+ " | " +:+ botResponse c).

(** * Properties *)

Arguments afterRequests : simpl never.
Arguments politeDelay : simpl never.
Arguments backoff : simpl never.

(** Reduction of the world's fields, and unfolding of the monad. *)
Ltac wsimpl :=
  cbn [store txn refreshStatus clock dbCalls httpCalls requested touched
       withStore withTxn withStatus advance countDb countHttp fst snd] in *.

Ltac msimpl :=
  unfold findOne, findOneAndUpdate, deleteMany, startSession, endSession,
    sleep, axiosGet, write, dbRoundTrip in *;
  unfold mbind, M_bind, bind, mret, M_ret, tryCatch, tryFinally in *;
  unfold ret, throw, unsettled, getWorld, modify in *;
  wsimpl.

Ltac world_eq :=
  unfold afterRequests, withStore, withTxn, withStatus, advance, countDb,
    countHttp;
  wsimpl; f_equal; solve [lia | reflexivity].

Section Retry.
Variable env : Env.

Lemma fetch_attempt_succeeds remaining u attempt w d :
  http env (httpCalls w) u = Response d →
  fetchWithRetry env (S remaining) u attempt w =
  (Returned (Some d),
   countHttp u (advance (politeDelay (random env (httpCalls w))) w)).
Proof. intros H. cbn [fetchWithRetry]. msimpl. by rewrite H. Qed.

Lemma fetch_attempt_fails remaining u attempt w e :
  http env (httpCalls w) u = Failure e →
  fetchWithRetry env (S remaining) u attempt w =
  let w1 := countHttp u (advance (politeDelay (random env (httpCalls w))) w) in
  if transient e && (S attempt <? 3)
  then fetchWithRetry env remaining u (S attempt)
         (advance (backoff (S attempt)) w1)
  else (Returned None, w1).
Proof.
  intros H. cbn [fetchWithRetry]. msimpl. rewrite H.
  unfold transient. by destruct (_ && _).
Qed.

Lemma afterRequests_one d u w :
  countHttp u (advance d w) = afterRequests 1 d u w.
Proof. world_eq. Qed.

Lemma afterRequests_step n ms d1 d2 u w :
  afterRequests n ms u (advance d2 (countHttp u (advance d1 w))) =
  afterRequests (S n) (d1 + d2 + ms) u w.
Proof.
  unfold afterRequests, advance, countHttp. wsimpl. f_equal; [lia | lia |].
  change (u :: requested w) with ([u] ++ requested w).
  rewrite app_assoc. f_equal.
  change [u] with (replicate 1 u). rewrite <- replicate_add.
  f_equal. lia.
Qed.

(** The fetch loop always settles by returning; it changes nothing but the
    clock and the request log, and issues at most [remaining] requests. *)
Lemma fetchWithRetry_effect remaining u attempt w :
  ∃ r n ms,
    fetchWithRetry env remaining u attempt w =
      (Returned r, afterRequests n ms u w) ∧
    n ≤ remaining.
Proof.
  revert attempt w. induction remaining as [|k IH]; intros attempt w.
  - exists None, 0, 0. split; [|lia]. cbn [fetchWithRetry]. msimpl.
    unfold afterRequests. destruct w; wsimpl.
    by rewrite !Nat.add_0_r.
  - destruct (http env (httpCalls w) u) as [d|e] eqn:H.
    + rewrite (fetch_attempt_succeeds _ _ _ _ _ H).
      exists (Some d), 1, (politeDelay (random env (httpCalls w))).
      split; [|lia]. f_equal. world_eq.
    + rewrite (fetch_attempt_fails _ _ _ _ _ H). cbv zeta.
      destruct (transient e && (S attempt <? 3)).
      * destruct (IH (S attempt)
          (advance (backoff (S attempt))
             (countHttp u (advance (politeDelay (random env (httpCalls w))) w))))
          as (r & n & ms & -> & Hn).
        exists r, (S n). eexists. rewrite afterRequests_step. split; [done|lia].
      * exists None, 1, (politeDelay (random env (httpCalls w))).
        split; [|lia]. f_equal. world_eq.
Qed.

(** An answer the fetch loop returns is one the network gave for the URL. *)
Lemma fetchWithRetry_answer remaining u attempt w b w' :
  fetchWithRetry env remaining u attempt w = (Returned (Some b), w') →
  ∃ n, http env n u = Response b.
Proof.
  revert attempt w. induction remaining as [|k IH]; intros attempt w; [done|].
  destruct (http env (httpCalls w) u) as [d|e] eqn:H.
  - rewrite (fetch_attempt_succeeds _ _ _ _ _ H). intros [= <- _]. eauto.
  - rewrite (fetch_attempt_fails _ _ _ _ _ H). cbv zeta.
    destruct (transient e && (S attempt <? 3)); [apply IH|done].
Qed.

Lemma codeIs_true e c : codeIs e c = true ↔ code e = Some c.
Proof.
  unfold codeIs. destruct (code e) as [c'|]; [|done].
  rewrite bool_decide_eq_true. split; [by intros ->|by intros [= ->]].
Qed.

Lemma append_cons a s t : String a s +:+ t = String a (s +:+ t).
Proof. reflexivity. Qed.

Lemma prefix_true p s : String.prefix p s = true ↔ ∃ after, s = p +:+ after.
Proof.
  revert s. induction p as [|a p IH]; intros [|b s]; cbn [String.prefix].
  - split; [intros _; by exists ""|done].
  - split; [intros _; exists (String b s); reflexivity|done].
  - split; [done|]. intros [after H]. rewrite append_cons in H.
    discriminate H.
  - destruct (Ascii.ascii_dec a b) as [->|Hab].
    + rewrite IH. split; intros [after H]; exists after.
      * by rewrite append_cons, H.
      * rewrite append_cons in H. by injection H.
    + split; [done|]. intros [after H]. rewrite append_cons in H.
      injection H as H _. by destruct Hab.
Qed.

Lemma includes_true s sub :
  includes s sub = true ↔ ∃ before after, s = before +:+ sub +:+ after.
Proof.
  induction s as [|a s IH]; cbn [includes]; rewrite orb_true_iff, prefix_true.
  - split.
    + intros [[after H]|[=]]. by exists "", after.
    + intros (before & after & H). left. exists after.
      destruct before as [|b before]; [done|].
      rewrite append_cons in H. discriminate H.
  - rewrite IH. split.
    + intros [[after H]|(before & after & H)].
      * by exists "", after.
      * exists (String a before), after. by rewrite append_cons, H.
    + intros (before & after & H). destruct before as [|b before].
      * left. by exists after.
      * right. rewrite append_cons in H. injection H as _ H.
        by exists before, after.
Qed.

(** The test of the loop passes on the errors spelled out in [retried], and
    on no other. *)
Lemma transient_retried e : transient e = true ↔ retried e.
Proof.
  unfold transient, isHangup, isNetwork, retried, saysHangUp.
  rewrite !orb_true_iff, !codeIs_true, includes_true. tauto.
Qed.

(** A URL that keeps failing with a transient error is requested three
    times. *)
Lemma fetchWithRetry_transient u w :
  (∀ n, ∃ e, http env n u = Failure e ∧ transient e = true) →
  ∃ ms, fetchWithRetry env 3 u 0 w = (Returned None, afterRequests 3 ms u w).
Proof.
  intros Hdown.
  destruct (Hdown (httpCalls w)) as (e1 & H1 & T1).
  rewrite (fetch_attempt_fails _ _ _ _ _ H1), T1. cbn [andb Nat.ltb Nat.leb].
  cbv zeta.
  set (w1 := advance _ (countHttp _ _)).
  destruct (Hdown (httpCalls w1)) as (e2 & H2 & T2).
  rewrite (fetch_attempt_fails _ _ _ _ _ H2), T2. cbn [andb Nat.ltb Nat.leb].
  cbv zeta.
  set (w2 := advance _ (countHttp _ _)).
  destruct (Hdown (httpCalls w2)) as (e3 & H3 & T3).
  rewrite (fetch_attempt_fails _ _ _ _ _ H3), T3. cbn [andb Nat.ltb Nat.leb].
  cbv zeta.
  subst w2 w1. rewrite afterRequests_one, !afterRequests_step.
  eexists. reflexivity.
Qed.

(** A permanent error ends the loop after the first request. *)
Lemma fetchWithRetry_permanent u w e :
  http env (httpCalls w) u = Failure e → transient e = false →
  ∃ ms, fetchWithRetry env 3 u 0 w = (Returned None, afterRequests 1 ms u w).
Proof.
  intros H T. rewrite (fetch_attempt_fails _ _ _ _ _ H), T.
  cbn [andb]. cbv zeta. eexists. f_equal. world_eq.
Qed.

End Retry.

Ltac db_cases :=
  repeat match goal with
    | |- context [dbError ?e ?n] =>
        let E := fresh "Hdb" in destruct (dbError e n) eqn:E; wsimpl
    end.

Ltac settle :=
  eexists _, _; (split; [reflexivity|]); wsimpl; (split; [done|]).

Ltac mred :=
  repeat (progress (cbn [truthy jsonParse appendPages content]; msimpl)).

Section Writer.
Variable env : Env.

Lemma snapshotPages_insert source d t w :
  snapshotPages source (withStore (<[source := mkDoc (CSite d) t]> (store w)) w)
  = Some (pages d).
Proof. unfold snapshotPages. wsimpl. by rewrite lookup_insert_eq. Qed.

(** A save either throws before writing anything or appends the batch to
    the pages already stored; when a site is stored under [source], only a
    failure of the store makes it throw. *)
Lemma saveBatch_effect rootUrl source batch total w :
  ∃ o w',
    saveBatch env rootUrl source batch total w = (o, w') ∧
    requested w' = requested w ∧
    match o with
    | Returned t =>
        t = total + length batch ∧
        ∀ ps, snapshotPages source w = Some ps →
              snapshotPages source w' = Some (ps ++ batch)
    | Thrown _ =>
        store w' = store w ∧
        (is_Some (snapshotPages source w) → ∃ n, is_Some (dbError env n))
    | Unsettled => False
    end.
Proof.
  unfold saveBatch, snapshotPages. msimpl.
  destruct (dbError env (dbCalls w)) eqn:Hdb; wsimpl.
  { settle. split; [done|]. intros _. exists (dbCalls w). by rewrite Hdb. }
  destruct (store w !! source) as [[c t]|] eqn:Hs; cbn [content].
  - destruct c as [d|raw|raw]; mred.
    + destruct (dbError env (S (dbCalls w))) eqn:Hdb2; wsimpl; settle.
      * split; [done|]. intros _. exists (S (dbCalls w)). by rewrite Hdb2.
      * split; [done|]. rewrite lookup_insert_eq. by intros ps [= <-].
    + settle. split; [done|]. by intros [? [=]].
    + destruct raw; mred;
        (destruct (dbError env (S (dbCalls w))); wsimpl; settle;
         (split; [done|]); first [by intros [? [=]]|done]).
  - mred.
    destruct (dbError env (S (dbCalls w))); wsimpl; settle;
      (split; [done|]); first [by intros [? [=]]|done].
Qed.

Lemma saveFinalBatch_effect rootUrl source batch total w :
  ∃ o w',
    saveFinalBatch env rootUrl source batch total w = (o, w') ∧
    requested w' = requested w ∧
    match o with
    | Returned t =>
        t = total + length batch ∧
        ∀ ps, snapshotPages source w = Some ps →
              snapshotPages source w' = Some (ps ++ batch)
    | Thrown _ =>
        store w' = store w ∧
        (is_Some (snapshotPages source w) → ∃ n, is_Some (dbError env n))
    | Unsettled => False
    end.
Proof.
  unfold saveFinalBatch, snapshotPages. msimpl.
  destruct (dbError env (dbCalls w)) eqn:Hdb; wsimpl.
  { settle. split; [done|]. intros _. exists (dbCalls w). by rewrite Hdb. }
  destruct (store w !! source) as [[c t]|] eqn:Hs; cbn [content].
  - destruct c as [d|raw|raw]; mred.
    + destruct (dbError env (S (dbCalls w))) eqn:Hdb2; wsimpl; settle.
      * split; [done|]. intros _. exists (S (dbCalls w)). by rewrite Hdb2.
      * split; [done|]. rewrite lookup_insert_eq. by intros ps [= <-].
    + settle. split; [done|]. by intros [? [=]].
    + settle. split; [done|]. by intros [? [=]].
  - mred.
    destruct (dbError env (S (dbCalls w))); wsimpl; settle;
      (split; [done|]); first [by intros [? [=]]|done].
Qed.

End Writer.

(** ** One turn of the crawl loop, case by case *)

Section Step.
Variable env : Env.
Variables (rootUrl source : string) (maxPages batchSize : nat).

Local Abbreviation step := (crawlStep env rootUrl source maxPages batchSize).

Lemma crawlStep_visited st u rest w :
  queue st = u :: rest → u ∈ visitedUrls st →
  step st w =
  (Returned (mkFrontier rest (visitedUrls st) (currentBatch st)
                        (totalPagesSaved st)), w).
Proof.
  intros Hq Hv. unfold crawlStep. rewrite Hq.
  by rewrite bool_decide_eq_true_2.
Qed.

Lemma crawlStep_failed st u rest w w1 :
  queue st = u :: rest → u ∉ visitedUrls st →
  fetchWithRetry env 3 u 0 w = (Returned None, w1) →
  step st w =
  (Returned (mkFrontier rest ({[u]} ∪ visitedUrls st) (currentBatch st)
                        (totalPagesSaved st)), w1).
Proof.
  intros Hq Hv Hf. unfold crawlStep. rewrite Hq.
  rewrite bool_decide_eq_false_2 by done.
  unfold mbind, M_bind, bind. by rewrite Hf.
Qed.

Lemma crawlStep_skipped st u rest w h w1 :
  queue st = u :: rest → u ∉ visitedUrls st →
  fetchWithRetry env 3 u 0 w = (Returned (Some (Markup h)), w1) →
  thin h →
  step st w =
  (Returned
     (mkFrontier
        (enqueued maxPages (totalPagesSaved st) rest
           (extractLinks env rootUrl u ({[u]} ∪ visitedUrls st) (anchors h)))
        ({[u]} ∪ visitedUrls st) (currentBatch st) (totalPagesSaved st)), w1).
Proof.
  intros Hq Hv Hf Hthin. unfold crawlStep. rewrite Hq.
  rewrite bool_decide_eq_false_2 by done.
  unfold mbind, M_bind, bind at 1. rewrite Hf.
  cbn [cheerioLoad]. unfold mret, M_ret, bind at 1, ret at 1.
  replace (100 <? _) with false
    by (symmetry; apply Nat.ltb_ge, Hthin).
  reflexivity.
Qed.

Lemma crawlStep_buffered st u rest w h w1 :
  queue st = u :: rest → u ∉ visitedUrls st →
  fetchWithRetry env 3 u 0 w = (Returned (Some (Markup h)), w1) →
  ¬ thin h →
  length (currentBatch st ++ [pageOf u h]) < batchSize →
  totalPagesSaved st + length (currentBatch st ++ [pageOf u h]) < maxPages →
  step st w =
  (Returned
     (mkFrontier
        (enqueued maxPages (totalPagesSaved st) rest
           (extractLinks env rootUrl u ({[u]} ∪ visitedUrls st) (anchors h)))
        ({[u]} ∪ visitedUrls st) (currentBatch st ++ [pageOf u h])
        (totalPagesSaved st)), w1).
Proof.
  intros Hq Hv Hf Hthin Hb Hm. unfold crawlStep. rewrite Hq.
  rewrite bool_decide_eq_false_2 by done.
  unfold mbind, M_bind, bind at 1. rewrite Hf.
  cbn [cheerioLoad]. unfold mret, M_ret, bind at 1, ret at 1.
  replace (100 <? _) with true
    by (symmetry; apply Nat.ltb_lt; unfold thin in Hthin; lia).
  fold (pageOf u h).
  replace (batchSize <=? _) with false by (symmetry; apply Nat.leb_gt, Hb).
  replace (maxPages <=? _) with false by (symmetry; apply Nat.leb_gt, Hm).
  reflexivity.
Qed.

Lemma crawlStep_flushed st u rest w h w1 :
  queue st = u :: rest → u ∉ visitedUrls st →
  fetchWithRetry env 3 u 0 w = (Returned (Some (Markup h)), w1) →
  ¬ thin h →
  batchSize ≤ length (currentBatch st ++ [pageOf u h]) ∨
  maxPages ≤ totalPagesSaved st + length (currentBatch st ++ [pageOf u h]) →
  step st w =
  match saveBatch env rootUrl source (currentBatch st ++ [pageOf u h])
          (totalPagesSaved st) w1 with
  | (Returned total, w2) =>
      (Returned
         (mkFrontier
            (enqueued maxPages total rest
               (extractLinks env rootUrl u ({[u]} ∪ visitedUrls st) (anchors h)))
            ({[u]} ∪ visitedUrls st) [] total), w2)
  | (Thrown e, w2) => (Thrown e, w2)
  | (Unsettled, w2) => (Unsettled, w2)
  end.
Proof.
  intros Hq Hv Hf Hthin Hflush. unfold crawlStep. rewrite Hq.
  rewrite bool_decide_eq_false_2 by done.
  unfold mbind, M_bind, bind at 1. rewrite Hf.
  cbn [cheerioLoad]. unfold mret, M_ret, bind at 1, ret at 1.
  replace (100 <? _) with true
    by (symmetry; apply Nat.ltb_lt; unfold thin in Hthin; lia).
  fold (pageOf u h).
  replace (_ || _) with true.
  2:{ symmetry. apply orb_true_iff.
      destruct Hflush; [left|right]; by apply Nat.leb_le. }
  unfold bind, mret, M_ret, ret.
  by destruct (saveBatch _ _ _ _ _ _) as [[t|e|] w2].
Qed.

Lemma crawlStep_rejected st u rest w e w1 :
  queue st = u :: rest → u ∉ visitedUrls st →
  fetchWithRetry env 3 u 0 w = (Returned (Some (Rejected e)), w1) →
  step st w = (Thrown e, w1).
Proof.
  intros Hq Hv Hf. unfold crawlStep. rewrite Hq.
  rewrite bool_decide_eq_false_2 by done.
  unfold mbind, M_bind, bind at 1. by rewrite Hf.
Qed.

(** Whatever became of the page, a turn that fetched it and returned has
    queued its links, unless the ceiling was reached. *)
Lemma crawlStep_fetched_queue st u rest w h w1 st' w' :
  queue st = u :: rest → u ∉ visitedUrls st →
  fetchWithRetry env 3 u 0 w = (Returned (Some (Markup h)), w1) →
  step st w = (Returned st', w') →
  queue st' =
  enqueued maxPages (totalPagesSaved st') rest
    (extractLinks env rootUrl u ({[u]} ∪ visitedUrls st) (anchors h)).
Proof.
  intros Hq Hv Hf Hs.
  destruct (decide (thin h)) as [Hthin|Hthin].
  { rewrite (crawlStep_skipped _ _ _ _ _ _ Hq Hv Hf Hthin) in Hs.
    by injection Hs as <- _. }
  destruct (decide (batchSize ≤ length (currentBatch st ++ [pageOf u h]) ∨
                    maxPages ≤ totalPagesSaved st +
                               length (currentBatch st ++ [pageOf u h])))
    as [Hflush|Hkeep].
  - rewrite (crawlStep_flushed _ _ _ _ _ _ Hq Hv Hf Hthin Hflush) in Hs.
    destruct (saveBatch _ _ _ _ _ _) as [[t|e|] w2]; [|done..].
    by injection Hs as <- _.
  - rewrite (crawlStep_buffered _ _ _ _ _ _ Hq Hv Hf Hthin) in Hs by lia.
    by injection Hs as <- _.
Qed.

End Step.

(** ** Links *)

Lemma extractLinks_discovered env rootUrl u visitedUrls hrefs :
  extractLinks env rootUrl u visitedUrls hrefs =
  discovered env rootUrl u visitedUrls hrefs.
Proof.
  unfold discovered. induction hrefs as [|href rest IH]; [done|].
  cbn [extractLinks List.filter]. destruct (followable href); [|done].
  cbn [omap list_omap]. destruct (resolve env u href) as [a|]; [|done].
  cbn [List.filter]. destruct (_ && _); by rewrite IH.
Qed.

Lemma discovered_Forall env rootUrl u visitedUrls hrefs :
  Forall (fun l => startsWith l rootUrl = true ∧ l ∉ visitedUrls)
         (discovered env rootUrl u visitedUrls hrefs).
Proof.
  apply List.Forall_forall. intros l [_ Hl]%List.filter_In.
  apply andb_true_iff in Hl as [H1 H2]. split; [done|].
  apply negb_true_iff in H2. by apply bool_decide_eq_false in H2.
Qed.

(** ** Retry budget and page-level failures *)

Lemma crawlLoop_turn env fuel rootUrl source maxPages batchSize st w st' w' :
  queue st ≠ [] → totalPagesSaved st < maxPages →
  crawlStep env rootUrl source maxPages batchSize st w = (Returned st', w') →
  crawlLoop env (S fuel) rootUrl source maxPages batchSize st w =
  crawlLoop env fuel rootUrl source maxPages batchSize st' w'.
Proof.
  intros Hq Ht Hs. cbn [crawlLoop].
  rewrite bool_decide_eq_false_2 by done.
  replace (_ <? _) with true by (symmetry; by apply Nat.ltb_lt).
  cbn [negb andb]. unfold mbind, M_bind, bind. by rewrite Hs.
Qed.

(** C4, amended.  A URL whose every fetch raises an error with the code
    [ECONNRESET], [ECONNABORTED], [ENOTFOUND] or [EAI_AGAIN], or with
    'socket hang up' in its message, is requested exactly three times; a URL
    whose fetch raises any other error, a connection time-out with the code
    [ETIMEDOUT] or a status code for one, is requested once.  Either way the
    turn returns with the URL marked visited and nothing else changed, and
    the loop goes on with the rest of the queue. *)
Theorem retry_budget env rootUrl source maxPages batchSize st u rest w :
  queue st = u :: rest → u ∉ visitedUrls st →
  ((∀ n, ∃ e, http env n u = Failure e ∧ retried e) →
   ∃ ms,
     crawlStep env rootUrl source maxPages batchSize st w =
       (Returned (givenUp st u rest), afterRequests 3 ms u w) ∧
     ∀ fuel, totalPagesSaved st < maxPages →
       crawlLoop env (S fuel) rootUrl source maxPages batchSize st w =
       crawlLoop env fuel rootUrl source maxPages batchSize
         (givenUp st u rest) (afterRequests 3 ms u w))
  ∧
  (∀ e, http env (httpCalls w) u = Failure e → ¬ retried e →
   ∃ ms,
     crawlStep env rootUrl source maxPages batchSize st w =
       (Returned (givenUp st u rest), afterRequests 1 ms u w) ∧
     ∀ fuel, totalPagesSaved st < maxPages →
       crawlLoop env (S fuel) rootUrl source maxPages batchSize st w =
       crawlLoop env fuel rootUrl source maxPages batchSize
         (givenUp st u rest) (afterRequests 1 ms u w)).
Proof.
  intros Hq Hv. split.
  - intros Hdown.
    destruct (fetchWithRetry_transient env u w) as [ms Hf].
    { intros n. destruct (Hdown n) as (e & He & Hr). exists e.
      split; [done|by apply transient_retried]. }
    exists ms.
    pose proof (crawlStep_failed env rootUrl source maxPages batchSize
                  _ _ _ _ _ Hq Hv Hf) as Hs.
    split; [done|]. intros fuel Ht.
    apply crawlLoop_turn; [by rewrite Hq|done..].
  - intros e He Hperm.
    destruct (fetchWithRetry_permanent env u w e He) as [ms Hf].
    { destruct (transient e) eqn:T; [|done].
      by apply transient_retried in T. }
    exists ms.
    pose proof (crawlStep_failed env rootUrl source maxPages batchSize
                  _ _ _ _ _ Hq Hv Hf) as Hs.
    split; [done|]. intros fuel Ht.
    apply crawlLoop_turn; [by rewrite Hq|done..].
Qed.

(** ** Skipped pages and the links that are queued *)

(** C7, amended.  After a failed fetch the turn queues nothing.  A page that
    is fetched but too thin is left out of the batch and of the store, and
    its links are queued as for any fetched page. *)
Theorem failed_or_skipped_page env rootUrl source maxPages batchSize
    st u rest w r w1 :
  queue st = u :: rest → u ∉ visitedUrls st →
  fetchWithRetry env 3 u 0 w = (Returned r, w1) →
  match r with
  | Some (Markup h) => thin h
  | Some (Rejected _) => False
  | None => True
  end →
  crawlStep env rootUrl source maxPages batchSize st w =
    (Returned
       (mkFrontier
          match r with
          | Some (Markup h) =>
              enqueued maxPages (totalPagesSaved st) rest
                (discovered env rootUrl u ({[u]} ∪ visitedUrls st) (anchors h))
          | _ => rest
          end
          ({[u]} ∪ visitedUrls st) (currentBatch st) (totalPagesSaved st)),
     w1)
  ∧ store w1 = store w.
Proof.
  intros Hq Hv Hf Hr. split.
  - destruct r as [[h|e]|]; [|done|].
    + rewrite <- extractLinks_discovered. by apply crawlStep_skipped.
    + by apply crawlStep_failed.
  - destruct (fetchWithRetry_effect env 3 u 0 w) as (r' & n & ms & Hf' & _).
    rewrite Hf in Hf'. by injection Hf' as _ ->.
Qed.

(** C8, amended.  A turn that fetched a page and returned below the ceiling
    appends to the queue the first five discovered links, in document order;
    each starts with the root URL and is not in the visited set.  Whether a
    link is already waiting in the queue is not looked at. *)
Theorem queued_links env rootUrl source maxPages batchSize
    st u rest w h w1 st' w' :
  queue st = u :: rest → u ∉ visitedUrls st →
  fetchWithRetry env 3 u 0 w = (Returned (Some (Markup h)), w1) →
  crawlStep env rootUrl source maxPages batchSize st w = (Returned st', w') →
  ∃ new,
    queue st' = rest ++ new ∧
    new = (if totalPagesSaved st' <? maxPages
           then take 5 (discovered env rootUrl u ({[u]} ∪ visitedUrls st)
                          (anchors h))
           else []) ∧
    length new ≤ 5 ∧
    Forall (fun l => startsWith l rootUrl = true ∧ l ∉ ({[u]} ∪ visitedUrls st))
           new.
Proof.
  intros Hq Hv Hf Hs.
  pose proof (crawlStep_fetched_queue env rootUrl source maxPages batchSize
                _ _ _ _ _ _ _ _ Hq Hv Hf Hs) as Hqueue.
  rewrite extractLinks_discovered in Hqueue. unfold enqueued in Hqueue.
  eexists. split; [|split; [reflexivity|]].
  - rewrite Hqueue. destruct (_ <? _); [done|by rewrite app_nil_r].
  - destruct (_ <? _); [|split; [cbn; lia|constructor]].
    split; [rewrite length_take; lia|].
    apply Forall_take, discovered_Forall.
Qed.

(** ** Domain confinement and the page ceiling *)

Lemma startsWith_refl s : startsWith s s = true.
Proof.
  unfold startsWith. induction s as [|a s IH]; cbn; [done|].
  by destruct (Ascii.ascii_dec a a).
Qed.

Section Crawl.
Variable env : Env.
Variables (rootUrl source : string) (maxPages batchSize : nat).

Lemma Inv_Confined st w : (Inv rootUrl source maxPages) st w → (Confined rootUrl source maxPages) w.
Proof. intros (ps & ? & ? & ? & _ & _ & ? & _). exists ps. split_and!; [done|lia|done]. Qed.

Lemma requestsConfined_refl w : (requestsConfined rootUrl) w w.
Proof. by exists []. Qed.

Lemma requestsConfined_trans w1 w2 w3 :
  (requestsConfined rootUrl) w1 w2 → (requestsConfined rootUrl) w2 w3 → (requestsConfined rootUrl) w1 w3.
Proof.
  intros (n1 & E1 & F1) (n2 & E2 & F2). exists (n2 ++ n1).
  split; [by rewrite E2, E1, app_assoc|by apply Forall_app].
Qed.

Lemma requestsConfined_fetch n ms u w :
  (inDomain rootUrl) u → (requestsConfined rootUrl) w (afterRequests n ms u w).
Proof.
  intros Hu. exists (replicate n u). split; [done|].
  by apply Forall_replicate.
Qed.

Lemma requestsConfined_same w w' :
  requested w' = requested w → (requestsConfined rootUrl) w w'.
Proof. intros E. by exists []. Qed.

Lemma enqueued_inDomain total rest u visited hrefs :
  Forall (inDomain rootUrl) rest →
  Forall (inDomain rootUrl)
    (enqueued maxPages total rest (extractLinks env rootUrl u visited hrefs)).
Proof.
  intros Hr. unfold enqueued. destruct (_ <? _); [|done].
  apply Forall_app. split; [done|]. apply Forall_take.
  rewrite extractLinks_discovered.
  eapply Forall_impl; [apply discovered_Forall|]. by intros l [? _].
Qed.

Local Abbreviation step := (crawlStep env rootUrl source maxPages batchSize).

(** A turn only ever adds URLs of the domain to the queue. *)
Lemma crawlStep_queue_confined st w st' w' :
  Forall (inDomain rootUrl) (queue st) →
  step st w = (Returned st', w') →
  Forall (inDomain rootUrl) (queue st').
Proof.
  intros Fq Hs. destruct (queue st) as [|u rest] eqn:Eq.
  { unfold crawlStep in Hs. rewrite Eq in Hs. injection Hs as <- _.
    by rewrite Eq. }
  apply Forall_cons in Fq as [_ Frest].
  destruct (decide (u ∈ visitedUrls st)) as [Hv|Hv].
  { rewrite (crawlStep_visited _ _ _ _ _ _ _ _ _ Eq Hv) in Hs.
    by injection Hs as <- _. }
  destruct (fetchWithRetry_effect env 3 u 0 w) as ([[h|e]|] & n & ms & Hf & _).
  - rewrite (crawlStep_fetched_queue _ _ _ _ _ _ _ _ _ _ _ _ _ Eq Hv Hf Hs).
    by apply enqueued_inDomain.
  - by rewrite (crawlStep_rejected _ _ _ _ _ _ _ _ _ _ _ Eq Hv Hf) in Hs.
  - rewrite (crawlStep_failed _ _ _ _ _ _ _ _ _ _ Eq Hv Hf) in Hs.
    by injection Hs as <- _.
Qed.

Lemma crawlStep_inv st w :
  (Inv rootUrl source maxPages) st w → queue st ≠ [] → totalPagesSaved st < maxPages →
  ∃ o w',
    step st w = (o, w') ∧ (requestsConfined rootUrl) w w' ∧
    match o with
    | Returned st' => (Inv rootUrl source maxPages) st' w'
    | Thrown _ => (Confined rootUrl source maxPages) w' ∧ faulty env
    | Unsettled => False
    end.
Proof.
  intros HI Hq Ht. pose proof HI as (ps & Hps & Hlen & Fps & Fb & Fq & Hle & Hb).
  destruct (queue st) as [|u rest] eqn:Eq; [done|]. clear Hq.
  apply Forall_cons in Fq as [Hu Frest].
  destruct (decide (u ∈ visitedUrls st)) as [Hv|Hv].
  { eexists _, _. split; [by eapply crawlStep_visited|].
    split; [apply requestsConfined_refl|].
    exists ps. by split_and!. }
  destruct (fetchWithRetry_effect env 3 u 0 w) as (r & n & ms & Hf & _).
  assert (snapshotPages source (afterRequests n ms u w) = Some ps) as Hps1 by done.
  destruct r as [[h|e]|].
  3:{ eexists _, _. split; [by eapply crawlStep_failed|].
      split; [by apply requestsConfined_fetch|].
      exists ps. by split_and!. }
  2:{ eexists _, _. split; [by eapply crawlStep_rejected|].
      split; [by apply requestsConfined_fetch|].
      split; [by eapply Inv_Confined|].
      right. destruct (fetchWithRetry_answer env _ _ _ _ _ _ Hf) as [k Hk].
      by exists k, u, e. }
  destruct (decide (thin h)) as [Hthin|Hthin].
  { eexists _, _. split; [by eapply crawlStep_skipped|].
    split; [by apply requestsConfined_fetch|].
    exists ps. split_and!; try done. by apply enqueued_inDomain. }
  assert (totalPagesSaved st + length (currentBatch st) < maxPages) as Hroom.
  { destruct Hb as [->|?]; [cbn; lia|done]. }
  assert (Forall (fun p => (inDomain rootUrl) (url p)) (currentBatch st ++ [pageOf u h]))
    as Fb'.
  { apply Forall_app. split; [done|]. by constructor. }
  destruct (decide (batchSize ≤ length (currentBatch st ++ [pageOf u h]) ∨
                    maxPages ≤ totalPagesSaved st +
                               length (currentBatch st ++ [pageOf u h])))
    as [Hflush|Hkeep].
  - rewrite (crawlStep_flushed _ _ _ _ _ _ _ _ _ _ _ Eq Hv Hf Hthin Hflush).
    destruct (saveBatch_effect env rootUrl source
                (currentBatch st ++ [pageOf u h]) (totalPagesSaved st)
                (afterRequests n ms u w)) as (o & w2 & -> & Hreq & Ho).
    rewrite length_app in *. cbn [length] in *.
    destruct o as [t|e|]; [| |done].
    + destruct Ho as [-> Hsnap]. eexists _, _. split; [done|].
      split.
      { eapply requestsConfined_trans; [by apply requestsConfined_fetch|].
        by apply requestsConfined_same. }
      exists (ps ++ currentBatch st ++ [pageOf u h]).
      cbn [totalPagesSaved currentBatch queue].
      split_and!; [by apply Hsnap| |by apply Forall_app|constructor| |lia|by left].
      * rewrite !length_app. cbn [length]. lia.
      * by apply enqueued_inDomain.
    + eexists _, _. split; [done|].
      split.
      { eapply requestsConfined_trans; [by apply requestsConfined_fetch|].
        by apply requestsConfined_same. }
      destruct Ho as [Ho Hwhy]. split; [|left; by apply Hwhy].
      exists ps. unfold snapshotPages in *. rewrite Ho.
      split_and!; [done|lia|done].
  - rewrite length_app in Hkeep. cbn [length] in Hkeep.
    eexists _, _. split.
    { eapply crawlStep_buffered; try done; rewrite length_app; cbn [length]; lia. }
    split; [by apply requestsConfined_fetch|].
    exists ps. cbn [totalPagesSaved currentBatch queue].
    split_and!; try done.
    + by apply enqueued_inDomain.
    + right. rewrite length_app. cbn [length]. lia.
Qed.

Local Abbreviation loop fuel :=
  (crawlLoop env fuel rootUrl source maxPages batchSize).

Lemma crawlLoop_inv fuel st w :
  (Inv rootUrl source maxPages) st w →
  ∃ o w',
    loop fuel st w = (o, w') ∧ (requestsConfined rootUrl) w w' ∧
    match o with
    | Returned st' => (Inv rootUrl source maxPages) st' w'
    | Thrown _ => (Confined rootUrl source maxPages) w' ∧ faulty env
    | Unsettled => (Confined rootUrl source maxPages) w'
    end.
Proof.
  revert st w. induction fuel as [|fuel IH]; intros st w HI; cbn [crawlLoop].
  - destruct (_ && _).
    + eexists _, _. split; [done|]. split; [apply requestsConfined_refl|].
      by eapply Inv_Confined.
    + eexists _, _. split; [done|]. by split; [apply requestsConfined_refl|].
  - destruct (negb _ && _) eqn:Hguard.
    2:{ eexists _, _. split; [done|].
        by split; [apply requestsConfined_refl|]. }
    apply andb_true_iff in Hguard as [Hq Ht].
    apply negb_true_iff, bool_decide_eq_false in Hq. apply Nat.ltb_lt in Ht.
    destruct (crawlStep_inv st w HI Hq Ht) as (o & w1 & Hs & Hr & Ho).
    unfold mbind, M_bind, bind. rewrite Hs.
    destruct o as [st1|e|]; [|by eexists _, _|done].
    destruct (IH st1 w1 Ho) as (o2 & w2 & Hl & Hr2 & Ho2).
    exists o2, w2. split; [done|].
    split; [by eapply requestsConfined_trans|done].
Qed.

(** A crawl either fails before it has written anything, or leaves under
    [source] a snapshot within the ceiling and the domain; it only requests
    URLs of the domain; and it throws only when the store fails or a body is
    rejected. *)
Lemma scrapeAndSaveSite_confined fuel w :
  ∃ o w',
    scrapeAndSaveSite env fuel rootUrl source maxPages batchSize w = (o, w') ∧
    (requestsConfined rootUrl) w w' ∧
    ((store w' = store w ∧ ∃ e, o = Thrown e) ∨
     (Confined rootUrl source maxPages) w') ∧
    (∀ e, o = Thrown e → faulty env).
Proof.
  unfold scrapeAndSaveSite. msimpl.
  destruct (dbError env (dbCalls w)) as [e|] eqn:Hdb; wsimpl.
  { eexists _, _. split; [done|]. split; [by exists []|].
    split; [left; eauto|]. intros _ _. left. exists (dbCalls w).
    by rewrite Hdb. }
  set (w1 := withStore _ _).
  assert ((Inv rootUrl source maxPages) (mkFrontier [rootUrl] ∅ [] 0) w1) as HI.
  { exists []. unfold snapshotPages. subst w1. wsimpl.
    rewrite lookup_insert_eq. cbn.
    split_and!; try done; try lia; [|by left].
    constructor; [|done]. apply startsWith_refl. }
  destruct (crawlLoop_inv fuel _ _ HI) as (o & w2 & Hl & Hr & Ho).
  rewrite Hl.
  assert ((requestsConfined rootUrl) w w1) as Hr0 by by exists [].
  destruct o as [st|e|]; wsimpl.
  2:{ destruct Ho as [Hc Hwhy]. eexists _, _. split; [done|].
      split; [by apply (requestsConfined_trans w w1 w2)|].
      split; [by right|done]. }
  2:{ eexists _, _. split; [done|].
      split; [by apply (requestsConfined_trans w w1 w2)|].
      split; [by right|done]. }
  destruct (bool_decide (currentBatch st = [])) eqn:Hb.
  { eexists _, _. split; [done|].
    split; [by apply (requestsConfined_trans w w1 w2)|].
    split; [|done]. right. by eapply Inv_Confined. }
  apply bool_decide_eq_false in Hb.
  destruct (saveFinalBatch_effect env rootUrl source (currentBatch st)
              (totalPagesSaved st) w2) as (o & w3 & -> & Hreq & Ho3).
  assert ((requestsConfined rootUrl) w w3) as Hr3.
  { apply (requestsConfined_trans w w2 w3);
      [by apply (requestsConfined_trans w w1 w2)|].
    by apply requestsConfined_same. }
  destruct Ho as (ps & Hps & Hlen & Fps & Fb & _ & _ & Hroom).
  destruct Hroom as [?|Hroom]; [done|].
  destruct o as [t|e|]; [| |done]; eexists _, _; (split; [done|]);
    (split; [done|]).
  - split; [|done]. right. destruct Ho3 as [_ Hsnap].
    exists (ps ++ currentBatch st).
    split_and!; [by apply Hsnap| |by apply Forall_app].
    rewrite length_app. lia.
  - destruct Ho3 as [Ho3 Hwhy]. split; [|intros _ _; left; by apply Hwhy].
    right. exists ps. unfold snapshotPages in *. rewrite Ho3.
    split_and!; [done|lia|done].
Qed.

End Crawl.

(** C5. Every page a crawl leaves in the snapshot of its source has a URL
    that starts with the root URL, and every URL the crawl requests starts
    with the root URL: a link outside the domain is never fetched.  It is
    never queued either: the queue starts as the root URL alone and every
    turn of the loop keeps it within the domain.  (When the very first store
    operation fails the crawl throws and the store is as it was.) *)
Theorem domain_confinement env fuel rootUrl source maxPages batchSize w o w' :
  scrapeAndSaveSite env fuel rootUrl source maxPages batchSize w = (o, w') →
  (∃ new, requested w' = new ++ requested w ∧
          Forall (fun u => startsWith u rootUrl = true) new) ∧
  ((store w' = store w ∧ ∃ e, o = Thrown e) ∨
   ∃ ps, snapshotPages source w' = Some ps ∧
         Forall (fun p => startsWith (url p) rootUrl = true) ps) ∧
  (∀ st w1 st' w1',
     Forall (fun u => startsWith u rootUrl = true) (queue st) →
     crawlStep env rootUrl source maxPages batchSize st w1
       = (Returned st', w1') →
     Forall (fun u => startsWith u rootUrl = true) (queue st')).
Proof.
  intros Hrun.
  destruct (scrapeAndSaveSite_confined env rootUrl source maxPages batchSize
              fuel w) as (o1 & w1 & Hrun1 & Hreq & Hstore & _).
  rewrite Hrun in Hrun1. injection Hrun1 as <- <-.
  split; [done|]. split.
  - destruct Hstore as [?|(ps & ? & _ & ?)]; [by left|right; by exists ps].
  - intros st w1 st' w1'. apply crawlStep_queue_confined.
Qed.

(** C6. The snapshot a crawl leaves under its source never holds more than
    [maxPages] pages, whatever [batchSize] is and however the crawl ends.
    (When the very first store operation fails the crawl throws and the
    store is as it was.) *)
Theorem page_ceiling env fuel rootUrl source maxPages batchSize w o w' :
  scrapeAndSaveSite env fuel rootUrl source maxPages batchSize w = (o, w') →
  (store w' = store w ∧ ∃ e, o = Thrown e) ∨
  ∃ ps, snapshotPages source w' = Some ps ∧ length ps ≤ maxPages.
Proof.
  intros Hrun.
  destruct (scrapeAndSaveSite_confined env rootUrl source maxPages batchSize
              fuel w) as (o1 & w1 & Hrun1 & _ & Hstore & _).
  rewrite Hrun in Hrun1. injection Hrun1 as <- <-.
  destruct Hstore as [?|(ps & ? & ? & _)]; [by left|right; by exists ps].
Qed.

(** ** Relations every step of a computation preserves *)

Section Keeps.
Context (R : relation World) `{!PreOrder R}.

Lemma keeps_ret {A} (a : A) : keeps R (mret a).
Proof. intros w. reflexivity. Qed.

Lemma keeps_throw {A} e : keeps R (@throw A e).
Proof. intros w. reflexivity. Qed.

Lemma keeps_unsettled {A} : keeps R (@unsettled A).
Proof. intros w. reflexivity. Qed.

Lemma keeps_getWorld : keeps R getWorld.
Proof. intros w. reflexivity. Qed.

Lemma keeps_cheerioLoad data : keeps R (cheerioLoad data).
Proof. intros w. destruct data; reflexivity. Qed.

Lemma keeps_modify f : (∀ w, R w (f w)) → keeps R (modify f).
Proof. intros H w. apply H. Qed.

Lemma keeps_bind {A B} (m : M A) (f : A → M B) :
  keeps R m → (∀ a, keeps R (f a)) → keeps R (m ≫= f).
Proof.
  intros Hm Hf w. unfold mbind, M_bind, bind.
  specialize (Hm w). destruct (m w) as [[a|e|] w1]; [|done..].
  etrans; [exact Hm|apply Hf].
Qed.

Lemma keeps_tryCatch {A} (m : M A) h :
  keeps R m → (∀ e, keeps R (h e)) → keeps R (tryCatch m h).
Proof.
  intros Hm Hh w. unfold tryCatch.
  specialize (Hm w). destruct (m w) as [[a|e|] w1]; [done| |done].
  etrans; [exact Hm|apply Hh].
Qed.

Lemma keeps_tryFinally {A} (m : M A) f :
  keeps R m → keeps R f → keeps R (tryFinally m f).
Proof.
  intros Hm Hf w. unfold tryFinally.
  specialize (Hm w). destruct (m w) as [[a|e|] w1]; [| |done];
    specialize (Hf w1); destruct (f w1) as [[[]|e'|] w2]; by etrans.
Qed.

End Keeps.

(** Goals [keeps R m] are taken apart along the structure of [m]. *)
Ltac keeps_step :=
  match goal with
  | |- keeps _ (mbind _ _) => apply keeps_bind; [apply _| |intros ?]
  | |- keeps _ (tryCatch _ _) => apply keeps_tryCatch; [apply _| |intros ?]
  | |- keeps _ (tryFinally _ _) => apply keeps_tryFinally; [apply _| |]
  | |- keeps _ (mret _) => apply keeps_ret; apply _
  | |- keeps _ (throw _) => apply keeps_throw; apply _
  | |- keeps _ unsettled => apply keeps_unsettled; apply _
  | |- keeps _ getWorld => apply keeps_getWorld; apply _
  | |- keeps _ (cheerioLoad _) => apply keeps_cheerioLoad; apply _
  | |- keeps _ (match ?x with _ => _ end) => destruct x
  end.

(** ** The frame of a refresh *)

#[export] Instance framed_preorder K : PreOrder (framed K).
Proof.
  split.
  - intros w. split_and!; [done| |by exists []|done].
    intros t' Ht. left. by exists t'.
  - intros w1 w2 w3 (S1 & T1 & (n1 & E1 & F1) & R1)
                    (S2 & T2 & (n2 & E2 & F2) & R2).
    split_and!; [| | |by rewrite R2].
    + intros k Hk. by rewrite S2, S1.
    + intros t3 Ht3. destruct (T2 t3 Ht3) as [(t2 & Ht2 & H32)|H32].
      * destruct (T1 t2 Ht2) as [(t1 & Ht1 & H21)|H21].
        -- left. exists t1. split; [done|]. intros k Hk. by rewrite H32, H21.
        -- right. intros k Hk. by rewrite H32, H21.
      * right. intros k Hk. by rewrite H32, S1.
    + exists (n2 ++ n1). split; [by rewrite E2, E1, app_assoc|].
      by apply Forall_app.
Qed.

Lemma framed_same K w w' :
  store w' = store w → txn w' = txn w → touched w' = touched w →
  refreshStatus w' = refreshStatus w →
  framed K w w'.
Proof.
  intros Es Et Ek Er. split_and!; [| | |done].
  - intros k _. by rewrite Es.
  - intros t' Ht. left. exists t'. by rewrite <- Et.
  - exists []. by rewrite Ek.
Qed.

Section Frame.
Variable env : Env.
Variable K : list string.

Lemma keeps_framed_dbRoundTrip keys :
  Forall (fun k => k ∈ K) keys → keeps (framed K) (dbRoundTrip env keys).
Proof.
  intros HK w. unfold dbRoundTrip.
  assert (framed K w (countDb keys w)).
  { split_and!; [done| |by exists keys|done].
    intros t' Ht. left. by exists t'. }
  by destruct (dbError env (dbCalls w)).
Qed.

Lemma keeps_framed_write inSession f :
  (∀ (m : gmap string Doc) k, k ∉ K → f m !! k = m !! k) →
  keeps (framed K) (write inSession f).
Proof.
  intros Hf w. unfold write, modify. wsimpl.
  destruct inSession, (txn w) as [t|] eqn:Ht; wsimpl.
  - split_and!; [done| |by exists []|done].
    intros t' [= <-]. left. exists t. split; [done|]. intros k Hk. by apply Hf.
  - split_and!; [intros k Hk; by apply Hf| |by exists []|done].
    wsimpl. by rewrite Ht.
  - split_and!; [intros k Hk; by apply Hf| |by exists []|done].
    wsimpl. rewrite Ht. intros t' [= <-]. left. by exists t.
  - split_and!; [intros k Hk; by apply Hf| |by exists []|done].
    wsimpl. by rewrite Ht.
Qed.

Lemma keeps_framed_findOne source :
  source ∈ K → keeps (framed K) (findOne env source).
Proof.
  intros HK. unfold findOne. repeat keeps_step.
  apply keeps_framed_dbRoundTrip. by constructor.
Qed.

Lemma keeps_framed_findOneAndUpdate source c inSession :
  source ∈ K → keeps (framed K) (findOneAndUpdate env source c inSession).
Proof.
  intros HK. unfold findOneAndUpdate. repeat keeps_step.
  - apply keeps_framed_dbRoundTrip. by constructor.
  - apply keeps_framed_write. intros m k Hk.
    apply lookup_insert_ne. by intros ->.
Qed.

Lemma keeps_framed_deleteMany sources inSession :
  Forall (fun k => k ∈ K) sources →
  keeps (framed K) (deleteMany env sources inSession).
Proof.
  intros HK. unfold deleteMany. repeat keeps_step.
  - by apply keeps_framed_dbRoundTrip.
  - apply keeps_framed_write. intros m k Hk.
    induction HK as [|s sources Hs _ IH]; [done|]. cbn [foldr].
    rewrite lookup_delete_ne; [done|by intros ->].
Qed.

Lemma keeps_framed_endSession : keeps (framed K) endSession.
Proof.
  intros w. unfold endSession, modify. wsimpl.
  split_and!; [done|done|by exists []|done].
Qed.

Lemma keeps_framed_fetchWithRetry remaining u attempt :
  keeps (framed K) (fetchWithRetry env remaining u attempt).
Proof.
  intros w.
  destruct (fetchWithRetry_effect env remaining u attempt w)
    as (r & n & ms & -> & _).
  by apply framed_same.
Qed.

Lemma keeps_framed_jsonParse c : keeps (framed K) (jsonParse c).
Proof. unfold jsonParse. repeat keeps_step. Qed.

Lemma keeps_framed_appendPages d batch :
  keeps (framed K) (appendPages d batch).
Proof. unfold appendPages. repeat keeps_step. Qed.

Lemma keeps_framed_saveBatch rootUrl source batch total :
  source ∈ K → keeps (framed K) (saveBatch env rootUrl source batch total).
Proof.
  intros HK. unfold saveBatch.
  repeat first
    [ apply keeps_framed_findOne | apply keeps_framed_findOneAndUpdate
    | apply keeps_framed_jsonParse | apply keeps_framed_appendPages
    | done | keeps_step ].
Qed.

Lemma keeps_framed_saveFinalBatch rootUrl source batch total :
  source ∈ K →
  keeps (framed K) (saveFinalBatch env rootUrl source batch total).
Proof.
  intros HK. unfold saveFinalBatch.
  repeat first
    [ apply keeps_framed_findOne | apply keeps_framed_findOneAndUpdate
    | apply keeps_framed_jsonParse | apply keeps_framed_appendPages
    | done | keeps_step ].
Qed.

Lemma keeps_framed_crawlStep rootUrl source maxPages batchSize st :
  source ∈ K →
  keeps (framed K) (crawlStep env rootUrl source maxPages batchSize st).
Proof.
  intros HK. unfold crawlStep.
  repeat first
    [ apply keeps_framed_fetchWithRetry | apply keeps_framed_saveBatch
    | done | keeps_step ].
Qed.

Lemma keeps_framed_crawlLoop fuel rootUrl source maxPages batchSize st :
  source ∈ K →
  keeps (framed K) (crawlLoop env fuel rootUrl source maxPages batchSize st).
Proof.
  intros HK. revert st. induction fuel as [|fuel IH]; intros st;
    cbn [crawlLoop]; repeat keeps_step.
  - by apply keeps_framed_crawlStep.
  - apply IH.
Qed.

Lemma keeps_framed_scrapeAndSaveSite fuel rootUrl source maxPages batchSize :
  source ∈ K →
  keeps (framed K)
        (scrapeAndSaveSite env fuel rootUrl source maxPages batchSize).
Proof.
  intros HK. unfold scrapeAndSaveSite.
  repeat first
    [ apply keeps_framed_findOneAndUpdate | apply keeps_framed_crawlLoop
    | apply keeps_framed_saveFinalBatch | done | keeps_step ].
Qed.

Lemma keeps_framed_withTransaction body :
  keeps (framed K) body → keeps (framed K) (withTransaction env body).
Proof.
  intros Hb w. unfold withTransaction.
  specialize (Hb (withTxn (Some (store w)) w)).
  destruct (body _) as [o w2]. wsimpl.
  destruct Hb as (Hs & Ht & (new & Hn & Fn) & Hr). wsimpl.
  assert (∀ t', txn w2 = Some t' → ∀ k, k ∉ K → t' !! k = store w !! k) as Hview.
  { intros t' Ht' k Hk.
    destruct (Ht t' Ht') as [(t & [= <-] & Heq)|Heq]; by apply Heq. }
  destruct o as [[]|e|].
  - destruct (dbError env (dbCalls w2)); wsimpl.
    + split_and!; [done|done| |done]. wsimpl. cbn [app]. by exists new.
    + split_and!; [|done|wsimpl; cbn [app]; by exists new|done]. wsimpl.
      destruct (txn w2) as [t'|]; cbn [default]; [by apply Hview|done].
  - split_and!; [done|done| |done]. wsimpl. by exists new.
  - split_and!; [done| |by exists new|done].
    intros t' Ht'. right. by apply Hview.
Qed.

End Frame.

Ltac in_keys := repeat first [ by constructor | constructor ].

Section RefreshFrame.
Variable env : Env.

Lemma keeps_framed_promoteStaging :
  keeps (framed refreshKeys) (promoteStaging env).
Proof.
  unfold promoteStaging, stagingKeys.
  repeat first
    [ apply keeps_framed_findOne | apply keeps_framed_findOneAndUpdate
    | apply keeps_framed_deleteMany | keeps_step ];
  unfold refreshKeys; in_keys.
Qed.

Lemma keeps_framed_scrapeGitLabData fuel :
  keeps (framed refreshKeys) (scrapeGitLabData env fuel).
Proof.
  unfold scrapeGitLabData, startSession, stagingKeys.
  repeat first
    [ apply keeps_framed_scrapeAndSaveSite
    | apply keeps_framed_withTransaction
    | apply keeps_framed_promoteStaging
    | apply keeps_framed_deleteMany
    | apply keeps_framed_dbRoundTrip
    | apply keeps_framed_endSession
    | keeps_step ];
  unfold refreshKeys; in_keys.
Qed.

(** Around the crawl and the swap [backgroundRefresh] only writes to
    [refreshStatus]. *)
Lemma backgroundRefresh_store fuel w :
  (store (backgroundRefresh env fuel w).2 = store w ∧
   touched (backgroundRefresh env fuel w).2 = touched w) ∨
  (store (backgroundRefresh env fuel w).2 =
     store (scrapeGitLabData env fuel (beginRefresh w)).2 ∧
   touched (backgroundRefresh env fuel w).2 =
     touched (scrapeGitLabData env fuel (beginRefresh w)).2).
Proof.
  unfold backgroundRefresh. msimpl.
  destruct (isRefreshing (refreshStatus w)); [by left|right].
  by destruct (scrapeGitLabData env fuel (beginRefresh w)) as [[[]|e|] w1].
Qed.

End RefreshFrame.

(** C10. A refresh, whether it succeeds or fails, names in its store
    operations only the keys 'handbook', 'direction', 'handbook_staging' and
    'direction_staging', and leaves the document under every other key, the
    'last_conversation' record among them, as it was.  This holds of
    [scrapeGitLabData] and of [backgroundRefresh]. *)
Theorem refresh_touches_only_its_keys env fuel w k :
  k ∉ refreshKeys →
  (store (scrapeGitLabData env fuel w).2 !! k = store w !! k ∧
   ∃ new, touched (scrapeGitLabData env fuel w).2 = new ++ touched w ∧
          Forall (fun key => key ∈ refreshKeys) new) ∧
  (store (backgroundRefresh env fuel w).2 !! k = store w !! k ∧
   ∃ new, touched (backgroundRefresh env fuel w).2 = new ++ touched w ∧
          Forall (fun key => key ∈ refreshKeys) new).
Proof.
  intros Hk. split.
  - destruct (keeps_framed_scrapeGitLabData env fuel w) as (Hs & _ & Ht & _).
    split; [by apply Hs|done].
  - destruct (backgroundRefresh_store env fuel w) as [[-> ->]|[-> ->]].
    { split; [done|by exists []]. }
    destruct (keeps_framed_scrapeGitLabData env fuel (beginRefresh w))
      as (Hs & _ & Ht & _).
    split; [by apply Hs|done].
Qed.

(** ** The staged swap *)

#[export] Instance inSessionOnly_preorder : PreOrder inSessionOnly.
Proof.
  split.
  - by intros w Ht.
  - intros w1 w2 w3 H12 H23 Ht. destruct (H12 Ht) as [E1 Ht2].
    destruct (H23 Ht2) as [E2 Ht3]. split; [by rewrite E2|done].
Qed.

Section Swap.
Variable env : Env.

Lemma keeps_session_dbRoundTrip keys :
  keeps inSessionOnly (dbRoundTrip env keys).
Proof. intros w Ht. unfold dbRoundTrip. by destruct (dbError env (dbCalls w)). Qed.

Lemma keeps_session_write f : keeps inSessionOnly (write true f).
Proof.
  intros w [t Ht]. unfold write, modify. wsimpl. rewrite Ht. wsimpl. eauto.
Qed.

Lemma keeps_session_promoteStaging : keeps inSessionOnly (promoteStaging env).
Proof.
  unfold promoteStaging, findOne, findOneAndUpdate, deleteMany.
  repeat first
    [ apply keeps_session_dbRoundTrip | apply keeps_session_write
    | keeps_step ].
Qed.

(** A transaction that throws leaves the collection as it found it. *)
Lemma withTransaction_aborted body w e w' :
  keeps inSessionOnly body →
  withTransaction env body w = (Thrown e, w') →
  store w' = store w.
Proof.
  intros Hb. unfold withTransaction.
  specialize (Hb (withTxn (Some (store w)) w)).
  destruct (body _) as [[[]|e1|] w2]; wsimpl;
    destruct Hb as [Hs _]; [by eexists| |by eexists| |by eexists|].
  - destruct (dbError env (dbCalls w2)); [|done].
    by intros [= _ <-].
  - by intros [= _ <-].
  - done.
Qed.

Lemma not_staging_handbook : "handbook" ∉ stagingKeys.
Proof. unfold stagingKeys. rewrite !elem_of_cons, elem_of_nil. by intros [|[|]]. Qed.

Lemma not_staging_direction : "direction" ∉ stagingKeys.
Proof. unfold stagingKeys. rewrite !elem_of_cons, elem_of_nil. by intros [|[|]]. Qed.

Lemma staging_in_stagingKeys : Forall (fun k => k ∈ stagingKeys) stagingKeys.
Proof. unfold stagingKeys. in_keys. Qed.

(** When the staged refresh throws, no key outside the staging keys has
    changed. *)
Lemma stagedRefresh_thrown fuel w e w1 k :
  stagedRefresh env fuel w = (Thrown e, w1) → k ∉ stagingKeys →
  store w1 !! k = store w !! k.
Proof.
  unfold stagedRefresh. intros Hrun Hk.
  unfold mbind, M_bind, bind in Hrun.
  pose proof (keeps_framed_scrapeAndSaveSite env stagingKeys fuel
                GITLAB_SOURCES_handbook "handbook_staging" 50 10
                ltac:(unfold stagingKeys; in_keys) w) as (HA & _).
  destruct (scrapeAndSaveSite env fuel GITLAB_SOURCES_handbook _ _ _ w)
    as [[[]|eA|] wA]; [|injection Hrun as _ <-; by apply HA|done].
  pose proof (keeps_framed_scrapeAndSaveSite env stagingKeys fuel
                GITLAB_SOURCES_direction "direction_staging" 50 10
                ltac:(unfold stagingKeys; in_keys) wA) as (HB & _).
  destruct (scrapeAndSaveSite env fuel GITLAB_SOURCES_direction _ _ _ wA)
    as [[[]|eB|] wB]; wsimpl;
    [|injection Hrun as _ <-; rewrite <- HA by done; by apply HB|done].
  unfold startSession, dbRoundTrip in Hrun.
  destruct (dbError env (dbCalls wB)).
  { injection Hrun as _ <-. wsimpl. rewrite <- HA by done. by apply HB. }
  unfold tryFinally, endSession, modify in Hrun.
  destruct (withTransaction env (promoteStaging env) (countDb [] wB))
    as [[[]|eT|] wT] eqn:HT; [done| |done].
  apply withTransaction_aborted in HT; [|apply keeps_session_promoteStaging].
  injection Hrun as _ <-. wsimpl. rewrite HT. wsimpl.
  rewrite <- HA by done. by apply HB.
Qed.

End Swap.

(** C1, amended.  When a refresh throws, the production documents
    'handbook' and 'direction' are exactly as they were before it began; and
    when the clean-up delete, which is the last store operation of a refresh
    that throws, did not itself fail, neither staging document is left. *)
Theorem failed_refresh_keeps_production env fuel w e w' :
  scrapeGitLabData env fuel w = (Thrown e, w') →
  store w' !! "handbook" = store w !! "handbook" ∧
  store w' !! "direction" = store w !! "direction" ∧
  (dbError env (pred (dbCalls w')) = None →
   store w' !! "handbook_staging" = None ∧
   store w' !! "direction_staging" = None).
Proof.
  unfold scrapeGitLabData. fold (stagedRefresh env fuel).
  unfold tryCatch at 1. intros Hrun.
  destruct (stagedRefresh env fuel w) as [[[]|e1|] w1] eqn:Hbody;
    [done| |done].
  pose proof (stagedRefresh_thrown env fuel w e1 w1 "handbook" Hbody
                (not_staging_handbook)) as Hh.
  pose proof (stagedRefresh_thrown env fuel w e1 w1 "direction" Hbody
                (not_staging_direction)) as Hd.
  unfold stagingKeys in Hrun. msimpl.
  destruct (dbError env (dbCalls w1)) eqn:Hdb; wsimpl;
    injection Hrun as _ <-; wsimpl.
  - split_and!; [done|done|]. cbn [Nat.pred]. by rewrite Hdb.
  - cbn [foldr]. rewrite !lookup_delete_ne by done.
    split_and!; [done|done|]. intros _.
    split; [by rewrite lookup_delete_eq|].
    by rewrite lookup_delete_ne, lookup_delete_eq.
Qed.

(** ** The orchestrator *)

(** C3. A trigger that finds a refresh running returns the rejection at once
    and leaves the whole world, hence [isRefreshing], [lastRefreshAttempt]
    and [lastRefreshError], the store and the request log, untouched: no
    crawl starts. *)
Theorem trigger_while_refreshing env fuel w :
  isRefreshing (refreshStatus w) = true →
  backgroundRefresh env fuel w =
  (Returned (mkResult false "Refresh already in progress"), w).
Proof.
  intros Hbusy. unfold backgroundRefresh. msimpl. by rewrite Hbusy.
Qed.

Section RootDown.
Variable env : Env.
Hypothesis store_up : ∀ n, dbError env n = None.
Hypothesis bodies_load : ¬ rejectsBody env.

Lemma reset_transient e : code e = Some "ECONNRESET" → transient e = true.
Proof.
  intros He. unfold transient, isHangup, codeIs. rewrite He.
  by rewrite bool_decide_eq_true_2.
Qed.

(** With the root unreachable the crawl settles, without an error, on an
    empty snapshot. *)
Lemma scrapeAndSaveSite_root_down fuel rootUrl source maxPages batchSize w :
  alwaysReset env rootUrl →
  ∃ w',
    scrapeAndSaveSite env (S fuel) rootUrl source maxPages batchSize w =
      (Returned tt, w') ∧
    store w' =
      <[source := mkDoc (CSite (emptySite rootUrl)) (clock w)]> (store w) ∧
    refreshStatus w' = refreshStatus w.
Proof.
  intros Hdown. unfold scrapeAndSaveSite. msimpl. rewrite store_up. wsimpl.
  set (w1 := withStore _ _). cbn [crawlLoop]. cbn [queue totalPagesSaved].
  rewrite bool_decide_eq_false_2 by done. cbn [negb andb].
  destruct maxPages as [|m].
  { cbn [Nat.ltb Nat.leb]. msimpl. rewrite bool_decide_eq_true_2 by done.
    by eexists. }
  change (0 <? S m) with true. cbv iota.
  destruct (fetchWithRetry_transient env rootUrl w1) as [ms Hf].
  { intros n. destruct (Hdown n) as (e & He & Hc). exists e.
    split; [done|by apply reset_transient]. }
  unfold mbind, M_bind, bind.
  rewrite (crawlStep_failed env rootUrl source (S m) batchSize
             (mkFrontier [rootUrl] ∅ [] 0) rootUrl [] w1 _ eq_refl
             ltac:(set_solver) Hf).
  assert (∀ st w2, queue st = [] →
            crawlLoop env fuel rootUrl source (S m) batchSize st w2 =
            (Returned st, w2)) as Hstop.
  { intros st w2 Hq. destruct fuel; cbn [crawlLoop]; rewrite Hq;
      by rewrite bool_decide_eq_true_2. }
  rewrite Hstop by done. cbn [currentBatch].
  rewrite bool_decide_eq_true_2 by done. by eexists.
Qed.

(** A promotion that meets no store failure copies both staging documents
    into production and deletes them, in one commit. *)
Lemma promotion_commits w dh dd :
  store w !! "handbook_staging" = Some dh →
  store w !! "direction_staging" = Some dd →
  ∃ w',
    withTransaction env (promoteStaging env) w = (Returned tt, w') ∧
    store w' =
      delete "handbook_staging"
        (delete "direction_staging"
           (<["direction" := mkDoc (content dd) (clock w)]>
              (<["handbook" := mkDoc (content dh) (clock w)]> (store w)))) ∧
    refreshStatus w' = refreshStatus w.
Proof.
  intros Hh Hd. unfold withTransaction, promoteStaging, stagingKeys. msimpl.
  rewrite !store_up. wsimpl. rewrite Hh, Hd. wsimpl.
  rewrite !store_up. wsimpl. by eexists.
Qed.

(** Without fuel the crawl does not get past the root. *)
Lemma scrapeAndSaveSite_no_fuel rootUrl source batchSize w :
  (scrapeAndSaveSite env 0 rootUrl source 50 batchSize w).1 = Unsettled.
Proof.
  unfold scrapeAndSaveSite. msimpl. rewrite store_up. wsimpl.
  cbn [crawlLoop queue totalPagesSaved].
  by rewrite bool_decide_eq_false_2.
Qed.

(** With the store up and no body rejected a crawl returns or hangs; when
    it returns, a snapshot is staged. *)
Lemma scrapeAndSaveSite_store_up fuel rootUrl source maxPages batchSize w o w' :
  scrapeAndSaveSite env fuel rootUrl source maxPages batchSize w = (o, w') →
  o ≠ Unsettled →
  o = Returned tt ∧ is_Some (store w' !! source) ∧
  refreshStatus w' = refreshStatus w ∧
  ∀ k, k ≠ source → store w' !! k = store w !! k.
Proof.
  intros Hrun Hsettled.
  destruct (scrapeAndSaveSite_confined env rootUrl source maxPages batchSize
              fuel w) as (o1 & w1 & Hrun1 & _ & Hstore & Hthrow).
  rewrite Hrun in Hrun1. injection Hrun1 as <- <-.
  pose proof (keeps_framed_scrapeAndSaveSite env [source] fuel rootUrl source
                maxPages batchSize ltac:(by left) w) as (Hframe & _ & _ & Hst).
  rewrite Hrun in Hframe, Hst. cbn [snd] in Hframe, Hst.
  destruct o as [[]|e|]; [| |done].
  - split; [done|]. split_and!; [|done|].
    + destruct Hstore as [[_ [e [=]]]|(ps & Hps & _)].
      unfold snapshotPages in Hps. by destruct (store w' !! source).
    + intros k Hk. apply Hframe. rewrite list_elem_of_singleton. done.
  - destruct (Hthrow e eq_refl) as [[n Hn]|Hrej]; [|done].
    rewrite store_up in Hn. by destruct Hn.
Qed.

(** With the root of one source unreachable, the store up and no body
    rejected, a staged refresh that settles has promoted an empty snapshot
    for that source. *)
Lemma stagedRefresh_root_down fuel w o w' source rootUrl :
  (source, rootUrl) ∈ [("handbook", GITLAB_SOURCES_handbook);
                       ("direction", GITLAB_SOURCES_direction)] →
  alwaysReset env rootUrl →
  stagedRefresh env fuel w = (o, w') →
  o ≠ Unsettled →
  o = Returned tt ∧
  (∃ t, store w' !! source = Some (mkDoc (CSite (emptySite rootUrl)) t)) ∧
  refreshStatus w' = refreshStatus w.
Proof.
  intros Hsrc Hdown Hrun Hsettled.
  unfold stagedRefresh, mbind, M_bind, bind in Hrun.
  destruct fuel as [|fuel].
  { pose proof (scrapeAndSaveSite_no_fuel GITLAB_SOURCES_handbook
                  "handbook_staging" 10 w) as Hno.
    destruct (scrapeAndSaveSite env 0 _ _ _ _ w) as [oA wA].
    cbn [fst] in Hno. subst oA. by injection Hrun as <- _. }
  destruct (scrapeAndSaveSite env (S fuel) GITLAB_SOURCES_handbook _ _ _ w)
    as [oA wA] eqn:HA.
  destruct (scrapeAndSaveSite_store_up _ _ _ _ _ _ _ _ HA)
    as (-> & [dA HdA] & HstA & HfrA).
  { intros ->. by injection Hrun as <- _. }
  destruct (scrapeAndSaveSite env (S fuel) GITLAB_SOURCES_direction _ _ _ wA)
    as [oB wB] eqn:HB.
  destruct (scrapeAndSaveSite_store_up _ _ _ _ _ _ _ _ HB)
    as (-> & [dB HdB] & HstB & HfrB).
  { intros ->. by injection Hrun as <- _. }
  assert (store wB !! "handbook_staging" = Some dA) as HdA'.
  { by rewrite HfrB. }
  unfold startSession, dbRoundTrip in Hrun. rewrite store_up in Hrun.
  destruct (promotion_commits (countDb [] wB) dA dB HdA' HdB)
    as (w3 & Hrun3 & Hs3 & Hr3).
  unfold tryFinally, endSession, modify in Hrun. rewrite Hrun3 in Hrun.
  injection Hrun as <- <-. split; [done|]. wsimpl.
  split; [|by rewrite Hr3, HstB, HstA].
  rewrite Hs3. wsimpl.
  apply elem_of_cons in Hsrc as [[= -> ->]|Hsrc].
  - destruct (scrapeAndSaveSite_root_down fuel GITLAB_SOURCES_handbook
                "handbook_staging" 50 10 w Hdown) as (w1 & HA1 & Hs1 & _).
    rewrite HA in HA1. injection HA1 as <-.
    rewrite Hs1, lookup_insert_eq in HdA. injection HdA as <-.
    eexists. by rewrite !lookup_delete_ne, lookup_insert_ne, lookup_insert_eq.
  - apply list_elem_of_singleton in Hsrc as [= -> ->].
    destruct (scrapeAndSaveSite_root_down fuel GITLAB_SOURCES_direction
                "direction_staging" 50 10 wA Hdown) as (w1 & HB1 & Hs1 & _).
    rewrite HB in HB1. injection HB1 as <-.
    rewrite Hs1, lookup_insert_eq in HdB. injection HdB as <-.
    eexists. by rewrite !lookup_delete_ne, lookup_insert_eq.
Qed.

End RootDown.

(** C2, amended.  Take either source, with every fetch of its root URL
    reset, a store that works, no response whose body the markup library
    rejects (the crawl of the other source throws on one), and a refresh
    that settles.  The root is given up as a page-level failure inside the
    crawl and no error is raised: the refresh reports success, the
    production snapshot of that source is replaced by a snapshot of the root
    URL with no pages, whatever it was before, no error is recorded, and no
    refresh is running afterward. *)
Theorem root_down_refresh env fuel w o w' source rootUrl :
  (source, rootUrl) ∈ [("handbook", GITLAB_SOURCES_handbook);
                       ("direction", GITLAB_SOURCES_direction)] →
  alwaysReset env rootUrl →
  (∀ n, dbError env n = None) →
  ¬ rejectsBody env →
  isRefreshing (refreshStatus w) = false →
  backgroundRefresh env fuel w = (o, w') →
  o ≠ Unsettled →
  o = Returned (mkResult true "Refresh completed successfully") ∧
  (∃ t, store w' !! source = Some (mkDoc (CSite (emptySite rootUrl)) t)) ∧
  lastRefreshError (refreshStatus w') = None ∧
  isRefreshing (refreshStatus w') = false.
Proof.
  intros Hsrc Hdown Hdb Hload Hidle Hrun Hsettled.
  unfold backgroundRefresh, mbind, M_bind, bind, getWorld in Hrun.
  rewrite Hidle in Hrun. unfold modify at 1 in Hrun.
  unfold scrapeGitLabData in Hrun. fold (stagedRefresh env fuel) in Hrun.
  unfold tryFinally, tryCatch in Hrun.
  destruct (stagedRefresh env fuel (beginRefresh w)) as [oS wS] eqn:HS.
  destruct (stagedRefresh_root_down env Hdb Hload fuel _ _ _ _ _ Hsrc Hdown HS)
    as (-> & Hstore & Hstatus).
  { intros ->. by injection Hrun as <- _. }
  unfold mret, M_ret, ret, modify, clearRefreshing in Hrun.
  injection Hrun as <- <-. wsimpl. by rewrite Hstatus.
Qed.

(** ** Scenarios *)

(** The crawl of the small handbook keeps the home page and [/b], and never
    asks for the page off the domain. *)
Example crawl_online :
  let w := (scrapeAndSaveSite online 10 GITLAB_SOURCES_handbook
              "handbook_staging" 50 10 fresh).2 in
  (url <$> default [] (snapshotPages "handbook_staging" w))
    = [GITLAB_SOURCES_handbook; pageB] ∧
  (title <$> default [] (snapshotPages "handbook_staging" w))
    = ["Home"; "B"] ∧
  requested w = [pageB; pageA; GITLAB_SOURCES_handbook].
Proof. vm_compute. done. Qed.

(** A successful refresh promotes both snapshots and removes the staging
    documents. *)
Example refresh_online :
  let r := backgroundRefresh online 10 served in
  r.1 = Returned (mkResult true "Refresh completed successfully") ∧
  (length <$> snapshotPages "handbook" r.2) = Some 2 ∧
  (length <$> snapshotPages "direction" r.2) = Some 0 ∧
  store r.2 !! "handbook_staging" = None ∧
  store r.2 !! "direction_staging" = None.
Proof. vm_compute. done. Qed.

(** ** Witnesses and counterexamples *)

(** The home page while every connection is reset, is hung up on, and while
    no name resolves, and a page that is missing while the network is up. *)
Lemma retry_budget_witness :
  (∃ ms,
     crawlStep networkDown GITLAB_SOURCES_handbook "handbook_staging" 50 10
       (mkFrontier [GITLAB_SOURCES_handbook] ∅ [] 0) fresh =
     (Returned (givenUp (mkFrontier [GITLAB_SOURCES_handbook] ∅ [] 0)
                        GITLAB_SOURCES_handbook []),
      afterRequests 3 ms GITLAB_SOURCES_handbook fresh)) ∧
  (∃ ms,
     crawlStep hangingUp GITLAB_SOURCES_handbook "handbook_staging" 50 10
       (mkFrontier [GITLAB_SOURCES_handbook] ∅ [] 0) fresh =
     (Returned (givenUp (mkFrontier [GITLAB_SOURCES_handbook] ∅ [] 0)
                        GITLAB_SOURCES_handbook []),
      afterRequests 3 ms GITLAB_SOURCES_handbook fresh)) ∧
  (∃ ms,
     crawlStep namesDown GITLAB_SOURCES_handbook "handbook_staging" 50 10
       (mkFrontier [GITLAB_SOURCES_handbook] ∅ [] 0) fresh =
     (Returned (givenUp (mkFrontier [GITLAB_SOURCES_handbook] ∅ [] 0)
                        GITLAB_SOURCES_handbook []),
      afterRequests 3 ms GITLAB_SOURCES_handbook fresh)) ∧
  (∃ ms,
     crawlStep online GITLAB_SOURCES_handbook "handbook_staging" 50 10
       (mkFrontier ["https://handbook.gitlab.com/missing"] ∅ [] 0) fresh =
     (Returned (givenUp (mkFrontier ["https://handbook.gitlab.com/missing"] ∅ [] 0)
                        "https://handbook.gitlab.com/missing" []),
      afterRequests 1 ms "https://handbook.gitlab.com/missing" fresh)).
Proof.
  split; [|split; [|split]].
  - destruct (retry_budget networkDown GITLAB_SOURCES_handbook
                "handbook_staging" 50 10
                (mkFrontier [GITLAB_SOURCES_handbook] ∅ [] 0)
                GITLAB_SOURCES_handbook [] fresh eq_refl
                (not_elem_of_empty _)) as [H _].
    destruct H as (ms & Hs & _).
    + intros n. exists connectionReset. split; [reflexivity|by left].
    + by exists ms.
  - destruct (retry_budget hangingUp GITLAB_SOURCES_handbook
                "handbook_staging" 50 10
                (mkFrontier [GITLAB_SOURCES_handbook] ∅ [] 0)
                GITLAB_SOURCES_handbook [] fresh eq_refl
                (not_elem_of_empty _)) as [H _].
    destruct H as (ms & Hs & _).
    + intros n. exists hangUp. split; [reflexivity|].
      right; left. by exists "Client network ", "".
    + by exists ms.
  - destruct (retry_budget namesDown GITLAB_SOURCES_handbook
                "handbook_staging" 50 10
                (mkFrontier [GITLAB_SOURCES_handbook] ∅ [] 0)
                GITLAB_SOURCES_handbook [] fresh eq_refl
                (not_elem_of_empty _)) as [H _].
    destruct H as (ms & Hs & _).
    + intros n. exists nameNotFound.
      split; [reflexivity|by right; right; right; left].
    + by exists ms.
  - destruct (retry_budget online GITLAB_SOURCES_handbook
                "handbook_staging" 50 10
                (mkFrontier ["https://handbook.gitlab.com/missing"] ∅ [] 0)
                "https://handbook.gitlab.com/missing" [] fresh eq_refl
                (not_elem_of_empty _)) as [_ H].
    destruct (H notFound eq_refl) as (ms & Hs & _).
    + intros [?|[Hhang|[?|[?|?]]]]; try done.
      apply includes_true in Hhang. vm_compute in Hhang. discriminate Hhang.
    + by exists ms.
Defined.

(** A connection that times out is a timeout, and is given up after one
    request. *)
Lemma transient_errors_are_retried_counterexample :
  ¬ transient_errors_are_retried timingOut GITLAB_SOURCES_handbook
      "handbook_staging" 50 10.
Proof.
  intros H.
  destruct (H (mkFrontier [GITLAB_SOURCES_handbook] ∅ [] 0)
              GITLAB_SOURCES_handbook [] fresh eq_refl (not_elem_of_empty _))
    as (ms & Hs).
  { intros n. exists connectTimeout.
    split; [reflexivity|by right; right; right; left]. }
  apply (f_equal (fun r => httpCalls r.2)) in Hs.
  vm_compute in Hs. discriminate Hs.
Qed.

(** A trigger during a running refresh. *)
Lemma trigger_while_refreshing_witness :
  backgroundRefresh online 10 busy =
  (Returned (mkResult false "Refresh already in progress"), busy).
Proof. apply (trigger_while_refreshing online 10 busy). reflexivity. Defined.

(** The crawl of the small handbook, which links off the domain. *)
Lemma domain_confinement_witness :
  let r := scrapeAndSaveSite online 10 GITLAB_SOURCES_handbook
             "handbook_staging" 50 10 fresh in
  (∃ new, requested r.2 = new ++ requested fresh ∧
          Forall (fun u => startsWith u GITLAB_SOURCES_handbook = true) new) ∧
  ((store r.2 = store fresh ∧ ∃ e, r.1 = Thrown e) ∨
   ∃ ps, snapshotPages "handbook_staging" r.2 = Some ps ∧
         Forall (fun p => startsWith (url p) GITLAB_SOURCES_handbook = true) ps).
Proof.
  destruct (domain_confinement online 10 GITLAB_SOURCES_handbook
              "handbook_staging" 50 10 fresh _ _
              (surjective_pairing _)) as (Hreq & Hsnap & _).
  split; [exact Hreq|exact Hsnap].
Defined.

(** With a ceiling of one page the crawl of the small handbook stops after
    the home page. *)
Lemma page_ceiling_witness :
  let r := scrapeAndSaveSite online 10 GITLAB_SOURCES_handbook
             "handbook_staging" 1 10 fresh in
  (store r.2 = store fresh ∧ ∃ e, r.1 = Thrown e) ∨
  ∃ ps, snapshotPages "handbook_staging" r.2 = Some ps ∧ length ps ≤ 1.
Proof.
  apply (page_ceiling online 10 GITLAB_SOURCES_handbook
           "handbook_staging" 1 10 fresh).
  apply surjective_pairing.
Defined.

Lemma pageA_fetched :
  fetchWithRetry online 3 pageA 0 fresh =
  (Returned (Some (Markup (mkHtml "See the other page." "A" "" [pageB]))),
   afterRequests 1 1000 pageA fresh).
Proof. vm_compute. reflexivity. Qed.

Lemma pageA_thin : thin (mkHtml "See the other page." "A" "" [pageB]).
Proof. unfold thin. vm_compute. lia. Qed.

(** The thin page [/a] is skipped, and its link to [/b] is queued. *)
Lemma skip_queues_nothing_counterexample :
  ¬ skip_queues_nothing online GITLAB_SOURCES_handbook "handbook_staging" 50 10.
Proof.
  intros H.
  specialize (H (mkFrontier [pageA] ∅ [] 0) pageA [] fresh _ _
                (mkFrontier [pageB] {[pageA]} [] 0)
                (afterRequests 1 1000 pageA fresh)
                eq_refl (not_elem_of_empty _) pageA_fetched pageA_thin).
  discriminate H. vm_compute. reflexivity.
Qed.

(** The turn that handles the thin page [/a]. *)
Lemma failed_or_skipped_page_witness :
  crawlStep online GITLAB_SOURCES_handbook "handbook_staging" 50 10
    (mkFrontier [pageA] ∅ [] 0) fresh =
  (Returned
     (mkFrontier
        (enqueued 50 0 []
           (discovered online GITLAB_SOURCES_handbook pageA ({[pageA]} ∪ ∅)
              [pageB]))
        ({[pageA]} ∪ ∅) [] 0),
   afterRequests 1 1000 pageA fresh)
  ∧ store (afterRequests 1 1000 pageA fresh) = store fresh.
Proof.
  apply (failed_or_skipped_page online GITLAB_SOURCES_handbook
           "handbook_staging" 50 10 (mkFrontier [pageA] ∅ [] 0) pageA []
           fresh (Some (Markup (mkHtml "See the other page." "A" "" [pageB])))).
  - reflexivity.
  - apply not_elem_of_empty.
  - vm_compute. reflexivity.
  - unfold thin. vm_compute. lia.
Defined.

(** [/a] is waiting in the queue when the home page, which links to it
    twice, is handled: it is queued twice more. *)
Lemma queues_only_unseen_counterexample :
  ¬ queues_only_unseen online GITLAB_SOURCES_handbook "handbook_staging" 50 10.
Proof.
  intros H.
  destruct (H (mkFrontier [GITLAB_SOURCES_handbook; pageA] ∅ [] 0)
              GITLAB_SOURCES_handbook [pageA] fresh
              (mkFrontier [pageA; pageA; pageA] {[GITLAB_SOURCES_handbook]}
                 [mkPage GITLAB_SOURCES_handbook "Home" longText] 0)
              (afterRequests 1 1000 GITLAB_SOURCES_handbook fresh)
              eq_refl (not_elem_of_empty _))
    as (new & Hq & _ & HF).
  { vm_compute. reflexivity. }
  cbn [queue app] in Hq. injection Hq as <-.
  apply Forall_cons in HF as [[_ Hin] _]. apply Hin. by left.
Qed.

(** The turn that handles the home page while [/a] is waiting. *)
Lemma queued_links_witness :
  ∃ new,
    [pageA; pageA; pageA] = [pageA] ++ new ∧
    new = take 5 (discovered online GITLAB_SOURCES_handbook
                    GITLAB_SOURCES_handbook ({[GITLAB_SOURCES_handbook]} ∪ ∅)
                    [pageA; "https://other.example/x"; pageA; "#top"]) ∧
    length new ≤ 5 ∧
    Forall (fun l => startsWith l GITLAB_SOURCES_handbook = true ∧
                     l ∉ ({[GITLAB_SOURCES_handbook]} ∪ ∅ : gset string)) new.
Proof.
  apply (queued_links online GITLAB_SOURCES_handbook "handbook_staging" 50 10
           (mkFrontier [GITLAB_SOURCES_handbook; pageA] ∅ [] 0)
           GITLAB_SOURCES_handbook [pageA] fresh
           (mkHtml longText "Home" ""
              [pageA; "https://other.example/x"; pageA; "#top"])
           (afterRequests 1 1000 GITLAB_SOURCES_handbook fresh)
           (mkFrontier [pageA; pageA; pageA] {[GITLAB_SOURCES_handbook]}
              [mkPage GITLAB_SOURCES_handbook "Home" longText] 0)
           (afterRequests 1 1000 GITLAB_SOURCES_handbook fresh)).
  - reflexivity.
  - apply not_elem_of_empty.
  - vm_compute. reflexivity.
  - vm_compute. reflexivity.
Defined.

(** The handbook crawl has staged its (empty) snapshot when the store is
    lost; the clean-up delete fails as well and the staging document stays. *)
Lemma failed_refresh_cleans_up_counterexample :
  ¬ failed_refresh_cleans_up storeLost 1 served.
Proof.
  intros H.
  destruct (H connectionLost (scrapeGitLabData storeLost 1 served).2)
    as [Hstaging _].
  { vm_compute. reflexivity. }
  vm_compute in Hstaging. discriminate Hstaging.
Qed.

(** The store fails once, when the direction crawl starts: production is
    as it was and the staged handbook snapshot is deleted. *)
Lemma failed_refresh_keeps_production_witness :
  let w' := (scrapeGitLabData storeHiccup 1 served).2 in
  store w' !! "handbook" = Some oldHandbook ∧
  store w' !! "direction" = Some oldDirection ∧
  store w' !! "handbook_staging" = None ∧
  store w' !! "direction_staging" = None.
Proof.
  destruct (failed_refresh_keeps_production storeHiccup 1 served
              connectionLost (scrapeGitLabData storeHiccup 1 served).2)
    as (Hh & Hd & Hs).
  { vm_compute. reflexivity. }
  destruct Hs as [Hhs Hds].
  { vm_compute. reflexivity. }
  cbv zeta. split; [exact Hh|]. split; [exact Hd|].
  split; [exact Hhs|exact Hds].
Defined.

(** With the network down the old handbook snapshot is replaced by an empty
    one, and no error is recorded. *)
Lemma root_down_is_reported_counterexample :
  ¬ root_down_is_reported networkDown 1 served.
Proof.
  intros H. destruct H as (Hsame & _).
  { intros n. exists connectionReset. split; reflexivity. }
  vm_compute in Hsame. discriminate Hsame.
Qed.

Lemma directionReset_loads : ¬ rejectsBody directionReset.
Proof.
  intros (n & u & e & H). cbn [http directionReset] in H.
  destruct (startsWith u GITLAB_SOURCES_direction); [done|].
  unfold handbookSite in H. by repeat destruct (String.eqb _ _).
Qed.

(** The direction pages are unreachable while the handbook answers: the
    refresh succeeds, the old direction snapshot gives way to an empty one,
    and the handbook is crawled as ever. *)
Lemma root_down_refresh_witness :
  (∃ t, store (backgroundRefresh directionReset 10 served).2 !! "direction" =
          Some (mkDoc (CSite (emptySite GITLAB_SOURCES_direction)) t)) ∧
  lastRefreshError
    (refreshStatus (backgroundRefresh directionReset 10 served).2) = None ∧
  isRefreshing
    (refreshStatus (backgroundRefresh directionReset 10 served).2) = false.
Proof.
  destruct (root_down_refresh directionReset 10 served
              (backgroundRefresh directionReset 10 served).1
              (backgroundRefresh directionReset 10 served).2
              "direction" GITLAB_SOURCES_direction) as (_ & Hs & He & Hr).
  - right. by left.
  - intros n. exists connectionReset. split; reflexivity.
  - intros n. reflexivity.
  - apply directionReset_loads.
  - reflexivity.
  - apply surjective_pairing.
  - vm_compute. discriminate.
  - split; [exact Hs|]. split; [exact He|exact Hr].
Defined.

Lemma last_conversation_not_refreshed : "last_conversation" ∉ refreshKeys.
Proof.
  unfold refreshKeys. rewrite !elem_of_cons, elem_of_nil.
  by intros [|[|[|[|]]]].
Qed.

(** A refresh against the small handbook leaves the conversation alone. *)
Lemma refresh_touches_only_its_keys_witness :
  (store (scrapeGitLabData online 10 served).2 !! "last_conversation"
     = Some lastConversation ∧
   ∃ new, touched (scrapeGitLabData online 10 served).2 = new ++ [] ∧
          Forall (fun key => key ∈ refreshKeys) new) ∧
  (store (backgroundRefresh online 10 served).2 !! "last_conversation"
     = Some lastConversation ∧
   ∃ new, touched (backgroundRefresh online 10 served).2 = new ++ [] ∧
          Forall (fun key => key ∈ refreshKeys) new).
Proof.
  apply (refresh_touches_only_its_keys online 10 served "last_conversation").
  apply last_conversation_not_refreshed.
Defined.

(** ** The manual trigger *)

(** C9, on the code.  The handler answers only once the refresh has
    settled: against the small handbook the reply comes after the four
    requests of the whole crawl, with [isRefreshing] already false again;
    and the reply tells how the refresh ended, since with the store down the
    same request is answered 'Refresh failed: ...'. *)
Theorem manual_trigger_waits_for_refresh :
  (postRefreshData online 10 served).1 =
    Returned (Json "GitLab data refresh started in background" false
                   (Some 10) (Some 10) 4010) ∧
  requested (postRefreshData online 10 served).2 =
    [GITLAB_SOURCES_direction; pageB; pageA; GITLAB_SOURCES_handbook] ∧
  (postRefreshData storeDown 10 served).1 =
    Returned (Json "Refresh failed: connection to the database lost" false
                   (Some 10) (Some 10) 10).
Proof. vm_compute. done. Qed.

(** * Further properties of the pipeline *)

(** ** What a refresh leaves behind *)

Section Bookkeeping.
Variable env : Env.

(** X1. A refresh started from an idle state never throws.  It records the
    time of the attempt; when it returns, [isRefreshing] is false again and
    [lastRefreshError] is null exactly when the crawl and the swap went
    through, and otherwise holds the message of the error they threw, which
    the result repeats after 'Refresh failed: '.  While the crawl has not
    ended, [isRefreshing] stays true. *)
Theorem backgroundRefresh_bookkeeping fuel w o w' :
  isRefreshing (refreshStatus w) = false →
  backgroundRefresh env fuel w = (o, w') →
  lastRefreshAttempt (refreshStatus w') = Some (clock w) ∧
  startTime (refreshStatus w') = Some (clock w) ∧
  match o with
  | Returned r =>
      isRefreshing (refreshStatus w') = false ∧
      (((scrapeGitLabData env fuel (beginRefresh w)).1 = Returned tt ∧
        r = mkResult true "Refresh completed successfully" ∧
        lastRefreshError (refreshStatus w') = None) ∨
       (∃ e, (scrapeGitLabData env fuel (beginRefresh w)).1 = Thrown e ∧
             r = mkResult false ("Refresh failed: " +:+ message e) ∧
             lastRefreshError (refreshStatus w') = Some (message e)))
  | Thrown _ => False
  | Unsettled => isRefreshing (refreshStatus w') = true
  end.
Proof.
  intros Hidle Hrun. unfold backgroundRefresh in Hrun. msimpl.
  rewrite Hidle in Hrun.
  pose proof (keeps_framed_scrapeGitLabData env fuel (beginRefresh w))
    as (_ & _ & _ & Hst).
  destruct (scrapeGitLabData env fuel (beginRefresh w)) as [[[]|e|] wS];
    wsimpl; injection Hrun as <- <-;
    unfold clearRefreshing, recordError; wsimpl; rewrite Hst;
    unfold beginRefresh; wsimpl.
  - split_and!; [done..|]. left. done.
  - split_and!; [done..|]. right. by exists e.
  - done.
Qed.

(** X2. The manual trigger never throws and never answers with status 500:
    the handler's [catch] cannot be reached.  When a refresh is running it
    answers 'Refresh already in progress', reports [isRefreshing] as true
    and changes nothing. *)
Theorem postRefreshData_always_answers fuel w o w' :
  postRefreshData env fuel w = (o, w') →
  match o with
  | Returned (Json msg running _ _ _) =>
      isRefreshing (refreshStatus w) = true →
      msg = "Refresh already in progress" ∧ running = true ∧ w' = w
  | Returned (Status500 _ _) => False
  | Thrown _ => False
  | Unsettled => isRefreshing (refreshStatus w) = false
  end.
Proof.
  intros Hrun. unfold postRefreshData, backgroundRefresh in Hrun. msimpl.
  destruct (isRefreshing (refreshStatus w)) eqn:Hbusy; wsimpl.
  { injection Hrun as <- <-. cbn [success resultMessage]. rewrite Hbusy.
    by intros _. }
  destruct (scrapeGitLabData env fuel (beginRefresh w)) as [[[]|e|] wS];
    wsimpl; injection Hrun as <- <-; done.
Qed.

End Bookkeeping.

(** ** Retry, backoff and pacing *)

Lemma politeDelay_bounds r : 1000 ≤ politeDelay r < 2000.
Proof.
  unfold politeDelay. pose proof (Nat.mod_upper_bound r 1000). lia.
Qed.

Section Pacing.
Variable env : Env.

(** The fetch loop sleeps between one and five seconds for each request it
    makes, and makes at least one. *)
Lemma fetchWithRetry_paced remaining u attempt w :
  ∃ r n ms,
    fetchWithRetry env remaining u attempt w =
      (Returned r, afterRequests n ms u w) ∧
    n ≤ remaining ∧ (0 < remaining → 0 < n) ∧
    1000 * n ≤ ms ≤ 4999 * n.
Proof.
  revert attempt w. induction remaining as [|k IH]; intros attempt w.
  - exists None, 0, 0. split; [|lia]. cbn [fetchWithRetry]. msimpl.
    unfold afterRequests. destruct w; wsimpl.
    by rewrite !Nat.add_0_r.
  - pose proof (politeDelay_bounds (random env (httpCalls w))) as Hd.
    destruct (http env (httpCalls w) u) as [d|e] eqn:H.
    + rewrite (fetch_attempt_succeeds _ _ _ _ _ _ H).
      exists (Some d), 1, (politeDelay (random env (httpCalls w))).
      split; [|lia]. f_equal. world_eq.
    + rewrite (fetch_attempt_fails _ _ _ _ _ _ H). cbv zeta.
      destruct (transient e && (S attempt <? 3)) eqn:Hretry.
      * apply andb_true_iff in Hretry as [_ Hlt]. apply Nat.ltb_lt in Hlt.
        destruct (IH (S attempt)
          (advance (backoff (S attempt))
             (countHttp u (advance (politeDelay (random env (httpCalls w))) w))))
          as (r & n & ms & -> & Hn & _ & Hms).
        exists r, (S n). eexists. rewrite afterRequests_step.
        split; [done|]. unfold backoff. lia.
      * exists None, 1, (politeDelay (random env (httpCalls w))).
        split; [|lia]. f_equal. world_eq.
Qed.

(** X4. A transient failure is retried: if the first [i] fetches of a URL
    (for [i] below 3) fail with transient errors and the next one is
    answered, the fetch loop returns that answer after [i + 1] requests,
    having slept at least a second before each request and [1500 * k]
    milliseconds after the [k]-th failure. *)
Theorem retry_recovers u w i d :
  i < 3 →
  (∀ j, j < i →
     ∃ e, http env (httpCalls w + j) u = Failure e ∧ transient e = true) →
  http env (httpCalls w + i) u = Response d →
  ∃ ms,
    fetchWithRetry env 3 u 0 w = (Returned (Some d), afterRequests (S i) ms u w) ∧
    1000 * S i + 750 * i * S i ≤ ms.
Proof.
  intros Hi Hfail Hok.
  pose proof (politeDelay_bounds (random env (httpCalls w))) as Hd0.
  destruct i as [|i].
  { rewrite Nat.add_0_r in Hok.
    rewrite (fetch_attempt_succeeds _ _ _ _ _ _ Hok), afterRequests_one.
    eexists. split; [done|]. lia. }
  destruct (Hfail 0 ltac:(lia)) as (e0 & H0 & T0). rewrite Nat.add_0_r in H0.
  rewrite (fetch_attempt_fails _ _ _ _ _ _ H0), T0. cbn [andb Nat.ltb Nat.leb].
  cbv zeta. set (w1 := advance _ (countHttp _ _)).
  assert (httpCalls w1 = httpCalls w + 1) as Hc1 by (subst w1; wsimpl; lia).
  pose proof (politeDelay_bounds (random env (httpCalls w1))) as Hd1.
  destruct i as [|i].
  { rewrite <- Hc1 in Hok.
    rewrite (fetch_attempt_succeeds _ _ _ _ _ _ Hok), afterRequests_one.
    subst w1. rewrite afterRequests_step.
    eexists. split; [done|]. unfold backoff in *. lia. }
  destruct (Hfail 1 ltac:(lia)) as (e1 & H1 & T1). rewrite <- Hc1 in H1.
  rewrite (fetch_attempt_fails _ _ _ _ _ _ H1), T1. cbn [andb Nat.ltb Nat.leb].
  cbv zeta. set (w2 := advance _ (countHttp _ _)).
  assert (httpCalls w2 = httpCalls w + 2) as Hc2 by (subst w2 w1; wsimpl; lia).
  pose proof (politeDelay_bounds (random env (httpCalls w2))) as Hd2.
  assert (i = 0) as -> by lia. rewrite <- Hc2 in Hok.
  rewrite (fetch_attempt_succeeds _ _ _ _ _ _ Hok), afterRequests_one.
  subst w2. rewrite afterRequests_step. subst w1. rewrite afterRequests_step.
  eexists. split; [done|]. unfold backoff in *. lia.
Qed.

#[export] Instance paced_preorder : PreOrder paced.
Proof.
  split.
  - intros w. exists []. cbn. split; [done|lia].
  - intros w1 w2 w3 (n1 & E1 & C1) (n2 & E2 & C2). exists (n2 ++ n1).
    split; [by rewrite E2, E1, app_assoc|]. rewrite length_app. lia.
Qed.

Lemma paced_quiet w w' :
  requested w' = requested w → clock w' = clock w → paced w w'.
Proof. intros Er Ec. exists []. cbn. rewrite Er, Ec. split; [done|lia]. Qed.

Lemma keeps_paced_dbRoundTrip keys : keeps paced (dbRoundTrip env keys).
Proof.
  intros w. unfold dbRoundTrip.
  by destruct (dbError env (dbCalls w)); apply paced_quiet.
Qed.

Lemma keeps_paced_write inSession f : keeps paced (write inSession f).
Proof.
  intros w. unfold write, modify. wsimpl.
  by destruct inSession, (txn w); apply paced_quiet.
Qed.

Lemma keeps_paced_fetchWithRetry remaining u attempt :
  keeps paced (fetchWithRetry env remaining u attempt).
Proof.
  intros w.
  destruct (fetchWithRetry_paced remaining u attempt w)
    as (r & n & ms & -> & _ & _ & Hms).
  exists (replicate n u). split; [done|].
  rewrite length_replicate. unfold afterRequests. wsimpl. lia.
Qed.

Ltac keeps_paced :=
  repeat first
    [ apply keeps_paced_dbRoundTrip | apply keeps_paced_write
    | apply keeps_paced_fetchWithRetry
    | apply keeps_modify; intros ?; by apply paced_quiet
    | keeps_step ].

Lemma keeps_paced_saveBatch rootUrl source batch total :
  keeps paced (saveBatch env rootUrl source batch total).
Proof.
  unfold saveBatch, findOne, findOneAndUpdate, jsonParse, appendPages.
  keeps_paced.
Qed.

Lemma keeps_paced_crawlLoop fuel rootUrl source maxPages batchSize st :
  keeps paced (crawlLoop env fuel rootUrl source maxPages batchSize st).
Proof.
  revert st. induction fuel as [|fuel IH]; intros st; cbn [crawlLoop];
    repeat keeps_step; [|apply IH].
  unfold crawlStep. repeat first [apply keeps_paced_saveBatch | keeps_paced].
Qed.

Lemma keeps_paced_scrapeAndSaveSite fuel rootUrl source maxPages batchSize :
  keeps paced (scrapeAndSaveSite env fuel rootUrl source maxPages batchSize).
Proof.
  unfold scrapeAndSaveSite, saveFinalBatch, findOne, findOneAndUpdate,
    jsonParse, appendPages.
  repeat first [apply keeps_paced_crawlLoop | keeps_paced].
Qed.

Lemma keeps_paced_withTransaction body :
  keeps paced body → keeps paced (withTransaction env body).
Proof.
  intros Hb w. unfold withTransaction.
  specialize (Hb (withTxn (Some (store w)) w)).
  destruct (body _) as [[[]|e|] w2]; wsimpl; [|done..].
  by destruct (dbError env (dbCalls w2)).
Qed.

(** X5. A refresh sleeps at least one second for every request it makes:
    between its start and its end the clock has advanced by at least a
    thousand milliseconds times the number of requests. *)
Theorem refresh_is_paced fuel w :
  ∃ new,
    requested (backgroundRefresh env fuel w).2 = new ++ requested w ∧
    clock w + 1000 * length new ≤ clock (backgroundRefresh env fuel w).2.
Proof.
  revert w. change (keeps paced (backgroundRefresh env fuel)).
  unfold backgroundRefresh, scrapeGitLabData, promoteStaging, startSession,
    endSession, deleteMany, findOne, findOneAndUpdate.
  repeat first
    [ apply keeps_paced_scrapeAndSaveSite
    | apply keeps_paced_withTransaction
    | keeps_paced ].
Qed.

End Pacing.

(** ** What a refresh that went through leaves *)

Section Promotion.
Variable env : Env.

(** A promotion that returns has copied both staging documents, as they
    were when it began, into production, and deleted them. *)
Lemma promotion_returned w w' dh dd :
  store w !! "handbook_staging" = Some dh →
  store w !! "direction_staging" = Some dd →
  withTransaction env (promoteStaging env) w = (Returned tt, w') →
  store w' =
    delete "handbook_staging"
      (delete "direction_staging"
         (<["direction" := mkDoc (content dd) (clock w)]>
            (<["handbook" := mkDoc (content dh) (clock w)]> (store w)))) ∧
  txn w' = None ∧ clock w' = clock w.
Proof.
  intros Hh Hd. unfold withTransaction, promoteStaging, stagingKeys. msimpl.
  destruct (dbError env (dbCalls w)); wsimpl; [done|].
  destruct (dbError env (S (dbCalls w))); wsimpl; [done|].
  rewrite Hh, Hd. wsimpl.
  destruct (dbError env (S (S (dbCalls w)))); wsimpl; [done|].
  destruct (dbError env (S (S (S (dbCalls w))))); wsimpl; [done|].
  destruct (dbError env (S (S (S (S (dbCalls w)))))); wsimpl; [done|].
  destruct (dbError env (S (S (S (S (S (dbCalls w))))))); wsimpl; [done|].
  by intros [= <-].
Qed.

(** A crawl that returns has staged a snapshot within the ceiling and the
    domain, and has left every other document alone. *)
Lemma scrapeAndSaveSite_returned fuel rootUrl source maxPages batchSize w w' :
  scrapeAndSaveSite env fuel rootUrl source maxPages batchSize w
    = (Returned tt, w') →
  Confined rootUrl source maxPages w' ∧
  ∀ k, k ≠ source → store w' !! k = store w !! k.
Proof.
  intros Hrun.
  destruct (scrapeAndSaveSite_confined env rootUrl source maxPages batchSize
              fuel w) as (o1 & w1 & Hrun1 & _ & Hstore & _).
  rewrite Hrun in Hrun1. injection Hrun1 as <- <-.
  pose proof (keeps_framed_scrapeAndSaveSite env [source] fuel rootUrl source
                maxPages batchSize ltac:(by left) w) as (Hframe & _).
  rewrite Hrun in Hframe. cbn [snd] in Hframe.
  split.
  - by destruct Hstore as [[_ [e [=]]]|?].
  - intros k Hk. apply Hframe. by rewrite list_elem_of_singleton.
Qed.

(** A refresh that went through has put the two sites it crawled into
    production, each stamped between the start of the refresh and its end,
    and has left no staging document and no open transaction. *)
Lemma scrapeGitLabData_promoted fuel w w' :
  scrapeGitLabData env fuel w = (Returned tt, w') →
  ∃ dh dd th td,
    store w' !! "handbook" = Some (mkDoc (CSite dh) th) ∧
    store w' !! "direction" = Some (mkDoc (CSite dd) td) ∧
    store w' !! "handbook_staging" = None ∧
    store w' !! "direction_staging" = None ∧
    txn w' = None ∧
    clock w ≤ th ≤ clock w' ∧ clock w ≤ td ≤ clock w' ∧
    (length (pages dh) ≤ 50 ∧
     Forall (fun p => inDomain GITLAB_SOURCES_handbook (url p)) (pages dh)) ∧
    (length (pages dd) ≤ 50 ∧
     Forall (fun p => inDomain GITLAB_SOURCES_direction (url p)) (pages dd)).
Proof.
  unfold scrapeGitLabData. fold (stagedRefresh env fuel).
  unfold tryCatch at 1. intros Hrun.
  destruct (stagedRefresh env fuel w) as [[[]|e1|] w1] eqn:Hbody.
  2:{ msimpl. by destruct (dbError env (dbCalls w1)). }
  2:{ done. }
  injection Hrun as <-.
  unfold stagedRefresh, mbind, M_bind, bind in Hbody.
  pose proof (keeps_paced_scrapeAndSaveSite env fuel GITLAB_SOURCES_handbook
                "handbook_staging" 50 10 w) as (newA & _ & HcA).
  destruct (scrapeAndSaveSite env fuel GITLAB_SOURCES_handbook _ _ _ w)
    as [[[]|eA|] wA] eqn:HA; [|done..].
  pose proof (keeps_paced_scrapeAndSaveSite env fuel GITLAB_SOURCES_direction
                "direction_staging" 50 10 wA) as (newB & _ & HcB).
  destruct (scrapeAndSaveSite env fuel GITLAB_SOURCES_direction _ _ _ wA)
    as [[[]|eB|] wB] eqn:HB; [|done..].
  cbn [snd] in HcA, HcB.
  apply scrapeAndSaveSite_returned in HA as [(psA & HpsA & HlenA & FA) _].
  apply scrapeAndSaveSite_returned in HB as [(psB & HpsB & HlenB & FB) HfrB].
  unfold snapshotPages in HpsA, HpsB.
  destruct (store wA !! "handbook_staging") as [[[dA| |] tA]|] eqn:HdA;
    [|done..]. injection HpsA as <-.
  destruct (store wB !! "direction_staging") as [[[dB| |] tB]|] eqn:HdB;
    [|done..]. injection HpsB as <-.
  assert (store wB !! "handbook_staging" = Some (mkDoc (CSite dA) tA)) as HdA'.
  { by rewrite HfrB. }
  unfold startSession, dbRoundTrip in Hbody.
  destruct (dbError env (dbCalls wB)); [done|].
  unfold tryFinally, endSession, modify in Hbody.
  destruct (withTransaction env (promoteStaging env) (countDb [] wB))
    as [[[]|eT|] wT] eqn:HT; [|done..].
  injection Hbody as <-.
  apply (promotion_returned (countDb [] wB) _ _ _ HdA' HdB) in HT
    as (HsT & HtT & HcT).
  exists dA, dB, (clock wB), (clock wB). wsimpl. rewrite HsT, HcT.
  cbn [content]. wsimpl.
  split_and!; try done; try lia.
  - by rewrite !lookup_delete_ne, lookup_insert_ne, lookup_insert_eq.
  - by rewrite !lookup_delete_ne, lookup_insert_eq.
  - by rewrite lookup_delete_eq.
  - by rewrite lookup_delete_ne, lookup_delete_eq.
Qed.

(** X3. After a refresh that went through, neither staging document is
    left, no transaction is open, and both production documents hold
    snapshots of at most 50 pages whose URLs start with the root URL of
    their source. *)
Theorem refresh_success_promotes fuel w w' :
  scrapeGitLabData env fuel w = (Returned tt, w') →
  store w' !! "handbook_staging" = None ∧
  store w' !! "direction_staging" = None ∧
  txn w' = None ∧
  Confined GITLAB_SOURCES_handbook "handbook" 50 w' ∧
  Confined GITLAB_SOURCES_direction "direction" 50 w'.
Proof.
  intros Hrun.
  destruct (scrapeGitLabData_promoted _ _ _ Hrun)
    as (dh & dd & th & td & Hh & Hd & Hhs & Hds & Ht & _ & _ & [Lh Fh] & [Ld Fd]).
  unfold Confined, snapshotPages. rewrite Hh, Hd.
  split_and!; try done; by eexists.
Qed.

End Promotion.

(** ** What a crawl stores and asks for *)

Lemma substring_length n s :
  String.length (String.substring 0 n s) = n `min` String.length s.
Proof.
  revert s. induction n as [|n IH]; intros [|c s]; cbn; try done.
  by rewrite IH.
Qed.

Lemma pageTitle_nonempty h : pageTitle h ≠ "".
Proof.
  assert (∀ s, nonEmpty s = true → s ≠ "") as Hne.
  { intros s Hs ->. done. }
  unfold pageTitle.
  destruct (nonEmpty (trim (titleText h))) eqn:H1; [by apply Hne|].
  destruct (nonEmpty (trim (h1Text h))) eqn:H2; [by apply Hne|done].
Qed.

Lemma pageOf_wellFormed u h : ¬ thin h → wellFormed (pageOf u h).
Proof.
  unfold thin, wellFormed, pageOf. intros Hthin. cbn [title text].
  split; [apply pageTitle_nonempty|]. rewrite substring_length. lia.
Qed.

Lemma timesRequested_app u l1 l2 :
  timesRequested u (l1 ++ l2) = timesRequested u l1 + timesRequested u l2.
Proof. apply count_occ_app. Qed.

Lemma timesRequested_replicate u v n :
  timesRequested u (replicate n v) = if decide (v = u) then n else 0.
Proof.
  unfold timesRequested. induction n as [|n IH]; cbn [replicate count_occ].
  - by destruct (decide _).
  - rewrite IH. by destruct (String.eq_dec v u), (decide (v = u)).
Qed.

Lemma timesRequested_unseen u l : u ∉ l → timesRequested u l = 0.
Proof. intros H. apply count_occ_not_In. by rewrite <- list_elem_of_In. Qed.

Section Audit.
Variable env : Env.
Variables (rootUrl source : string) (maxPages batchSize : nat).

Local Abbreviation step := (crawlStep env rootUrl source maxPages batchSize).

Lemma Seen_Audited st new w : Seen source st new w → Audited source new w.
Proof.
  intros (_ & Hc & ps & Hps & Hd & HF). split; [done|]. exists ps.
  rewrite fmap_app in Hd. apply NoDup_app in Hd as [Hd _].
  apply Forall_app in HF as [HF _]. done.
Qed.

(** Requests for a URL that had not been visited keep the count. *)
Lemma Seen_requests st new w u n :
  Seen source st new w → u ∉ visitedUrls st → n ≤ 3 →
  Forall (fun v => v ∈ {[u]} ∪ visitedUrls st) (replicate n u ++ new) ∧
  (∀ v, timesRequested v (replicate n u ++ new) ≤ 3) ∧
  u ∉ new.
Proof.
  intros (Hv & Hc & _) Hu Hn.
  assert (u ∉ new) as Hnew.
  { intros Hin. apply Hu. by eapply List.Forall_forall in Hv;
      [|apply list_elem_of_In]. }
  split_and!; [| |done].
  - apply Forall_app. split.
    + apply Forall_replicate. set_solver.
    + eapply Forall_impl; [exact Hv|]. set_solver.
  - intros v. rewrite timesRequested_app, timesRequested_replicate.
    destruct (decide (u = v)) as [<-|_]; [|apply Hc].
    rewrite timesRequested_unseen by done. lia.
Qed.

Lemma crawlStep_seen st new w :
  Seen source st new w →
  ∃ o w' add,
    step st w = (o, w') ∧ requested w' = add ++ requested w ∧
    match o with
    | Returned st' => Seen source st' (add ++ new) w'
    | Thrown _ => Audited source (add ++ new) w'
    | Unsettled => False
    end.
Proof.
  intros HS. destruct (queue st) as [|u rest] eqn:Eq.
  { exists (Returned st), w, []. unfold crawlStep. by rewrite Eq. }
  destruct (decide (u ∈ visitedUrls st)) as [Hv|Hv].
  { eexists _, _, []. split; [by eapply crawlStep_visited|].
    split; [done|]. exact HS. }
  destruct (fetchWithRetry_paced env 3 u 0 w) as (r & n & ms & Hf & Hn & Hpos & _).
  destruct (Seen_requests st new w u n HS Hv Hn) as (Hvis & Hcount & Hnew).
  pose proof HS as (_ & _ & ps & Hps & Hd & HF).
  assert (Forall (fun p => url p ∈ replicate n u ++ new ∧ wellFormed p)
            (ps ++ currentBatch st)) as HF'.
  { eapply Forall_impl; [exact HF|]. intros p [? ?]. split; [|done].
    apply elem_of_app. by right. }
  assert (snapshotPages source (afterRequests n ms u w) = Some ps) as Hps1
    by done.
  destruct r as [[h|e]|].
  3:{ eexists _, _, _. split; [by eapply crawlStep_failed|].
      split; [done|]. split_and!; [done..|]. by exists ps. }
  2:{ eexists _, _, _. split; [by eapply crawlStep_rejected|].
      split; [done|]. split; [done|]. exists ps.
      rewrite fmap_app in Hd. apply NoDup_app in Hd as [Hd _].
      apply Forall_app in HF' as [HF' _]. done. }
  destruct (decide (thin h)) as [Hthin|Hthin].
  { eexists _, _, _. split; [by eapply crawlStep_skipped|].
    split; [done|]. split_and!; [done..|]. by exists ps. }
  assert (u ∈ replicate n u ++ new) as Hasked.
  { apply elem_of_app. left. apply elem_of_replicate. split; [done|lia]. }
  assert (NoDup (url <$> (ps ++ currentBatch st ++ [pageOf u h])) ∧
          Forall (fun p => url p ∈ replicate n u ++ new ∧ wellFormed p)
                 (ps ++ currentBatch st ++ [pageOf u h])) as [Hd' HF''].
  { rewrite !app_assoc. split.
    - rewrite fmap_app. apply NoDup_app. split_and!; [done| |].
      + intros v Hin [->|[]%elem_of_nil]%elem_of_cons.
        apply Hnew. apply list_elem_of_fmap in Hin as (p & Hp & Hin).
        eapply List.Forall_forall in HF; [|apply list_elem_of_In, Hin].
        cbn [pageOf url] in Hp. rewrite Hp. apply HF.
      + apply NoDup_singleton.
    - apply Forall_app. split; [done|]. constructor; [|done].
      split; [done|by apply pageOf_wellFormed]. }
  destruct (decide (batchSize ≤ length (currentBatch st ++ [pageOf u h]) ∨
                    maxPages ≤ totalPagesSaved st +
                               length (currentBatch st ++ [pageOf u h])))
    as [Hflush|Hkeep].
  - rewrite (crawlStep_flushed _ _ _ _ _ _ _ _ _ _ _ Eq Hv Hf Hthin Hflush).
    destruct (saveBatch_effect env rootUrl source
                (currentBatch st ++ [pageOf u h]) (totalPagesSaved st)
                (afterRequests n ms u w)) as (o & w2 & -> & Hreq & Ho).
    destruct o as [t|e|]; [| |done].
    + destruct Ho as [-> Hsnap]. eexists _, _, _. split; [done|].
      split; [by rewrite Hreq|]. split_and!; [done..|].
      exists (ps ++ currentBatch st ++ [pageOf u h]).
      cbn [currentBatch]. rewrite app_nil_r. split_and!; [by apply Hsnap|done..].
    + destruct Ho as [Ho _]. eexists _, _, _. split; [done|].
      split; [by rewrite Hreq|]. split; [done|]. exists ps.
      unfold snapshotPages in *. rewrite Ho.
      rewrite fmap_app in Hd. apply NoDup_app in Hd as [Hd _].
      apply Forall_app in HF' as [HF' _]. done.
  - eexists _, _, _. split.
    { eapply crawlStep_buffered; try done; lia. }
    split; [done|]. split_and!; [done..|]. by exists ps.
Qed.

Local Abbreviation loop fuel :=
  (crawlLoop env fuel rootUrl source maxPages batchSize).

Lemma crawlLoop_seen fuel st new w :
  Seen source st new w →
  ∃ o w' add,
    loop fuel st w = (o, w') ∧ requested w' = add ++ requested w ∧
    match o with
    | Returned st' => Seen source st' (add ++ new) w'
    | _ => Audited source (add ++ new) w'
    end.
Proof.
  revert st new w. induction fuel as [|fuel IH]; intros st new w HS;
    cbn [crawlLoop].
  - destruct (_ && _); eexists _, _, []; (split; [done|]); (split; [done|]);
      [by eapply Seen_Audited|done].
  - destruct (negb _ && _).
    2:{ by eexists _, _, []. }
    destruct (crawlStep_seen st new w HS) as (o & w1 & add & Hs & Hr & Ho).
    unfold mbind, M_bind, bind. rewrite Hs.
    destruct o as [st1|e|]; [|by eexists _, _, _|done].
    destruct (IH st1 _ w1 Ho) as (o2 & w2 & add2 & Hl & Hr2 & Ho2).
    exists o2, w2, (add2 ++ add). split; [done|].
    split; [by rewrite Hr2, Hr, app_assoc|]. by rewrite <- app_assoc.
Qed.

Lemma scrapeAndSaveSite_audited fuel w :
  ∃ o w' new,
    scrapeAndSaveSite env fuel rootUrl source maxPages batchSize w = (o, w') ∧
    requested w' = new ++ requested w ∧
    (∀ u, timesRequested u new ≤ 3) ∧
    ((store w' = store w ∧ ∃ e, o = Thrown e) ∨ Audited source new w').
Proof.
  unfold scrapeAndSaveSite. msimpl.
  destruct (dbError env (dbCalls w)) as [e|] eqn:Hdb; wsimpl.
  { eexists _, _, []. split; [done|]. split; [done|].
    split; [intros u; cbn; lia|]. left. eauto. }
  set (w1 := withStore _ _).
  assert (Seen source (mkFrontier [rootUrl] ∅ [] 0) [] w1) as HS.
  { split_and!; [done|intros u; cbn; lia|]. exists [].
    unfold snapshotPages. subst w1. wsimpl. rewrite lookup_insert_eq. cbn.
    split_and!; [done|constructor|done]. }
  destruct (crawlLoop_seen fuel _ _ _ HS) as (o & w2 & add & Hl & Hr & Ho).
  rewrite Hl. rewrite app_nil_r in Ho.
  destruct o as [st|e|]; wsimpl.
  2,3: eexists _, _, add; split; [done|]; split; [done|];
       split; [apply Ho|by right].
  destruct (bool_decide (currentBatch st = [])) eqn:Hb.
  { eexists _, _, add. split; [done|]. split; [done|].
    split; [apply Ho|]. right. by eapply Seen_Audited. }
  destruct (saveFinalBatch_effect env rootUrl source (currentBatch st)
              (totalPagesSaved st) w2) as (o & w3 & -> & Hreq & Ho3).
  destruct Ho as (_ & Hc & ps & Hps & Hd & HF).
  destruct o as [t|e|]; [| |done]; eexists _, _, add; (split; [done|]);
    (split; [by rewrite Hreq|]); (split; [done|]); right; (split; [done|]).
  - destruct Ho3 as [_ Hsnap]. exists (ps ++ currentBatch st).
    split_and!; [by apply Hsnap|done..].
  - destruct Ho3 as [Ho3 _]. exists ps. unfold snapshotPages in *.
    rewrite Ho3. rewrite fmap_app in Hd. apply NoDup_app in Hd as [Hd _].
    apply Forall_app in HF as [HF _]. done.
Qed.

End Audit.

(** X6. In one crawl no URL is requested more than three times: a URL is
    fetched in one turn only, with at most three attempts. *)
Theorem at_most_three_requests env fuel rootUrl source maxPages batchSize
    w u :
  ∃ new,
    requested (scrapeAndSaveSite env fuel rootUrl source maxPages batchSize w).2
      = new ++ requested w ∧
    timesRequested u new ≤ 3.
Proof.
  destruct (scrapeAndSaveSite_audited env rootUrl source maxPages batchSize
              fuel w) as (o & w' & new & -> & Hreq & Hc & _).
  exists new. split; [done|apply Hc].
Qed.

(** X7. Either a crawl throws and leaves the store as it was (its first
    write failed), or the snapshot it leaves under its source, however it
    ends, holds each URL once, and every page in it was requested during
    this crawl, has a non-empty title and a text of 101 to 5000
    characters. *)
Theorem snapshot_pages_are_fresh env fuel rootUrl source maxPages batchSize
    w o w' :
  scrapeAndSaveSite env fuel rootUrl source maxPages batchSize w = (o, w') →
  (store w' = store w ∧ ∃ e, o = Thrown e) ∨
  ∃ new ps,
    requested w' = new ++ requested w ∧
    snapshotPages source w' = Some ps ∧
    NoDup (url <$> ps) ∧
    Forall (fun p => url p ∈ new ∧ title p ≠ "" ∧
                     100 < String.length (text p) ≤ 5000) ps.
Proof.
  intros Hrun.
  destruct (scrapeAndSaveSite_audited env rootUrl source maxPages batchSize
              fuel w) as (o1 & w1 & new & Hrun1 & Hreq & _ & Hstore).
  rewrite Hrun in Hrun1. injection Hrun1 as <- <-.
  destruct Hstore as [?|(_ & ps & Hps & Hd & HF)]; [by left|right].
  by exists new, ps.
Qed.

(** ** Termination on a finite site *)

Section Settles.

Lemma settles_ret {A} (a : A) : settles (mret a).
Proof. by intros w. Qed.

Lemma settles_throw {A} e : settles (@throw A e).
Proof. by intros w. Qed.

Lemma settles_getWorld : settles getWorld.
Proof. by intros w. Qed.

Lemma settles_modify f : settles (modify f).
Proof. by intros w. Qed.

Lemma settles_cheerioLoad data : settles (cheerioLoad data).
Proof. intros w. by destruct data. Qed.

Lemma settles_bind {A B} (m : M A) (f : A → M B) :
  settles m → (∀ a, settles (f a)) → settles (m ≫= f).
Proof.
  intros Hm Hf w. unfold mbind, M_bind, bind. specialize (Hm w).
  destruct (m w) as [[a|e|] w1]; [apply Hf|done..].
Qed.

Lemma settles_tryCatch {A} (m : M A) h :
  settles m → (∀ e, settles (h e)) → settles (tryCatch m h).
Proof.
  intros Hm Hh w. unfold tryCatch. specialize (Hm w).
  destruct (m w) as [[a|e|] w1]; [done|apply Hh|done].
Qed.

Lemma settles_tryFinally {A} (m : M A) f :
  settles m → settles f → settles (tryFinally m f).
Proof.
  intros Hm Hf w. unfold tryFinally. specialize (Hm w).
  destruct (m w) as [[a|e|] w1]; [| |done];
    specialize (Hf w1); by destruct (f w1) as [[[]|e'|] w2].
Qed.

End Settles.

Ltac settles_step :=
  match goal with
  | |- settles (mbind _ _) => apply settles_bind; [|intros ?]
  | |- settles (tryCatch _ _) => apply settles_tryCatch; [|intros ?]
  | |- settles (tryFinally _ _) => apply settles_tryFinally
  | |- settles (mret _) => apply settles_ret
  | |- settles (throw _) => apply settles_throw
  | |- settles getWorld => apply settles_getWorld
  | |- settles (modify _) => apply settles_modify
  | |- settles (cheerioLoad _) => apply settles_cheerioLoad
  | |- settles (match ?x with _ => _ end) => destruct x
  end.

Section Termination.
Variable env : Env.

Lemma settles_dbRoundTrip keys : settles (dbRoundTrip env keys).
Proof. intros w. unfold dbRoundTrip. by destruct (dbError env (dbCalls w)). Qed.

Lemma settles_fetchWithRetry remaining u attempt :
  settles (fetchWithRetry env remaining u attempt).
Proof.
  intros w. by destruct (fetchWithRetry_effect env remaining u attempt w)
    as (r & n & ms & -> & _).
Qed.

Lemma settles_withTransaction body :
  settles body → settles (withTransaction env body).
Proof.
  intros Hb w. unfold withTransaction.
  specialize (Hb (withTxn (Some (store w)) w)).
  destruct (body _) as [[[]|e|] w2]; [|done..].
  by destruct (dbError env (dbCalls w2)).
Qed.

Ltac settles_ops :=
  unfold findOne, findOneAndUpdate, deleteMany, startSession, endSession,
    write, sleep, jsonParse, appendPages;
  repeat first
    [ apply settles_dbRoundTrip | apply settles_fetchWithRetry
    | settles_step ].

Lemma settles_crawlStep rootUrl source maxPages batchSize st :
  settles (crawlStep env rootUrl source maxPages batchSize st).
Proof. unfold crawlStep, saveBatch. settles_ops. Qed.

Variables (rootUrl source : string) (maxPages batchSize : nat).
Variable site : gset string.
Hypothesis site_closed : closedSite env rootUrl site.

Local Abbreviation step := (crawlStep env rootUrl source maxPages batchSize).

Lemma extractLinks_in_site n u h visited hrefs :
  u ∈ site → http env n u = Response (Markup h) →
  (∀ href, href ∈ hrefs → href ∈ anchors h) →
  Forall (fun a => a ∈ site) (extractLinks env rootUrl u visited hrefs).
Proof.
  intros Hu Hh. induction hrefs as [|href rest IH]; intros Hin;
    cbn [extractLinks]; [done|].
  assert (Forall (fun a => a ∈ site) (extractLinks env rootUrl u visited rest))
    as Hrest.
  { apply IH. intros x Hx. apply Hin. by right. }
  destruct (followable href); [|done].
  destruct (resolve env u href) as [a|] eqn:Hres; [|done].
  destruct (startsWith a rootUrl && _) eqn:Hok; [|done].
  apply andb_true_iff in Hok as [Hdom _]. constructor; [|done].
  destruct site_closed as [_ Hclosed].
  eapply (Hclosed n u h href a); try done. apply Hin. by left.
Qed.

Lemma enqueued_in_site total rest n u h visited :
  u ∈ site → http env n u = Response (Markup h) →
  Forall (fun a => a ∈ site) rest →
  Forall (fun a => a ∈ site)
    (enqueued maxPages total rest
       (extractLinks env rootUrl u visited (anchors h))) ∧
  length (enqueued maxPages total rest
            (extractLinks env rootUrl u visited (anchors h)))
    ≤ length rest + 5.
Proof.
  intros Hu Hh Hr. unfold enqueued. destruct (_ <? _); [|split; [done|lia]].
  split.
  - apply Forall_app. split; [done|]. apply Forall_take.
    by eapply extractLinks_in_site.
  - rewrite length_app, length_take. lia.
Qed.

Lemma size_unvisited u (visited : gset string) :
  u ∈ site → u ∉ visited →
  S (size (site ∖ ({[u]} ∪ visited))) = size (site ∖ visited).
Proof.
  intros Hs Hv.
  assert (site ∖ ({[u]} ∪ visited) = (site ∖ visited) ∖ {[u]}) as ->.
  { apply set_eq. intros x.
    rewrite !elem_of_difference, elem_of_union, elem_of_singleton. tauto. }
  rewrite (size_difference (C:=gset string)) by set_solver.
  rewrite size_singleton.
  assert (size (site ∖ visited) ≠ 0); [|lia].
  apply (size_non_empty_iff (C:=gset string)). set_solver.
Qed.

(** Every turn that returns brings the loop closer to its end. *)
Lemma crawlStep_progress st w st' w' :
  Forall (fun a => a ∈ site) (queue st) → queue st ≠ [] →
  step st w = (Returned st', w') →
  Forall (fun a => a ∈ site) (queue st') ∧
  turnsLeft site st' < turnsLeft site st.
Proof.
  intros Fq Hq Hs. destruct (queue st) as [|u rest] eqn:Eq; [done|].
  apply Forall_cons in Fq as [Hu Frest]. unfold turnsLeft. rewrite Eq.
  destruct (decide (u ∈ visitedUrls st)) as [Hv|Hv].
  { rewrite (crawlStep_visited _ _ _ _ _ _ _ _ _ Eq Hv) in Hs.
    injection Hs as <- _. cbn [queue visitedUrls length]. split; [done|lia]. }
  pose proof (size_unvisited u (visitedUrls st) Hu Hv) as Hsize.
  destruct (fetchWithRetry_effect env 3 u 0 w) as ([[h|e]|] & n & ms & Hf & _).
  3:{ rewrite (crawlStep_failed _ _ _ _ _ _ _ _ _ _ Eq Hv Hf) in Hs.
      injection Hs as <- _. cbn [queue visitedUrls length].
      split; [done|lia]. }
  2:{ by rewrite (crawlStep_rejected _ _ _ _ _ _ _ _ _ _ _ Eq Hv Hf) in Hs. }
  destruct (fetchWithRetry_answer env _ _ _ _ _ _ Hf) as [k Hk].
  assert (visitedUrls st' = {[u]} ∪ visitedUrls st ∧
          queue st' =
            enqueued maxPages (totalPagesSaved st') rest
              (extractLinks env rootUrl u ({[u]} ∪ visitedUrls st) (anchors h)))
    as [-> ->].
  { destruct (decide (thin h)) as [Hthin|Hthin].
    { rewrite (crawlStep_skipped _ _ _ _ _ _ _ _ _ _ _ Eq Hv Hf Hthin) in Hs.
      by injection Hs as <- _. }
    destruct (decide (batchSize ≤ length (currentBatch st ++ [pageOf u h]) ∨
                      maxPages ≤ totalPagesSaved st +
                                 length (currentBatch st ++ [pageOf u h])))
      as [Hflush|Hkeep].
    - rewrite (crawlStep_flushed _ _ _ _ _ _ _ _ _ _ _ Eq Hv Hf Hthin Hflush)
        in Hs.
      destruct (saveBatch _ _ _ _ _ _) as [[t|e|] w2]; [|done..].
      by injection Hs as <- _.
    - rewrite (crawlStep_buffered _ _ _ _ _ _ _ _ _ _ _ Eq Hv Hf Hthin) in Hs
        by lia.
      by injection Hs as <- _. }
  destruct (enqueued_in_site (totalPagesSaved st') rest k u h
              ({[u]} ∪ visitedUrls st) Hu Hk Frest) as [HF Hlen].
  split; [done|]. cbn [length]. lia.
Qed.

Local Abbreviation loop fuel :=
  (crawlLoop env fuel rootUrl source maxPages batchSize).

Lemma crawlLoop_settles fuel st w :
  Forall (fun a => a ∈ site) (queue st) →
  turnsLeft site st ≤ fuel →
  (loop fuel st w).1 ≠ Unsettled.
Proof.
  revert st w. induction fuel as [|fuel IH]; intros st w Fq Hfuel;
    cbn [crawlLoop].
  - destruct (bool_decide (queue st = [])) eqn:Hq; [done|].
    apply bool_decide_eq_false in Hq. unfold turnsLeft in Hfuel.
    destruct (queue st); [done|]. cbn [length] in Hfuel. lia.
  - destruct (negb _ && _) eqn:Hguard; [|done].
    apply andb_true_iff in Hguard as [Hq _].
    apply negb_true_iff, bool_decide_eq_false in Hq.
    unfold mbind, M_bind, bind.
    pose proof (settles_crawlStep rootUrl source maxPages batchSize st w)
      as Hstep.
    destruct (step st w) as [[st1|e|] w1] eqn:Hs; [|done..].
    destruct (crawlStep_progress st w st1 w1 Fq Hq Hs) as [Fq1 Hless].
    apply IH; [done|lia].
Qed.

Lemma scrapeAndSaveSite_settles fuel w :
  6 * size site + 1 ≤ fuel →
  (scrapeAndSaveSite env fuel rootUrl source maxPages batchSize w).1
    ≠ Unsettled.
Proof.
  intros Hfuel. unfold scrapeAndSaveSite. unfold mbind, M_bind, bind.
  pose proof (settles_dbRoundTrip [source] w) as H0.
  unfold findOneAndUpdate, mbind, M_bind, bind.
  destruct (dbRoundTrip env [source] w) as [[[]|e|] w0]; [|done..].
  unfold getWorld, write, modify.
  set (w1 := withStore _ _).
  pose proof (crawlLoop_settles fuel (mkFrontier [rootUrl] ∅ [] 0) w1) as Hl.
  destruct (loop fuel _ w1) as [[st|e|] w2]; [|done|].
  - destruct (bool_decide (currentBatch st = [])); [done|].
    assert (settles (saveFinalBatch env rootUrl source (currentBatch st)
                       (totalPagesSaved st))) as Hsave.
    { unfold saveFinalBatch. settles_ops. }
    specialize (Hsave w2).
    by destruct (saveFinalBatch _ _ _ _ _ w2) as [[t|e|] w3].
  - exfalso. apply Hl; [|unfold turnsLeft; cbn [queue visitedUrls length]|done].
    + constructor; [apply site_closed|done].
    + rewrite difference_empty_L. lia.
Qed.

(** X8. A crawl of a finite site ends: when the root lies in a set of [n]
    URLs, and so does whatever a link on a page of the set, as the network
    serves it, resolves to within the domain, the crawl returns or throws
    within [6 * n + 1] turns of its loop, whichever requests or store
    operations fail. *)
Theorem crawl_of_finite_site_ends fuel w :
  6 * size site + 1 ≤ fuel →
  (scrapeAndSaveSite env fuel rootUrl source maxPages batchSize w).1
    ≠ Unsettled.
Proof. apply scrapeAndSaveSite_settles. Qed.

End Termination.

(** Over two finite sites the crawls and the swap end. *)
Lemma scrapeGitLabData_settles env fuel handbookSite directionSite :
  closedSite env GITLAB_SOURCES_handbook handbookSite →
  closedSite env GITLAB_SOURCES_direction directionSite →
  6 * size handbookSite + 1 ≤ fuel →
  6 * size directionSite + 1 ≤ fuel →
  settles (scrapeGitLabData env fuel).
Proof.
  intros Hh Hd Fh Fd.
  unfold scrapeGitLabData, promoteStaging, startSession, endSession,
    deleteMany, findOne, findOneAndUpdate, write.
  repeat first
    [ apply settles_dbRoundTrip | apply settles_withTransaction
    | intros w0; by eapply scrapeAndSaveSite_settles
    | settles_step ].
Qed.

(** X9. A refresh over two finite sites always comes back with a result: it
    neither hangs nor throws, whatever the network and the store do. *)
Theorem refresh_of_finite_sites_returns env fuel w handbookSite directionSite :
  closedSite env GITLAB_SOURCES_handbook handbookSite →
  closedSite env GITLAB_SOURCES_direction directionSite →
  6 * size handbookSite + 1 ≤ fuel →
  6 * size directionSite + 1 ≤ fuel →
  ∃ r, (backgroundRefresh env fuel w).1 = Returned r.
Proof.
  intros Hh Hd Fh Fd.
  pose proof (scrapeGitLabData_settles env fuel _ _ Hh Hd Fh Fd) as Hscrape.
  unfold backgroundRefresh. msimpl.
  destruct (isRefreshing (refreshStatus w)); [by eexists|].
  specialize (Hscrape (beginRefresh w)).
  destruct (scrapeGitLabData env fuel (beginRefresh w)) as [[[]|e|] wS];
    wsimpl; [by eexists..|done].
Qed.

(** * The batched crawl against the crawl in memory *)

Section Batching.
Variable env : Env.

(** The fetch loop looks at the network only: from two worlds with the same
    number of requests behind them it gives the same answer after the same
    requests and the same waits. *)
Lemma fetchWithRetry_network remaining u attempt w v :
  httpCalls v = httpCalls w →
  ∃ r n ms,
    fetchWithRetry env remaining u attempt w =
      (Returned r, afterRequests n ms u w) ∧
    fetchWithRetry env remaining u attempt v =
      (Returned r, afterRequests n ms u v).
Proof.
  revert attempt w v. induction remaining as [|k IH]; intros attempt w v Hv.
  - exists None, 0, 0. cbn [fetchWithRetry]. msimpl.
    unfold afterRequests. destruct w, v; wsimpl.
    by rewrite !Nat.add_0_r.
  - destruct (http env (httpCalls w) u) as [d|e] eqn:H.
    + rewrite (fetch_attempt_succeeds _ _ _ _ _ _ H).
      rewrite <- Hv in H. rewrite (fetch_attempt_succeeds _ _ _ _ _ _ H).
      exists (Some d), 1, (politeDelay (random env (httpCalls v))).
      rewrite Hv. split; f_equal; world_eq.
    + rewrite (fetch_attempt_fails _ _ _ _ _ _ H).
      rewrite <- Hv in H. rewrite (fetch_attempt_fails _ _ _ _ _ _ H).
      cbv zeta. rewrite Hv.
      destruct (transient e && (S attempt <? 3)).
      * destruct (IH (S attempt)
          (advance (backoff (S attempt))
             (countHttp u (advance (politeDelay (random env (httpCalls w))) w)))
          (advance (backoff (S attempt))
             (countHttp u (advance (politeDelay (random env (httpCalls w))) v))))
          as (r & n & ms & -> & ->); [wsimpl; by rewrite Hv|].
        exists r, (S n). eexists. by rewrite !afterRequests_step.
      * exists None, 1, (politeDelay (random env (httpCalls w))).
        split; f_equal; world_eq.
Qed.

Lemma sameNetwork_afterRequests n ms u w v :
  sameNetwork w v → sameNetwork (afterRequests n ms u w) (afterRequests n ms u v).
Proof.
  intros (H1 & H2 & H3). unfold sameNetwork, afterRequests. wsimpl.
  by rewrite H1, H2, H3.
Qed.

(** A save that returns has appended the batch to the site stored, and has
    not used the network. *)
Lemma saveBatch_site rootUrl source batch total w t w' :
  saveBatch env rootUrl source batch total w = (Returned t, w') →
  sameNetwork w w' ∧ t = total + length batch ∧
  ∀ d, snapshot source w = Some d →
       snapshot source w' =
         Some (mkSite (siteTitle d) (siteUrl d) (pages d ++ batch)).
Proof.
  unfold saveBatch, snapshot, sameNetwork. msimpl.
  destruct (dbError env (dbCalls w)) eqn:Hdb; wsimpl; [done|].
  destruct (store w !! source) as [[c t0]|] eqn:Hs; cbn [content].
  - destruct c as [d|raw|raw]; mred.
    + destruct (dbError env (S (dbCalls w))); wsimpl; [done|].
      intros [= <- <-]. wsimpl. split_and!; try done.
      rewrite lookup_insert_eq. by intros ? [= <-].
    + done.
    + destruct raw; mred;
        (destruct (dbError env (S (dbCalls w))); wsimpl; [done|]);
        intros [= <- <-]; wsimpl; by split_and!.
  - mred. destruct (dbError env (S (dbCalls w))); wsimpl; [done|].
    intros [= <- <-]; wsimpl; by split_and!.
Qed.

Lemma saveFinalBatch_site rootUrl source batch total w t w' :
  saveFinalBatch env rootUrl source batch total w = (Returned t, w') →
  sameNetwork w w' ∧ t = total + length batch ∧
  ∀ d, snapshot source w = Some d →
       snapshot source w' =
         Some (mkSite (siteTitle d) (siteUrl d) (pages d ++ batch)).
Proof.
  unfold saveFinalBatch, snapshot, sameNetwork. msimpl.
  destruct (dbError env (dbCalls w)) eqn:Hdb; wsimpl; [done|].
  destruct (store w !! source) as [[c t0]|] eqn:Hs; cbn [content].
  - destruct c as [d|raw|raw]; mred.
    + destruct (dbError env (S (dbCalls w))); wsimpl; [done|].
      intros [= <- <-]. wsimpl. split_and!; try done.
      rewrite lookup_insert_eq. by intros ? [= <-].
    + done.
    + done.
  - mred. destruct (dbError env (S (dbCalls w))); wsimpl; [done|].
    intros [= <- <-]; wsimpl; by split_and!.
Qed.

Variables (rootUrl source : string) (maxPages batchSize : nat).

(** One turn of the batched loop that returns is matched by one turn of the
    loop in memory. *)
Lemma crawlStep_batched st w g v st' w' :
  Batched source maxPages st w g v →
  crawlStep env rootUrl source maxPages batchSize st w = (Returned st', w') →
  ∃ g' v',
    ScrapeSite.turn env rootUrl maxPages g v = (Returned g', v') ∧
    Batched source maxPages st' w' g' v'.
Proof.
  intros (Hq & Hvis & Hnet & d & Hd & Hdata & Hlen & Hb) Hs.
  destruct g as [gq gvis gdata]. unfold Batched, ScrapeSite.turn.
  cbn [ScrapeSite.queue ScrapeSite.visitedUrls ScrapeSite.data] in *.
  subst gq gvis gdata. cbn [siteTitle siteUrl pages].
  destruct (queue st) as [|u rest] eqn:Eq.
  { unfold crawlStep in Hs. rewrite Eq in Hs. injection Hs as <- <-.
    eexists _, _. split; [done|]. cbn [ScrapeSite.queue ScrapeSite.visitedUrls
      ScrapeSite.data]. split_and!; try done. by exists d. }
  destruct (decide (u ∈ visitedUrls st)) as [Hv|Hv].
  { rewrite (crawlStep_visited _ _ _ _ _ _ _ _ _ Eq Hv) in Hs.
    injection Hs as <- <-. rewrite bool_decide_eq_true_2 by done.
    eexists _, _. split; [done|]. by split_and!; try done; exists d. }
  rewrite bool_decide_eq_false_2 by done.
  destruct (fetchWithRetry_network 3 u 0 w v) as (r & n & ms & Hfw & Hfv);
    [apply Hnet|].
  unfold mbind, M_bind, bind at 1. rewrite Hfv.
  pose proof (sameNetwork_afterRequests n ms u _ _ Hnet) as Hnet1.
  assert (snapshot source (afterRequests n ms u w) = Some d) as Hd1 by done.
  destruct r as [[h|e]|].
  3:{ rewrite (crawlStep_failed _ _ _ _ _ _ _ _ _ _ Eq Hv Hfw) in Hs.
      injection Hs as <- <-. eexists _, _. split; [done|].
      by split_and!; try done; exists d. }
  2:{ by rewrite (crawlStep_rejected _ _ _ _ _ _ _ _ _ _ _ Eq Hv Hfw) in Hs. }
  cbn [cheerioLoad]. unfold mret, M_ret, bind at 1, ret at 1.
  destruct (decide (thin h)) as [Hthin|Hthin].
  { rewrite (crawlStep_skipped _ _ _ _ _ _ _ _ _ _ _ Eq Hv Hfw Hthin) in Hs.
    injection Hs as <- <-.
    replace (100 <? _) with false by (symmetry; apply Nat.ltb_ge, Hthin).
    eexists _, _. split; [reflexivity|].
    cbn [ScrapeSite.queue ScrapeSite.visitedUrls ScrapeSite.data
         queue visitedUrls currentBatch totalPagesSaved siteTitle siteUrl pages].
    split_and!; try done; [|by exists d].
    unfold enqueued. rewrite length_app, Hlen.
    destruct Hb as [Hb|Hb]; [rewrite Hb; cbn [length]; by rewrite Nat.add_0_r|].
    replace (_ + _ <? _) with true by (symmetry; apply Nat.ltb_lt; lia).
    replace (_ <? _) with true by (symmetry; apply Nat.ltb_lt; lia).
    done. }
  replace (100 <? _) with true
    by (symmetry; apply Nat.ltb_lt; unfold thin in Hthin; lia).
  fold (pageOf u h).
  destruct (decide (length (currentBatch st ++ [pageOf u h]) < batchSize ∧
                    totalPagesSaved st + length (currentBatch st ++ [pageOf u h])
                    < maxPages)) as [[Hsmall Hbelow]|Hflush].
  - rewrite (crawlStep_buffered _ _ _ _ _ _ _ _ _ _ _ Eq Hv Hfw Hthin
               Hsmall Hbelow) in Hs.
    injection Hs as <- <-.
    eexists _, _. split; [reflexivity|].
    cbn [ScrapeSite.queue ScrapeSite.visitedUrls ScrapeSite.data
         queue visitedUrls currentBatch totalPagesSaved siteTitle siteUrl pages].
    split_and!; try done.
    + unfold enqueued. rewrite !length_app, Hlen. rewrite length_app in Hbelow.
      replace (_ + _ + _ <? _) with true by (symmetry; apply Nat.ltb_lt; lia).
      replace (_ <? _) with true by (symmetry; apply Nat.ltb_lt; lia).
      done.
    + exists d. split_and!; try done; [|by right]. by rewrite app_assoc.
  - rewrite (crawlStep_flushed _ _ _ _ _ _ _ _ _ _ _ Eq Hv Hfw Hthin) in Hs
      by lia.
    destruct (saveBatch env rootUrl source (currentBatch st ++ [pageOf u h])
                (totalPagesSaved st) (afterRequests n ms u w))
      as [[t| |] w2] eqn:Hsave; try done.
    injection Hs as <- <-.
    apply saveBatch_site in Hsave as (Hnet2 & -> & Hsite).
    specialize (Hsite d Hd1).
    eexists _, _. split; [reflexivity|].
    cbn [ScrapeSite.queue ScrapeSite.visitedUrls ScrapeSite.data
         queue visitedUrls currentBatch totalPagesSaved siteTitle siteUrl pages].
    split_and!; try done.
    + unfold enqueued. rewrite !length_app, Hlen. cbn [length].
      by rewrite Nat.add_assoc.
    + destruct Hnet2 as (? & ? & ?), Hnet1 as (? & ? & ?).
      unfold sameNetwork. split_and!; congruence.
    + eexists. split; [exact Hsite|]. cbn [siteTitle siteUrl pages].
      rewrite app_nil_r. split_and!; [|rewrite !length_app; lia|by left].
      by rewrite app_assoc.
Qed.

Lemma crawlLoop_batched fuel st w g v st' w' :
  Batched source maxPages st w g v →
  crawlLoop env fuel rootUrl source maxPages batchSize st w = (Returned st', w') →
  ∃ g' v',
    ScrapeSite.loop env fuel rootUrl maxPages g v = (Returned g', v') ∧
    Batched source maxPages st' w' g' v'.
Proof.
  revert st w g v. induction fuel as [|fuel IH]; intros st w g v HB Hrun;
    cbn [crawlLoop ScrapeSite.loop] in *.
  all: pose proof HB as (Hq & _ & _ & d & _ & Hdata & Hlen & Hb).
  all: assert ((length (pages (ScrapeSite.data g)) <? maxPages) =
               (totalPagesSaved st <? maxPages)) as ->
    by (rewrite Hdata; cbn [pages]; rewrite length_app;
        destruct Hb as [->|Hb]; [cbn [length]; by rewrite Hlen, Nat.add_0_r|];
        rewrite Hlen;
        transitivity true; [|symmetry]; apply Nat.ltb_lt; lia).
  all: rewrite Hq.
  all: destruct (negb _ && _) eqn:Hguard; [|injection Hrun as <- <-; by eauto].
  - done.
  - unfold mbind, M_bind, bind in *.
    destruct (crawlStep env rootUrl source maxPages batchSize st w)
      as [[st1| |] w1] eqn:Hs; try done.
    destruct (crawlStep_batched _ _ _ _ _ _ HB Hs) as (g1 & v1 & -> & HB1).
    by eapply IH.
Qed.

(** A batched crawl that returns has stored the site that the crawl in
    memory returns, after the same requests. *)
Lemma scrapeAndSaveSite_refines fuel w w' :
  scrapeAndSaveSite env fuel rootUrl source maxPages batchSize w
    = (Returned tt, w') →
  ∃ d v',
    ScrapeSite.scrapeSite env fuel rootUrl maxPages w = (Returned d, v') ∧
    snapshot source w' = Some d ∧ sameNetwork w' v'.
Proof.
  unfold scrapeAndSaveSite, ScrapeSite.scrapeSite, mbind, M_bind.
  unfold bind at 1.
  destruct (findOneAndUpdate env source _ false w) as [[[]| |] w0] eqn:Hinit;
    try done.
  assert (Batched source maxPages (mkFrontier [rootUrl] ∅ [] 0) w0
            (ScrapeSite.mkLocals [rootUrl] ∅ (mkSite "" rootUrl [])) w) as HB.
  { revert Hinit. msimpl. destruct (dbError env (dbCalls w)); [done|].
    intros [= <-]. unfold Batched. split_and!; try done.
    exists (mkSite "" rootUrl []). split_and!; try done; [|by left].
    unfold snapshot. wsimpl. by rewrite lookup_insert_eq. }
  unfold bind at 1.
  destruct (crawlLoop env fuel rootUrl source maxPages batchSize _ w0)
    as [[st| |] w1] eqn:Hloop; try done.
  destruct (crawlLoop_batched _ _ _ _ _ _ _ HB Hloop)
    as (g1 & v1 & Hg & _ & _ & Hnet & d & Hd & Hdata & _).
  intros Hrun. exists (ScrapeSite.data g1), v1.
  split; [unfold bind; by rewrite Hg|].
  destruct (bool_decide (currentBatch st = [])) eqn:Hbatch.
  - apply bool_decide_eq_true in Hbatch. injection Hrun as <-.
    split; [|done]. rewrite Hd, Hdata, Hbatch, app_nil_r. by destruct d.
  - unfold bind in Hrun.
    destruct (saveFinalBatch env rootUrl source (currentBatch st)
                (totalPagesSaved st) w1) as [[t| |] w2] eqn:Hsave; try done.
    injection Hrun as <-.
    apply saveFinalBatch_site in Hsave as (Hnet2 & _ & Hsite). split.
    + rewrite Hdata. by apply Hsite.
    + destruct Hnet2 as (? & ? & ?), Hnet as (? & ? & ?).
      unfold sameNetwork. split_and!; congruence.
Qed.

(** X10. Batching is transparent.  Whenever the batched crawl of
    [scrapeAndSaveSite] returns, the site it leaves in the store is the very
    value that the earlier [scrapeSite], which keeps all pages in memory,
    returns for the same root URL and ceiling from the same state of the
    network; both have then issued the same requests and waited as long. *)
Theorem batching_is_transparent fuel w w' :
  scrapeAndSaveSite env fuel rootUrl source maxPages batchSize w
    = (Returned tt, w') →
  ∃ d v',
    ScrapeSite.scrapeSite env fuel rootUrl maxPages w = (Returned d, v') ∧
    snapshot source w' = Some d ∧
    requested w' = requested v' ∧ clock w' = clock v'.
Proof.
  intros Hrun.
  destruct (scrapeAndSaveSite_refines _ _ _ Hrun)
    as (d & v' & Hs & Hd & _ & Hr & Hc).
  by exists d, v'.
Qed.

End Batching.

(** X11. The batch size does not show in the result.  Two crawls of the same
    site from the same state that differ in [batchSize] only and that both
    return leave the same site in the store, after the same requests in the
    same order. *)
Theorem batch_size_is_immaterial env fuel rootUrl source maxPages b1 b2
    w w1 w2 :
  scrapeAndSaveSite env fuel rootUrl source maxPages b1 w = (Returned tt, w1) →
  scrapeAndSaveSite env fuel rootUrl source maxPages b2 w = (Returned tt, w2) →
  snapshot source w1 = snapshot source w2 ∧
  is_Some (snapshot source w1) ∧
  requested w1 = requested w2 ∧ clock w1 = clock w2.
Proof.
  intros H1 H2.
  destruct (scrapeAndSaveSite_refines _ _ _ _ _ _ _ _ H1)
    as (d1 & v1 & Hs1 & Hd1 & _ & Hr1 & Hc1).
  destruct (scrapeAndSaveSite_refines _ _ _ _ _ _ _ _ H2)
    as (d2 & v2 & Hs2 & Hd2 & _ & Hr2 & Hc2).
  rewrite Hs1 in Hs2. injection Hs2 as <- <-.
  rewrite Hd1, Hd2. split_and!; [done|by eexists|congruence|congruence].
Qed.


(** * Answering a message *)

Section Answering.
Variable env : Env.
Variable svc : Services.

Lemma snippet_Flag b : snippet (Flag b) = "".
Proof. reflexivity. Qed.

Lemma nonEmpty_true s : nonEmpty s = true → s ≠ "".
Proof.
  unfold nonEmpty. intros H ->. by rewrite String.eqb_refl in H.
Qed.

Lemma nonEmpty_false s : nonEmpty s = false → s = "".
Proof.
  unfold nonEmpty. intros H. apply negb_false_iff in H.
  by apply String.eqb_eq in H.
Qed.

(** X12. [POST /message] always answers: the handler never throws.  It
    answers 400 exactly when [message] is not a non-empty string, and has
    then done nothing at all.  It answers 500 with the message of the error
    when a store operation or the call to the model failed, and has then
    stored nothing.  Otherwise the answer it sends is the one it has stored
    under 'last_conversation', next to the question.  In no case does it
    change another document, start a refresh or fetch a page. *)
Theorem postMessage_always_answers message' conversationId w o w' :
  postMessage env svc message' conversationId w = (o, w') →
  refreshStatus w' = refreshStatus w ∧ requested w' = requested w ∧
  (∀ k, k ≠ "last_conversation" → store w' !! k = store w !! k) ∧
  match o with
  | Returned (Status400 _) =>
      (∀ s, message' = VString s → s = "") ∧ w' = w
  | Returned (MessageStatus500 _ msg) =>
      (∃ q, message' = VString q ∧ q ≠ "") ∧
      store w' = store w ∧
      ((∃ n e, dbError env n = Some e ∧ msg = message e) ∨
       (msg = "Failed to generate response from AI model" ∧
        ∃ prompt e, generateContent svc (clock w) prompt = AiFailure e))
  | Returned (Answered _ answer _ _ _) =>
      ∃ userMessage c t,
        message' = VString userMessage ∧ userMessage ≠ "" ∧
        store w' !! "last_conversation" =
          Some (mkDoc (COther (stringify svc
                  (mkConversation userMessage answer (clock w) c))) t)
  | Thrown _ => False
  | Unsettled => False
  end.
Proof.
  unfold postMessage.
  destruct message' as [q|b]; [|intros [= <- <-]; split_and!; try done].
  destruct (nonEmpty q) eqn:Hq.
  2:{ intros [= <- <-]. split_and!; try done.
      intros s [= <-]. by apply nonEmpty_false. }
  apply nonEmpty_true in Hq.
  unfold getGitLabData, generateResponse, findOneAndUpdateContent. msimpl.
  destruct (dbError env (dbCalls w)) eqn:Hdb1; wsimpl.
  { intros [= <- <-]. wsimpl. split_and!; try done; eauto. }
  destruct (dbError env (S (dbCalls w))) eqn:Hdb2; wsimpl.
  { intros [= <- <-]. wsimpl. split_and!; try done; eauto. }
  destruct (generateContent svc (clock w) _) as [a|e] eqn:Hai; wsimpl.
  2:{ intros [= <- <-]. wsimpl. split_and!; try done; eauto. }
  destruct (dbError env (S (S (dbCalls w)))) eqn:Hdb3; wsimpl.
  { intros [= <- <-]. wsimpl. split_and!; try done; eauto. }
  intros [= <- <-]. wsimpl. split_and!; try done.
  - intros k Hk. by rewrite lookup_insert_ne.
  - eexists q, _, _. split_and!; try done. by rewrite lookup_insert_eq.
Qed.

(** What an answered request has been through. *)
Lemma postMessage_answered message' conversationId w id answer t cid srcs w' :
  postMessage env svc message' conversationId w
    = (Returned (Answered id answer t cid srcs), w') →
  ∃ q,
    message' = VString q ∧ q ≠ "" ∧
    generateContent svc (clock w) (answerPrompt "" "" q) = Generated answer ∧
    srcs =
      mkSources
        (if bool_decide (is_Some (store w !! "handbook"))
         then Some GITLAB_SOURCES_handbook else None)
        (if bool_decide (is_Some (store w !! "direction"))
         then Some GITLAB_SOURCES_direction else None)
        (match store w !! "handbook" with
         | Some doc => Some (scrapedAt doc)
         | None => scrapedAt <$> store w !! "direction"
         end) ∧
    id = pretty (clock w) ∧ t = clock w ∧
    cid = (if truthyValue conversationId then conversationId
           else VString (pretty (clock w))).
Proof.
  unfold postMessage.
  destruct message' as [q|b]; [|done].
  destruct (nonEmpty q) eqn:Hq; [|done].
  apply nonEmpty_true in Hq.
  unfold getGitLabData, generateResponse, findOneAndUpdateContent. msimpl.
  destruct (dbError env (dbCalls w)); wsimpl; [done|].
  destruct (dbError env (S (dbCalls w))); wsimpl; [done|].
  cbn [handbook direction lastUpdated]. rewrite !snippet_Flag.
  destruct (generateContent svc (clock w) _) as [a|e] eqn:Hai; wsimpl; [|done].
  destruct (dbError env (S (S (dbCalls w)))); wsimpl; [done|].
  intros [= <- <- <- <- <- <-]. exists q. by split_and!.
Qed.

(** X13. The snapshots never reach the model.  [getGitLabData] hands
    [generateResponse] two booleans where it reads [pages], so the prompt of
    an answered message is the template with both reference snippets empty,
    whatever is stored: the answer is what the model made of the question
    alone. *)
Theorem answer_ignores_snapshots message' conversationId w id answer t cid
    srcs w' :
  postMessage env svc message' conversationId w
    = (Returned (Answered id answer t cid srcs), w') →
  ∃ q, message' = VString q ∧
       generateContent svc (clock w) (answerPrompt "" "" q) = Generated answer.
Proof.
  intros Hrun.
  destruct (postMessage_answered _ _ _ _ _ _ _ _ _ Hrun)
    as (q & Hm & _ & Hai & _).
  by exists q.
Qed.

(** X14. The reply names a source exactly when some document is stored
    under its key, whatever that document holds; [lastUpdated] is the
    [scrapedAt] of the handbook document, of the direction document when
    there is no handbook, and [null] when there is neither.  A truthy
    [conversationId] is sent back as it came. *)
Theorem reply_reflects_the_store message' conversationId w id answer t cid
    srcs w' :
  postMessage env svc message' conversationId w
    = (Returned (Answered id answer t cid srcs), w') →
  (sourceHandbook srcs = Some GITLAB_SOURCES_handbook ↔
     is_Some (store w !! "handbook")) ∧
  (sourceHandbook srcs = None ↔ store w !! "handbook" = None) ∧
  (sourceDirection srcs = Some GITLAB_SOURCES_direction ↔
     is_Some (store w !! "direction")) ∧
  (sourceDirection srcs = None ↔ store w !! "direction" = None) ∧
  sourceLastUpdated srcs =
    match store w !! "handbook" with
    | Some doc => Some (scrapedAt doc)
    | None => scrapedAt <$> store w !! "direction"
    end ∧
  (truthyValue conversationId = true → cid = conversationId).
Proof.
  intros Hrun.
  destruct (postMessage_answered _ _ _ _ _ _ _ _ _ Hrun)
    as (q & _ & _ & _ & -> & _ & _ & ->).
  cbn [sourceHandbook sourceDirection sourceLastUpdated].
  split_and!; try done.
  - destruct (store w !! "handbook");
      [rewrite bool_decide_eq_true_2 by eauto
      |rewrite bool_decide_eq_false_2 by (by intros [? ?])];
      split; try done; by intros [? ?].
  - destruct (store w !! "handbook");
      [rewrite bool_decide_eq_true_2 by eauto
      |rewrite bool_decide_eq_false_2 by (by intros [? ?])];
      split; done.
  - destruct (store w !! "direction");
      [rewrite bool_decide_eq_true_2 by eauto
      |rewrite bool_decide_eq_false_2 by (by intros [? ?])];
      split; try done; by intros [? ?].
  - destruct (store w !! "direction");
      [rewrite bool_decide_eq_true_2 by eauto
      |rewrite bool_decide_eq_false_2 by (by intros [? ?])];
      split; done.
  - by intros ->.
Qed.

(** X15. After a refresh that went through, every message answered from
    that store names both sources, whatever the crawl found, dated with the
    stamp this refresh put on the handbook snapshot: a time between the
    start of the refresh and its end. *)
Theorem refreshed_sources_are_cited fuel w w1 v message' conversationId id
    answer t cid srcs v' :
  scrapeGitLabData env fuel w = (Returned tt, w1) →
  store v = store w1 →
  postMessage env svc message' conversationId v
    = (Returned (Answered id answer t cid srcs), v') →
  ∃ stamp,
    srcs = mkSources (Some GITLAB_SOURCES_handbook)
                     (Some GITLAB_SOURCES_direction) (Some stamp) ∧
    (scrapedAt <$> store w1 !! "handbook") = Some stamp ∧
    clock w ≤ stamp ≤ clock w1.
Proof.
  intros Hrefresh Hstore Hrun.
  destruct (scrapeGitLabData_promoted _ _ _ _ Hrefresh)
    as (dh & dd & th & td & Hh & Hd & _ & _ & _ & Hth & _).
  destruct (postMessage_answered _ _ _ _ _ _ _ _ _ Hrun)
    as (q & _ & _ & _ & -> & _).
  exists th. rewrite Hstore, Hh, Hd.
  by rewrite !bool_decide_eq_true_2 by eauto.
Qed.

End Answering.

(** * What makes a refresh fail *)

Section Blame.
Variable env : Env.

Lemma store_failed n e : dbError env n = Some e → ∃ n, is_Some (dbError env n).
Proof. intros H. exists n. by rewrite H. Qed.

Lemma promotion_blames w e w' :
  withTransaction env (promoteStaging env) w = (Thrown e, w') →
  ∃ n, is_Some (dbError env n).
Proof.
  unfold withTransaction, promoteStaging, stagingKeys. msimpl.
  repeat match goal with
    | |- context [dbError env ?n] =>
        let E := fresh "Hdb" in
        destruct (dbError env n) eqn:E; wsimpl;
        [intros _; by eapply store_failed|]
    | |- context [match store ?v !! ?k with _ => _ end] =>
        destruct (store v !! k); wsimpl
    end; done.
Qed.

Lemma scrapeGitLabData_blames fuel w e w' :
  scrapeGitLabData env fuel w = (Thrown e, w') →
  faulty env.
Proof.
  unfold scrapeGitLabData. fold (stagedRefresh env fuel).
  unfold tryCatch at 1.
  destruct (stagedRefresh env fuel w) as [[[]|e1|] w1] eqn:Hbody; [done| |done].
  intros _. unfold stagedRefresh, mbind, M_bind, bind in Hbody.
  destruct (scrapeAndSaveSite_confined env GITLAB_SOURCES_handbook
              "handbook_staging" 50 10 fuel w) as (oA & wA & HrA & _ & _ & HA).
  rewrite HrA in Hbody. destruct oA as [[]|eA|]; [|by eapply HA|done].
  destruct (scrapeAndSaveSite_confined env GITLAB_SOURCES_direction
              "direction_staging" 50 10 fuel wA) as (oB & wB & HrB & _ & _ & HB).
  rewrite HrB in Hbody. destruct oB as [[]|eB|]; [|by eapply HB|done].
  unfold startSession, dbRoundTrip in Hbody.
  destruct (dbError env (dbCalls wB)) eqn:Hdb; [left; by eapply store_failed|].
  unfold tryFinally, endSession, modify in Hbody.
  destruct (withTransaction env (promoteStaging env) (countDb [] wB))
    as [[[]|eT|] wT] eqn:HT; [done| |done].
  left. by eapply promotion_blames.
Qed.

(** X16. What can make a refresh fail.  When a refresh reports failure,
    some store operation has failed or some response carried a body that the
    markup library rejects, on which [cheerio.load] throws outside every
    [try].  A fetch that fails cannot do it, whatever its error: it is given
    up inside the crawl. *)
Theorem what_makes_a_refresh_fail fuel w r w' :
  isRefreshing (refreshStatus w) = false →
  backgroundRefresh env fuel w = (Returned r, w') →
  success r = false →
  (∃ n, is_Some (dbError env n)) ∨
  (∃ n u e, http env n u = Response (Rejected e)).
Proof.
  intros Hidle Hrun Hfail. unfold backgroundRefresh in Hrun. msimpl.
  rewrite Hidle in Hrun.
  destruct (scrapeGitLabData env fuel (beginRefresh w)) as [[[]|e|] w1] eqn:Hs;
    wsimpl.
  - injection Hrun as <- _. done.
  - by eapply scrapeGitLabData_blames.
  - done.
Qed.

(** X17. With a store that works and no response whose body the markup
    library rejects, a refresh over two finite sites succeeds whichever
    fetches fail: it reports success, leaves a site in production under both
    keys, no error on record and [isRefreshing] false. *)
Theorem refresh_succeeds_on_finite_sites fuel w handbookSite directionSite :
  closedSite env GITLAB_SOURCES_handbook handbookSite →
  closedSite env GITLAB_SOURCES_direction directionSite →
  6 * size handbookSite + 1 ≤ fuel →
  6 * size directionSite + 1 ≤ fuel →
  (∀ n, dbError env n = None) →
  (∀ n u e, http env n u ≠ Response (Rejected e)) →
  isRefreshing (refreshStatus w) = false →
  ∃ w',
    backgroundRefresh env fuel w =
      (Returned (mkResult true "Refresh completed successfully"), w') ∧
    is_Some (snapshot "handbook" w') ∧
    is_Some (snapshot "direction" w') ∧
    lastRefreshError (refreshStatus w') = None ∧
    isRefreshing (refreshStatus w') = false.
Proof.
  intros Hh Hd Fh Fd Hdb Hload Hidle.
  pose proof (scrapeGitLabData_settles env fuel _ _ Hh Hd Fh Fd
                (beginRefresh w)) as Hsettles.
  pose proof (keeps_framed_scrapeGitLabData env fuel (beginRefresh w))
    as (_ & _ & _ & Hstatus).
  unfold backgroundRefresh. msimpl. rewrite Hidle.
  destruct (scrapeGitLabData env fuel (beginRefresh w)) as [[[]|e|] w1] eqn:Hs;
    wsimpl; [| |done].
  - destruct (scrapeGitLabData_promoted _ _ _ _ Hs)
      as (dh & dd & th & td & Hph & Hpd & _).
    eexists. split; [reflexivity|]. unfold snapshot, clearRefreshing. wsimpl.
    rewrite Hph, Hpd, Hstatus. by split_and!.
  - destruct (scrapeGitLabData_blames _ _ _ _ Hs)
      as [(n & Hn)|(n & u & e' & Hrej)].
    + rewrite Hdb in Hn. by destruct Hn.
    + by apply Hload in Hrej.
Qed.

End Blame.

(** * A site that does not change *)

Section Stationary.
Variable env : Env.
Hypothesis site_stationary : stationary env.

Lemma fetchWithRetry_stationary remaining u attempt w v :
  (fetchWithRetry env remaining u attempt w).1 =
  (fetchWithRetry env remaining u attempt v).1.
Proof.
  revert attempt w v. induction remaining as [|k IH]; intros attempt w v.
  - done.
  - pose proof (site_stationary (httpCalls v) (httpCalls w) u) as Hv.
    destruct (http env (httpCalls w) u) as [d|e] eqn:H.
    + rewrite (fetch_attempt_succeeds _ _ _ _ _ _ H).
      by rewrite (fetch_attempt_succeeds _ _ _ _ _ _ Hv).
    + rewrite (fetch_attempt_fails _ _ _ _ _ _ H).
      rewrite (fetch_attempt_fails _ _ _ _ _ _ Hv). cbv zeta.
      destruct (transient e && (S attempt <? 3)); [apply IH|done].
Qed.

Lemma turn_stationary rootUrl maxPages g w v :
  ∃ o w' v',
    ScrapeSite.turn env rootUrl maxPages g w = (o, w') ∧
    ScrapeSite.turn env rootUrl maxPages g v = (o, v').
Proof.
  unfold ScrapeSite.turn.
  destruct (ScrapeSite.queue g) as [|u rest]; [by eexists _, _, _|].
  destruct (bool_decide _); [by eexists _, _, _|].
  pose proof (fetchWithRetry_stationary 3 u 0 w v) as Hsame.
  destruct (fetchWithRetry_effect env 3 u 0 w) as (r & n & ms & Hw & _).
  destruct (fetchWithRetry_effect env 3 u 0 v) as (r' & n' & ms' & Hv & _).
  rewrite Hw, Hv in Hsame. injection Hsame as <-.
  unfold mbind, M_bind, bind. rewrite Hw, Hv.
  destruct r as [[h|e]|]; by eexists _, _, _.
Qed.

Lemma loop_stationary fuel rootUrl maxPages g w v :
  (ScrapeSite.loop env fuel rootUrl maxPages g w).1 =
  (ScrapeSite.loop env fuel rootUrl maxPages g v).1.
Proof.
  revert g w v. induction fuel as [|fuel IH]; intros g w v;
    cbn [ScrapeSite.loop]; destruct (negb _ && _); try done.
  destruct (turn_stationary rootUrl maxPages g w v)
    as (o & w' & v' & Hw & Hv).
  unfold mbind, M_bind, bind. rewrite Hw, Hv.
  destruct o as [g'|e|]; [apply IH|done..].
Qed.

Lemma scrapeSite_stationary fuel rootUrl maxPages w v :
  (ScrapeSite.scrapeSite env fuel rootUrl maxPages w).1 =
  (ScrapeSite.scrapeSite env fuel rootUrl maxPages v).1.
Proof.
  unfold ScrapeSite.scrapeSite, mbind, M_bind, bind.
  pose proof (loop_stationary fuel rootUrl maxPages
                (ScrapeSite.mkLocals [rootUrl] ∅ (mkSite "" rootUrl [])) w v)
    as Hsame.
  destruct (ScrapeSite.loop env fuel rootUrl maxPages _ w) as [[g1| |] w1],
           (ScrapeSite.loop env fuel rootUrl maxPages _ v) as [[g2| |] v1];
    cbn [fst] in *; unfold mret, M_ret, ret; cbn [fst]; congruence.
Qed.

(** X18. The snapshot is a function of the site.  When the network answers
    each URL the same way every time, two crawls of the same root that both
    return leave the same site object under their source: whatever was
    stored before, whenever they start, however many requests came before,
    and whatever the batch size. *)
Theorem snapshot_depends_on_the_site_only fuel rootUrl source maxPages b1 b2
    w v w' v' :
  scrapeAndSaveSite env fuel rootUrl source maxPages b1 w = (Returned tt, w') →
  scrapeAndSaveSite env fuel rootUrl source maxPages b2 v = (Returned tt, v') →
  snapshot source w' = snapshot source v' ∧ is_Some (snapshot source w').
Proof.
  intros Hw Hv.
  destruct (scrapeAndSaveSite_refines _ _ _ _ _ _ _ _ Hw)
    as (d1 & w1 & Hs1 & -> & _).
  destruct (scrapeAndSaveSite_refines _ _ _ _ _ _ _ _ Hv)
    as (d2 & v1 & Hs2 & -> & _).
  pose proof (scrapeSite_stationary fuel rootUrl maxPages w v) as Hsame.
  rewrite Hs1, Hs2 in Hsame. injection Hsame as <-.
  split; [done|by eexists].
Qed.

End Stationary.

(** * The further properties at work *)

(** With the store down the refresh fails at once, and the attempt is on
    record. *)
Lemma backgroundRefresh_bookkeeping_witness :
  isRefreshing (refreshStatus served) = false ∧
  lastRefreshAttempt (refreshStatus (backgroundRefresh storeDown 1 served).2)
    = Some (clock served) ∧
  startTime (refreshStatus (backgroundRefresh storeDown 1 served).2)
    = Some (clock served).
Proof.
  split; [reflexivity|].
  destruct (backgroundRefresh_bookkeeping storeDown 1 served
              (backgroundRefresh storeDown 1 served).1
              (backgroundRefresh storeDown 1 served).2)
    as (Ha & Hs & _).
  - reflexivity.
  - apply surjective_pairing.
  - split; [exact Ha|exact Hs].
Defined.

(** A trigger during a refresh is answered and changes nothing. *)
Lemma postRefreshData_always_answers_witness :
  match (postRefreshData online 1 busy).1 with
  | Returned (Json msg running _ _ _) =>
      isRefreshing (refreshStatus busy) = true →
      msg = "Refresh already in progress" ∧ running = true ∧
      (postRefreshData online 1 busy).2 = busy
  | Returned (Status500 _ _) => False
  | Thrown _ => False
  | Unsettled => isRefreshing (refreshStatus busy) = false
  end.
Proof.
  apply (postRefreshData_always_answers online 1 busy).
  apply surjective_pairing.
Defined.

(** A refresh against the small handbook goes through. *)
Lemma refresh_success_promotes_witness :
  store (scrapeGitLabData online 10 served).2 !! "handbook_staging" = None ∧
  store (scrapeGitLabData online 10 served).2 !! "direction_staging" = None ∧
  txn (scrapeGitLabData online 10 served).2 = None.
Proof.
  destruct (refresh_success_promotes online 10 served
              (scrapeGitLabData online 10 served).2) as (Hh & Hd & Ht & _).
  - vm_compute. reflexivity.
  - split; [exact Hh|]. split; [exact Hd|exact Ht].
Defined.

(** The root of the handbook answers at the second attempt. *)
Lemma retry_recovers_witness :
  ∃ ms,
    fetchWithRetry flaky 3 GITLAB_SOURCES_handbook 0 fresh =
      (Returned
         (Some (Markup (mkHtml longText "Home" ""
                  ["https://handbook.gitlab.com/a"; "https://other.example/x";
                   "https://handbook.gitlab.com/a"; "#top"]))),
       afterRequests 2 ms GITLAB_SOURCES_handbook fresh) ∧
    1000 * 2 + 750 * 1 * 2 ≤ ms.
Proof.
  apply (retry_recovers flaky GITLAB_SOURCES_handbook fresh 1).
  - lia.
  - intros j Hj. exists connectionReset.
    destruct j as [|j]; [split; reflexivity|lia].
  - reflexivity.
Defined.

(** The crawl of the small handbook. *)
Lemma snapshot_pages_are_fresh_witness :
  let run :=
    scrapeAndSaveSite online 10 GITLAB_SOURCES_handbook "handbook_staging"
      50 10 fresh in
  (store run.2 = store fresh ∧ ∃ e, run.1 = Thrown e) ∨
  ∃ new ps,
    requested run.2 = new ++ requested fresh ∧
    snapshotPages "handbook_staging" run.2 = Some ps ∧
    NoDup (url <$> ps) ∧
    Forall (fun p => url p ∈ new ∧ title p ≠ "" ∧
                     100 < String.length (text p) ≤ 5000) ps.
Proof.
  cbv zeta.
  apply (snapshot_pages_are_fresh online 10 GITLAB_SOURCES_handbook
           "handbook_staging" 50 10 fresh).
  apply surjective_pairing.
Defined.

(** The three pages of the small handbook are all its links lead to. *)
Lemma handbookPages_closed :
  closedSite online GITLAB_SOURCES_handbook handbookPages.
Proof.
  split; [unfold handbookPages; set_solver|].
  intros n u h href a Hu Hh Hin [= <-] Hdom.
  unfold handbookPages in *.
  apply elem_of_union in Hu as [Hu|Hu];
    [apply elem_of_union in Hu as [Hu|Hu]|];
    apply elem_of_singleton in Hu; subst u;
    vm_compute in Hh; injection Hh as <-;
    repeat (apply elem_of_cons in Hin as [->|Hin]);
    try (by apply elem_of_nil in Hin);
    try (vm_compute in Hdom; discriminate Hdom);
    set_solver.
Qed.

(** Nothing answers under the direction root. *)
Lemma directionPages_closed :
  closedSite online GITLAB_SOURCES_direction directionPages.
Proof.
  split; [unfold directionPages; set_solver|].
  intros n u h href a Hu Hh. apply elem_of_singleton in Hu. subst u.
  vm_compute in Hh. discriminate Hh.
Qed.

Lemma handbookPages_size : size handbookPages = 3.
Proof. vm_compute. reflexivity. Qed.

Lemma directionPages_size : size directionPages = 1.
Proof. apply size_singleton. Qed.

(** Nineteen turns are enough for the three pages of the small handbook. *)
Lemma crawl_of_finite_site_ends_witness :
  (scrapeAndSaveSite online 19 GITLAB_SOURCES_handbook "handbook_staging"
     50 10 fresh).1 ≠ Unsettled.
Proof.
  apply (crawl_of_finite_site_ends online GITLAB_SOURCES_handbook
           "handbook_staging" 50 10 handbookPages handbookPages_closed).
  rewrite handbookPages_size. lia.
Defined.

Lemma refresh_of_finite_sites_returns_witness :
  ∃ r, (backgroundRefresh online 19 served).1 = Returned r.
Proof.
  apply (refresh_of_finite_sites_returns online 19 served
           handbookPages directionPages).
  - apply handbookPages_closed.
  - apply directionPages_closed.
  - rewrite handbookPages_size. lia.
  - rewrite directionPages_size. lia.
Defined.

(** The batched crawl of the small handbook stores what the crawl in memory
    returns. *)
Lemma batching_is_transparent_witness :
  ∃ d v',
    ScrapeSite.scrapeSite online 10 GITLAB_SOURCES_handbook 50 fresh
      = (Returned d, v') ∧
    snapshot "handbook_staging"
      (scrapeAndSaveSite online 10 GITLAB_SOURCES_handbook "handbook_staging"
         50 10 fresh).2 = Some d ∧
    requested
      (scrapeAndSaveSite online 10 GITLAB_SOURCES_handbook "handbook_staging"
         50 10 fresh).2 = requested v' ∧
    clock
      (scrapeAndSaveSite online 10 GITLAB_SOURCES_handbook "handbook_staging"
         50 10 fresh).2 = clock v'.
Proof.
  apply (batching_is_transparent online GITLAB_SOURCES_handbook
           "handbook_staging" 50 10 10 fresh).
  vm_compute. reflexivity.
Defined.

(** Saving page by page or ten at a time gives the same snapshot. *)
Lemma batch_size_is_immaterial_witness :
  snapshot "handbook_staging"
    (scrapeAndSaveSite online 10 GITLAB_SOURCES_handbook "handbook_staging"
       50 1 fresh).2 =
  snapshot "handbook_staging"
    (scrapeAndSaveSite online 10 GITLAB_SOURCES_handbook "handbook_staging"
       50 10 fresh).2.
Proof.
  destruct (batch_size_is_immaterial online 10 GITLAB_SOURCES_handbook
              "handbook_staging" 50 1 10 fresh
              (scrapeAndSaveSite online 10 GITLAB_SOURCES_handbook
                 "handbook_staging" 50 1 fresh).2
              (scrapeAndSaveSite online 10 GITLAB_SOURCES_handbook
                 "handbook_staging" 50 10 fresh).2) as (H & _).
  - vm_compute. reflexivity.
  - vm_compute. reflexivity.
  - exact H.
Defined.


(** A question asked while the store holds an earlier refresh. *)
Lemma postMessage_always_answers_witness :
  refreshStatus (postMessage online assistant (VString whatIsGitLab)
                   (VOther false) served).2 = refreshStatus served ∧
  requested (postMessage online assistant (VString whatIsGitLab)
               (VOther false) served).2 = requested served ∧
  store (postMessage online assistant (VString whatIsGitLab)
           (VOther false) served).2 !! "handbook" = store served !! "handbook".
Proof.
  destruct (postMessage_always_answers online assistant (VString whatIsGitLab)
              (VOther false) served
              (postMessage online assistant (VString whatIsGitLab)
                 (VOther false) served).1
              (postMessage online assistant (VString whatIsGitLab)
                 (VOther false) served).2) as (Hr & Hq & Hs & _).
  - apply surjective_pairing.
  - split; [exact Hr|]. split; [exact Hq|]. apply Hs. discriminate.
Defined.

Lemma answer_ignores_snapshots_witness :
  ∃ q, VString whatIsGitLab = VString q ∧
       generateContent assistant (clock served) (answerPrompt "" "" q)
         = Generated openCore.
Proof.
  eapply (answer_ignores_snapshots online assistant (VString whatIsGitLab)
            (VOther false) served).
  reflexivity.
Defined.

Lemma reply_reflects_the_store_witness :
  sourceLastUpdated
    (mkSources (Some GITLAB_SOURCES_handbook) (Some GITLAB_SOURCES_direction)
       (Some 7)) =
  match store served !! "handbook" with
  | Some doc => Some (scrapedAt doc)
  | None => scrapedAt <$> store served !! "direction"
  end.
Proof.
  eapply (reply_reflects_the_store online assistant (VString whatIsGitLab)
            (VOther false) served).
  reflexivity.
Defined.

(** Asked right after a refresh against the small handbook. *)
Lemma refreshed_sources_are_cited_witness :
  ∃ stamp,
    mkSources (Some GITLAB_SOURCES_handbook) (Some GITLAB_SOURCES_direction)
      (Some 4010) =
    mkSources (Some GITLAB_SOURCES_handbook) (Some GITLAB_SOURCES_direction)
      (Some stamp) ∧
    (scrapedAt <$> store (scrapeGitLabData online 10 served).2 !! "handbook")
      = Some stamp ∧
    clock served ≤ stamp ≤ clock (scrapeGitLabData online 10 served).2.
Proof.
  eapply (refreshed_sources_are_cited online assistant 10 served
            (scrapeGitLabData online 10 served).2
            (scrapeGitLabData online 10 served).2
            (VString whatIsGitLab) (VOther false)).
  - vm_compute. reflexivity.
  - reflexivity.
  - vm_compute. reflexivity.
Defined.


(** The home page links to a JSON document: the refresh fails with the
    store at work, and production is as it was. *)
Example refresh_over_json :
  let r := backgroundRefresh jsonLinked 10 served in
  r.1 = Returned (mkResult false
          "Refresh failed: Cannot create property 'prev' on number '1'") ∧
  store r.2 !! "handbook" = Some oldHandbook ∧
  store r.2 !! "direction" = Some oldDirection ∧
  lastRefreshError (refreshStatus r.2)
    = Some "Cannot create property 'prev' on number '1'".
Proof. vm_compute. done. Qed.

Lemma what_makes_a_refresh_fail_witness :
  (∃ n, is_Some (dbError jsonLinked n)) ∨
  (∃ n u e, http jsonLinked n u = Response (Rejected e)).
Proof.
  eapply (what_makes_a_refresh_fail jsonLinked 10 served).
  - reflexivity.
  - vm_compute. reflexivity.
  - reflexivity.
Defined.

Lemma online_loads n u e : http online n u ≠ Response (Rejected e).
Proof.
  cbn [http online]. unfold handbookSite.
  by repeat destruct (String.eqb _ _).
Qed.

(** The small handbook, with the store at work. *)
Lemma refresh_succeeds_on_finite_sites_witness :
  ∃ w',
    backgroundRefresh online 19 served =
      (Returned (mkResult true "Refresh completed successfully"), w') ∧
    is_Some (snapshot "handbook" w') ∧
    is_Some (snapshot "direction" w') ∧
    lastRefreshError (refreshStatus w') = None ∧
    isRefreshing (refreshStatus w') = false.
Proof.
  apply (refresh_succeeds_on_finite_sites online 19 served
           handbookPages directionPages).
  - apply handbookPages_closed.
  - apply directionPages_closed.
  - rewrite handbookPages_size. lia.
  - rewrite directionPages_size. lia.
  - intros n. reflexivity.
  - apply online_loads.
  - reflexivity.
Defined.


(** A first crawl and a later one of the small handbook store the same. *)
Lemma snapshot_depends_on_the_site_only_witness :
  snapshot "handbook_staging"
    (scrapeAndSaveSite online 10 GITLAB_SOURCES_handbook "handbook_staging"
       50 1 fresh).2 =
  snapshot "handbook_staging"
    (scrapeAndSaveSite online 10 GITLAB_SOURCES_handbook "handbook_staging"
       50 10 served).2.
Proof.
  apply (snapshot_depends_on_the_site_only online ltac:(by intros n m u)
           10 GITLAB_SOURCES_handbook "handbook_staging" 50 1 10 fresh served).
  - vm_compute. reflexivity.
  - vm_compute. reflexivity.
Defined.
